(** * jobs-portal-server: the request handlers of the job-listing backend

    A shallow embedding of the Express application (authentication gate,
    login, public and admin job routes) over an explicit datastore state,
    followed by the properties of the handlers. The statistics route and
    the health probe are left out.

    Conventions of the model:
    - a JavaScript string is the [string] of its UTF-8 encoding, so a
      character may take several [ascii] bytes;
    - JavaScript numbers are exact (integers as [Z], body numbers as
      rationals with the two infinities and NaN): the rounding that
      JavaScript applies beyond 2^53 is not represented;
    - [req.body], [req.query], [req.params] and [req.headers] are finite
      maps from property names to values, and a missing property reads as
      [undefined]; a body property is a JSON scalar (null, boolean,
      number, string) and a query parameter is one text (Express parses
      repeated and bracketed parameters to arrays and objects, which are
      not modelled);
    - the [jobs] and [admins] tables are lists of rows; every handler maps
      the state before the request to a response and the state after it;
    - the libraries the server calls (ECMAScript number conversions, the
      PostgreSQL input functions and ILIKE, bcryptjs, jsonwebtoken) are the
      fields of the class [Platform]. *)

From Stdlib Require Import ZArith QArith List String Ascii Bool Lia DecimalString.
From stdpp Require Import base option countable strings gmap sorting.
Import ListNotations.

Local Open Scope string_scope.
Local Open Scope Z_scope.

(** ** JavaScript values *)

(** A JavaScript number: NaN, the infinities, or a finite value. *)
Inductive number : Type :=
  | NaN
  | NegInfinity
  | Finite (q : Q)
  | PosInfinity.

(** What a property of a parsed JSON body, or a missing property, holds. *)
Inductive jsval : Type :=
  | JUndefined
  | JNull
  | JBool (b : bool)
  | JNum (x : number)
  | JStr (s : string).

Definition is_zero (x : number) : bool :=
  match x with
  | Finite q => Qeq_bool q 0
  | _ => false
  end.

(** ToBoolean: [undefined], [null], [false], [0], [NaN] and [''] are falsy. *)
Definition truthy (v : jsval) : bool :=
  match v with
  | JUndefined | JNull => false
  | JBool b => b
  | JNum NaN => false
  | JNum x => negb (is_zero x)
  | JStr s => negb (String.eqb s "")
  end.

(** [a || b] on values. *)
Definition js_or (a b : jsval) : jsval := if truthy a then a else b.

(** [v !== null && v !== undefined] *)
Definition is_present (v : jsval) : bool :=
  match v with
  | JUndefined | JNull => false
  | _ => true
  end.

(** [Number.isNaN] *)
Definition isNaN (x : number) : bool :=
  match x with NaN => true | _ => false end.

(** [a > b] on numbers: false as soon as one side is NaN. *)
Definition num_gt (a b : number) : bool :=
  match a, b with
  | NaN, _ | _, NaN => false
  | NegInfinity, _ => false
  | _, PosInfinity => false
  | PosInfinity, _ => true
  | Finite _, NegInfinity => true
  | Finite x, Finite y => negb (Qle_bool x y)
  end.

(** Property access on a parsed object. *)
Definition prop (o : gmap string jsval) (k : string) : jsval :=
  default JUndefined (o !! k).

(** ** parseInt(s, 10), [||] on its result, and String.prototype.split *)

(** The white space that [parseInt] skips: TAB, LF, VT, FF, CR and SP as
    one byte, U+00A0 as two, and U+1680, U+2000 to U+200A, U+2028, U+2029,
    U+202F, U+205F, U+3000 and U+FEFF as three. *)
Definition is_white_space (c : ascii) : bool :=
  let n := nat_of_ascii c in
  ((9 <=? n) && (n <=? 13))%nat || (n =? 32)%nat.

Definition is_white_space2 (c1 c2 : ascii) : bool :=
  (nat_of_ascii c1 =? 194)%nat && (nat_of_ascii c2 =? 160)%nat.

Definition is_white_space3 (c1 c2 c3 : ascii) : bool :=
  let '(a, b, c) := (nat_of_ascii c1, nat_of_ascii c2, nat_of_ascii c3) in
  ((a =? 225) && (b =? 154) && (c =? 128))%nat
  || ((a =? 226) && (b =? 128)
      && (((128 <=? c) && (c <=? 138)) || (c =? 168) || (c =? 169)
          || (c =? 175)))%nat
  || ((a =? 226) && (b =? 129) && (c =? 159))%nat
  || ((a =? 227) && (b =? 128) && (c =? 128))%nat
  || ((a =? 239) && (b =? 187) && (c =? 191))%nat.

Fixpoint trim_start (s : string) : string :=
  match s with
  | String c1 s1 =>
      if is_white_space c1 then trim_start s1
      else
        match s1 with
        | String c2 s2 =>
            if is_white_space2 c1 c2 then trim_start s2
            else
              match s2 with
              | String c3 s3 =>
                  if is_white_space3 c1 c2 c3 then trim_start s3 else s
              | EmptyString => s
              end
        | EmptyString => s
        end
  | EmptyString => EmptyString
  end.

Definition digit_value (c : ascii) : option Z :=
  let n := Z.of_nat (nat_of_ascii c) in
  if (48 <=? n) && (n <=? 57) then Some (n - 48) else None.

(** The value of the longest prefix of decimal digits; [None] when the
    string does not start with a digit. *)
Fixpoint digits_prefix (acc : option Z) (s : string) : option Z :=
  match s with
  | String c s' =>
      match digit_value c with
      | Some d => digits_prefix (Some (10 * default 0 acc + d)) s'
      | None => acc
      end
  | EmptyString => acc
  end.

(** [parseInt(s, 10)]; [None] is NaN. *)
Definition parseInt (s : string) : option Z :=
  let s1 := trim_start s in
  let '(sign, s2) :=
    match s1 with
    | String "-" r => (-1, r)
    | String "+" r => (1, r)
    | _ => (1, s1)
    end in
  match digits_prefix None s2 with
  | Some n => Some (sign * n)
  | None => None
  end.

(** [n || d] for the result of [parseInt]: NaN and 0 are falsy. *)
Definition num_or (n : option Z) (d : Z) : Z :=
  match n with
  | Some k => if k =? 0 then d else k
  | None => d
  end.

(** [s || d] for a query parameter: [undefined] and [''] are falsy. *)
Definition str_or (s : option string) (d : string) : string :=
  match s with
  | Some t => if String.eqb t "" then d else t
  | None => d
  end.

(** [s.split(c)] for a one-character separator. *)
Fixpoint split (c : ascii) (s : string) : list string :=
  match s with
  | EmptyString => [EmptyString]
  | String a s' =>
      if Ascii.eqb a c then EmptyString :: split c s'
      else match split c s' with
           | w :: ws => String a w :: ws
           | [] => [String a EmptyString]
           end
  end.

(** ** The libraries and the process environment *)

(** The payload that [jwt.verify] hands back: the identity signed at login
    with the issue and expiry times (seconds) that [jwt.sign] adds. *)
Module Claims.
Record t : Type := mk
  { id : Z;
    username : string;
    iat : Z;
    exp : Z }.
End Claims.

(** What the server takes from outside the repository.
    - [StringToNumber], [NumberToString]: the ECMAScript conversions behind
      [Number(s)] and [x.toString()];
    - [int4in], [boolin]: the PostgreSQL input functions of INTEGER and
      BOOLEAN ([None]: the text is rejected); [ilike text pattern]: ILIKE;
    - [bcrypt_compare password hash]: [bcrypt.compare] on two strings;
    - [jwt_sign id username secret iat lifetime]: [jwt.sign] of the payload
      [{id, username}] at clock [iat] with [expiresIn] of [lifetime] seconds;
      [jwt_verify token secret clock]: [jwt.verify], [None] when it reports
      an error;
    - [JWT_SECRET]: [process.env.JWT_SECRET], which [validateEnv] requires
      to be set and not empty before the server listens. *)
Class Platform : Type := mkPlatform
  { StringToNumber : string -> number;
    NumberToString : number -> string;
    int4in : string -> option Z;
    boolin : string -> option bool;
    ilike : string -> string -> bool;
    bcrypt_compare : string -> string -> bool;
    jwt_sign : Z -> string -> string -> Z -> Z -> string;
    jwt_verify : string -> string -> Z -> option Claims.t;
    JWT_SECRET : string;
    JWT_SECRET_set : JWT_SECRET <> "" }.

(** ** Rows of the two tables (the CREATE TABLE statements of [initDatabase]) *)

Module Admin.
Record t : Type := mk
  { id : Z;
    username : string;
    password : string;
    email : string;
    created_at : Z }.
End Admin.

(** A nullable column is an [option]; the timestamps are clock readings. *)
Module Job.
Record t : Type := mk
  { id : Z;
    title : string;
    company : string;
    location : string;
    salary_min : option Z;
    salary_max : option Z;
    salary_currency : option string;
    job_type : option string;
    description : string;
    requirements : option string;
    benefits : option string;
    contact_email : string;
    contact_phone : option string;
    is_active : option bool;
    created_at : Z;
    updated_at : Z }.
End Job.

(** The columns that the public listing selects: all but [is_active]. *)
Module PublicJob.
Record t : Type := mk
  { id : Z;
    title : string;
    company : string;
    location : string;
    salary_min : option Z;
    salary_max : option Z;
    salary_currency : option string;
    job_type : option string;
    description : string;
    requirements : option string;
    benefits : option string;
    contact_email : string;
    contact_phone : option string;
    created_at : Z;
    updated_at : Z }.

Definition of_job (j : Job.t) : t :=
  mk (Job.id j) (Job.title j) (Job.company j) (Job.location j)
     (Job.salary_min j) (Job.salary_max j) (Job.salary_currency j)
     (Job.job_type j) (Job.description j) (Job.requirements j)
     (Job.benefits j) (Job.contact_email j) (Job.contact_phone j)
     (Job.created_at j) (Job.updated_at j).
End PublicJob.

(** The datastore: both tables and the sequence behind [jobs.id SERIAL]. *)
Record db : Type := mkDb
  { admins : list Admin.t;
    jobs : list Job.t;
    jobs_id_seq : Z }.

(** ** Requests and responses *)

(** What the outside provides to one request: the clock of the process
    ([Date.now()], milliseconds) and the one of the datastore
    ([CURRENT_TIMESTAMP]). *)
Record world : Type := mkWorld
  { Date_now : Z;
    CURRENT_TIMESTAMP : Z }.

Record request : Type := mkRequest
  { headers : gmap string string;
    params : gmap string string;
    query : gmap string string;
    body : gmap string jsval;
    user : option Claims.t }.

(** The JSON documents that the handlers send. *)
Inductive json : Type :=
  | Message (message : string)
  | LoginOk (message token : string) (id : Z) (username email : string)
  | VerifyOk (message : string) (user : option Claims.t)
  | PublicPage (jobs : list PublicJob.t)
      (currentPage totalPages totalJobs : Z) (hasNext hasPrev : bool)
  | AdminPage (jobs : list Job.t) (currentPage totalPages totalJobs : Z)
  | JobDetail (job : Job.t)
  | MessageJob (message : string) (job : Job.t).

Record response : Type := mkResponse
  { status : Z;
    payload : json }.

(** [res.json(b)] answers with status 200. *)
Definition res_json (b : json) : response := mkResponse 200 b.

Definition server_error : response := mkResponse 500 (Message "Lỗi server").
Definition job_not_found : response :=
  mkResponse 404 (Message "Không tìm thấy công việc").

(** ** The datastore: parameters, column types and the SQL statements *)

Fixpoint has_nul (s : string) : bool :=
  match s with
  | String c s' => Ascii.eqb c zero || has_nul s'
  | EmptyString => false
  end.

Fixpoint all_spaces (s : string) : bool :=
  match s with
  | String c s' => Ascii.eqb c " " && all_spaces s'
  | EmptyString => true
  end.

(** TEXT: any text without the NUL character. *)
Definition textin (t : string) : option string :=
  if has_nul t then None else Some t.

(** A byte that continues a character of several bytes. *)
Definition is_continuation (c : ascii) : bool :=
  let n := nat_of_ascii c in ((128 <=? n) && (n <=? 191))%nat.

(** The number of characters. *)
Fixpoint char_length (s : string) : nat :=
  match s with
  | String c s' =>
      ((if is_continuation c then 0 else 1) + char_length s')%nat
  | EmptyString => 0%nat
  end.

(** The first [n] characters and what follows them. *)
Fixpoint take_chars (n : nat) (s : string) : string :=
  match s with
  | String c s' =>
      if is_continuation c then String c (take_chars n s')
      else match n with
           | O => EmptyString
           | S n' => String c (take_chars n' s')
           end
  | EmptyString => EmptyString
  end.

Fixpoint drop_chars (n : nat) (s : string) : string :=
  match s with
  | String c s' =>
      if is_continuation c then drop_chars n s'
      else match n with
           | O => s
           | S n' => drop_chars n' s'
           end
  | EmptyString => EmptyString
  end.

(** VARCHAR(n) on assignment: a text of more than [n] characters is
    rejected unless all that exceeds them is spaces, and then it is cut to
    [n] characters. *)
Definition varcharin (n : nat) (t : string) : option string :=
  if has_nul t then None
  else if (char_length t <=? n)%nat then Some t
  else if all_spaces (drop_chars n t) then Some (take_chars n t)
  else None.

(** BIGINT, for LIMIT and OFFSET, which must not be negative. *)
Definition row_count (n : Z) : option nat :=
  if (0 <=? n) && (n <? 2 ^ 63) then Some (Z.to_nat n) else None.

(** A bound parameter of a nullable column: [None] is NULL. *)
Definition nullable {A : Type} (input : string -> option A)
    (p : option string) : option (option A) :=
  match p with
  | Some t => Some <$> input t
  | None => Some None
  end.

(** A bound parameter of a NOT NULL column: NULL violates the constraint. *)
Definition not_null {A : Type} (input : string -> option A)
    (p : option string) : option A :=
  p ≫= input.

(** ORDER BY created_at DESC, by insertion. SQL leaves the order of rows
    of equal [created_at] open; the model fixes one. *)
Fixpoint insert_desc (j : Job.t) (l : list Job.t) : list Job.t :=
  match l with
  | [] => [j]
  | k :: l' =>
      if Job.created_at k <? Job.created_at j then j :: l
      else k :: insert_desc j l'
  end.

Definition order_by_created_at_desc (l : list Job.t) : list Job.t :=
  foldr insert_desc [] l.

(** [Math.ceil(a / b)] for a positive [b]. *)
Definition ceil_div (a b : Z) : Z := - ((- a) / b).

(** What GET /api/admin/stats answers: three counts, the number of active
    jobs of each [job_type] and the columns of the most recent jobs that
    it selects. (node-postgres hands each grouped count back as its
    decimal text; it is kept as the number here.) *)
Module Stats.
Record recent : Type := mkRecent
  { id : Z;
    title : string;
    company : string;
    created_at : Z }.

Definition of_job (j : Job.t) : recent :=
  mkRecent (Job.id j) (Job.title j) (Job.company j) (Job.created_at j).

Record t : Type := mk
  { totalJobs : Z;
    activeJobs : Z;
    inactiveJobs : Z;
    jobsByType : list (option string * Z);
    recentJobs : list recent }.
End Stats.

(** GROUP BY over one nullable text column with COUNT( * ): one more row
    of key [k]. NULL keys make one group. SQL leaves the order of the
    groups open; the model lists them by first appearance. *)
Fixpoint count_group (k : option string) (g : list (option string * Z))
    : list (option string * Z) :=
  match g with
  | [] => [(k, 1)]
  | (k', n) :: g' =>
      if bool_decide (k' = k) then (k', n + 1) :: g'
      else (k', n) :: count_group k g'
  end.

Section Server.
Context `{Platform}.

(** [Number(v)] *)
Definition Number (v : jsval) : number :=
  match v with
  | JUndefined => NaN
  | JNull => Finite 0
  | JBool b => Finite (if b then 1 else 0)
  | JNum x => x
  | JStr s => StringToNumber s
  end.

(** How node-postgres sends a parameter: [null] and [undefined] as NULL,
    anything else as the text of [toString()]. *)
Definition prepareValue (v : jsval) : option string :=
  match v with
  | JUndefined | JNull => None
  | JBool b => Some (if b then "true" else "false")
  | JNum x => Some (NumberToString x)
  | JStr s => Some s
  end.

(** The columns that INSERT and UPDATE assign, from the parameters
    [$1 .. $12]; [None] when the datastore rejects one of them. The
    result still waits for [id], [is_active] and the two timestamps. *)
Definition job_columns (ps : list jsval)
    : option (Z -> option bool -> Z -> Z -> Job.t) :=
  match ps with
  | [p1; p2; p3; p4; p5; p6; p7; p8; p9; p10; p11; p12] =>
      title ← not_null (varcharin 200) (prepareValue p1);
      company ← not_null (varcharin 150) (prepareValue p2);
      location ← not_null (varcharin 100) (prepareValue p3);
      salary_min ← nullable int4in (prepareValue p4);
      salary_max ← nullable int4in (prepareValue p5);
      salary_currency ← nullable (varcharin 10) (prepareValue p6);
      job_type ← nullable (varcharin 50) (prepareValue p7);
      description ← not_null textin (prepareValue p8);
      requirements ← nullable textin (prepareValue p9);
      benefits ← nullable textin (prepareValue p10);
      contact_email ← not_null (varcharin 100) (prepareValue p11);
      contact_phone ← nullable (varcharin 20) (prepareValue p12);
      Some (fun id is_active created_at updated_at =>
              Job.mk id title company location salary_min salary_max
                salary_currency job_type description requirements benefits
                contact_email contact_phone is_active created_at updated_at)
  | _ => None
  end.

Definition has_id (k : Z) (j : Job.t) : bool := Job.id j =? k.

(** [INSERT INTO jobs (title, ..., contact_phone) VALUES ($1, ..., $12)
    RETURNING *]: [id] comes from the sequence, [is_active] and the
    timestamps from the column defaults. The sequence keeps its advance
    when the new id is out of INTEGER or breaks the primary key. *)
Definition insert_job (now : Z) (ps : list jsval) (st : db)
    : option (list Job.t) * db :=
  match job_columns ps with
  | Some columns =>
      let id := jobs_id_seq st in
      let row := columns id (Some true) now now in
      if (id <=? 2147483647) && negb (existsb (has_id id) (jobs st))
      then (Some [row], mkDb (admins st) (jobs st ++ [row]) (id + 1))
      else (None, mkDb (admins st) (jobs st) (id + 1))
  | None => (None, st)
  end.

(** [WHERE id = $n]: a NULL parameter matches no row. *)
Definition id_matches (k : option Z) (j : Job.t) : bool :=
  match k with
  | Some n => has_id n j
  | None => false
  end.

(** [UPDATE jobs SET title = $1, ..., contact_phone = $12,
    is_active = $13, updated_at = CURRENT_TIMESTAMP WHERE id = $14
    RETURNING *] *)
Definition update_job (now : Z) (ps : list jsval) (st : db)
    : option (list Job.t) * db :=
  match ps with
  | [p1; p2; p3; p4; p5; p6; p7; p8; p9; p10; p11; p12; p13; p14] =>
      match
        columns ← job_columns [p1; p2; p3; p4; p5; p6; p7; p8; p9; p10; p11; p12];
        is_active ← nullable boolin (prepareValue p13);
        k ← nullable int4in (prepareValue p14);
        Some (columns, is_active, k)
      with
      | Some (columns, is_active, k) =>
          let set (j : Job.t) :=
            columns (Job.id j) is_active (Job.created_at j) now in
          (Some (set <$> List.filter (id_matches k) (jobs st)),
           mkDb (admins st)
             ((fun j => if id_matches k j then set j else j) <$> jobs st)
             (jobs_id_seq st))
      | None => (None, st)
      end
  | _ => (None, st)
  end.

(** [NOT b] in SQL: NULL stays NULL. *)
Definition sql_not (b : option bool) : option bool := negb <$> b.

(** [SET is_active = NOT is_active, updated_at = CURRENT_TIMESTAMP] on
    one row. *)
Definition toggled (now : Z) (j : Job.t) : Job.t :=
  Job.mk (Job.id j) (Job.title j) (Job.company j) (Job.location j)
    (Job.salary_min j) (Job.salary_max j) (Job.salary_currency j)
    (Job.job_type j) (Job.description j) (Job.requirements j)
    (Job.benefits j) (Job.contact_email j) (Job.contact_phone j)
    (sql_not (Job.is_active j)) (Job.created_at j) now.

(** [UPDATE jobs SET is_active = NOT is_active,
    updated_at = CURRENT_TIMESTAMP WHERE id = $1 RETURNING *] *)
Definition toggle_job (now : Z) (id : option string) (st : db)
    : option (list Job.t) * db :=
  match nullable int4in id with
  | Some k =>
      (Some (toggled now <$> List.filter (id_matches k) (jobs st)),
       mkDb (admins st)
         ((fun j => if id_matches k j then toggled now j else j)
            <$> jobs st)
         (jobs_id_seq st))
  | None => (None, st)
  end.

(** [DELETE FROM jobs WHERE id = $1 RETURNING *] *)
Definition delete_job (id : option string) (st : db)
    : option (list Job.t) * db :=
  match nullable int4in id with
  | Some k =>
      (Some (List.filter (id_matches k) (jobs st)),
       mkDb (admins st)
         (List.filter (fun j => negb (id_matches k j)) (jobs st))
         (jobs_id_seq st))
  | None => (None, st)
  end.

(** [is_active = true] in a WHERE clause: NULL does not pass. *)
Definition active (j : Job.t) : bool :=
  match Job.is_active j with
  | Some b => b
  | None => false
  end.

(** [SELECT * FROM jobs WHERE id = $1] and, with [only_active],
    [... AND is_active = true] *)
Definition select_job (only_active : bool) (id : option string) (st : db)
    : option (list Job.t) :=
  k ← nullable int4in id;
  Some (List.filter
          (fun j => id_matches k j && (if only_active then active j else true))
          (jobs st)).

(** [SELECT * FROM admins WHERE username = $1] *)
Definition select_admin (username : jsval) (st : db)
    : option (list Admin.t) :=
  match prepareValue username with
  | Some t =>
      u ← textin t;
      Some (List.filter (fun a => String.eqb (Admin.username a) u) (admins st))
  | None => Some []
  end.

(** A WHERE clause put together from optional conditions: each one comes
    with the text parameter it adds to the statement. *)
Definition select_where (base : Job.t -> bool)
    (clauses : list (string * (Job.t -> bool))) (st : db)
    : option (list Job.t) :=
  if forallb (fun c => negb (has_nul c.1)) clauses
  then Some (List.filter
               (fun j => base j && forallb (fun c => c.2 j) clauses)
               (jobs st))
  else None.

(** [SELECT ... WHERE ... ORDER BY created_at DESC LIMIT $n OFFSET $m] *)
Definition select_page (base : Job.t -> bool)
    (clauses : list (string * (Job.t -> bool))) (limit offset : Z)
    (st : db) : option (list Job.t) :=
  rows ← select_where base clauses st;
  l ← row_count limit;
  o ← row_count offset;
  Some (take l (drop o (order_by_created_at_desc rows))).

(** [SELECT COUNT( * ) FROM jobs WHERE ...], read back by [parseInt]. *)
Definition select_count (base : Job.t -> bool)
    (clauses : list (string * (Job.t -> bool))) (st : db) : option Z :=
  rows ← select_where base clauses st;
  Some (Z.of_nat (length rows)).

(** ** The authentication gate *)

(** [authHeader && authHeader.split(' ')[1]] *)
Definition bearer_token (authHeader : option string) : option string :=
  match authHeader with
  | Some h => if String.eqb h "" then Some h else split " " h !! 1%nat
  | None => None
  end.

Definition authenticateToken (w : world) (req : request)
    (next : request -> db -> response * db) (st : db) : response * db :=
  let authHeader := headers req !! "authorization" in
  let token := bearer_token authHeader in
  match token with
  | None | Some "" =>
      (mkResponse 401 (Message "Access token required"), st)
  | Some t =>
      match jwt_verify t JWT_SECRET (Date_now w / 1000) with
      | None => (mkResponse 403 (Message "Invalid token"), st)
      | Some u =>
          next (mkRequest (headers req) (params req) (query req)
                  (body req) (Some u)) st
      end
  end.

(** ** Authentication routes *)

(** [expiresIn: '24h'], in seconds. *)
Definition expiresIn : Z := 24 * 60 * 60.

(** POST /api/auth/login *)
Definition post_auth_login (w : world) (req : request) (st : db)
    : response * db :=
  let username := prop (body req) "username" in
  let password := prop (body req) "password" in
  if negb (truthy username) || negb (truthy password) then
    (mkResponse 400 (Message "Username và password là bắt buộc"), st)
  else
    match select_admin username st with
    | None => (server_error, st)
    | Some [] => (mkResponse 401 (Message "Tài khoản không tồn tại"), st)
    | Some (admin :: _) =>
        match password with
        | JStr pw =>
            if bcrypt_compare pw (Admin.password admin) then
              let token :=
                jwt_sign (Admin.id admin) (Admin.username admin)
                  JWT_SECRET (Date_now w / 1000) expiresIn in
              (res_json
                 (LoginOk "Đăng nhập thành công" token (Admin.id admin)
                    (Admin.username admin) (Admin.email admin)), st)
            else (mkResponse 401 (Message "Mật khẩu không đúng"), st)
        | _ => (server_error, st)
        end
    end.

(** GET /api/auth/verify *)
Definition get_auth_verify (w : world) (req : request) (st : db)
    : response * db :=
  authenticateToken w req
    (fun req st => (res_json (VerifyOk "Token hợp lệ" (user req)), st)) st.

(** ** Listings *)

(** [Math.max(1, parseInt(req.query.page || '1', 10) || 1)] *)
Definition pageInt (req : request) : Z :=
  Z.max 1 (num_or (parseInt (str_or (query req !! "page") "1")) 1).

(** [Math.min(100, Math.max(1, parseInt(req.query.limit || '10', 10) || 10))] *)
Definition limitInt (req : request) : Z :=
  Z.min 100
    (Z.max 1 (num_or (parseInt (str_or (query req !! "limit") "10")) 10)).

(** A condition that the handler adds under [if (x)]. *)
Definition when_given (x : option string)
    (clause : string -> string * (Job.t -> bool))
    : list (string * (Job.t -> bool)) :=
  match x with
  | Some t => if String.eqb t "" then [] else [clause t]
  | None => []
  end.

(** [(title ILIKE $n OR company ILIKE $n)] with [`%${search}%`] *)
Definition search_clause (search : string) : string * (Job.t -> bool) :=
  let pattern := "%" ++ search ++ "%" in
  (pattern,
   fun j => ilike (Job.title j) pattern || ilike (Job.company j) pattern).

(** [location ILIKE $n] with [`%${location}%`] *)
Definition location_clause (location : string)
    : string * (Job.t -> bool) :=
  let pattern := "%" ++ location ++ "%" in
  (pattern, fun j => ilike (Job.location j) pattern).

(** [job_type = $n]: a NULL [job_type] does not pass. *)
Definition job_type_clause (job_type : string)
    : string * (Job.t -> bool) :=
  (job_type,
   fun j => match Job.job_type j with
            | Some t => String.eqb t job_type
            | None => false
            end).

(** GET /api/jobs *)
Definition get_jobs (w : world) (req : request) (st : db)
    : response * db :=
  let search : option string := query req !! "search" in
  let location : option string := query req !! "location" in
  let job_type : option string := query req !! "job_type" in
  let offset := (pageInt req - 1) * limitInt req in
  let clauses :=
    (when_given search search_clause
     ++ when_given location location_clause
     ++ when_given job_type job_type_clause)%list in
  match select_page active clauses (limitInt req) offset st with
  | Some rows =>
      match select_count active clauses st with
      | Some totalJobs =>
          let totalPages := ceil_div totalJobs (limitInt req) in
          (res_json
             (PublicPage (PublicJob.of_job <$> rows) (pageInt req)
                totalPages totalJobs (pageInt req <? totalPages)
                (1 <? pageInt req)), st)
      | None => (server_error, st)
      end
  | None => (server_error, st)
  end.

(** GET /api/admin/jobs, behind the gate *)
Definition admin_jobs_handler (req : request) (st : db) : response * db :=
  let search := query req !! "search" in
  let offset := (pageInt req - 1) * limitInt req in
  let clauses := when_given search search_clause in
  match select_page (fun _ => true) clauses (limitInt req) offset st with
  | Some rows =>
      match select_count (fun _ => true) clauses st with
      | Some totalJobs =>
          let totalPages := ceil_div totalJobs (limitInt req) in
          (res_json (AdminPage rows (pageInt req) totalPages totalJobs), st)
      | None => (server_error, st)
      end
  | None => (server_error, st)
  end.

Definition get_admin_jobs (w : world) (req : request) (st : db)
    : response * db :=
  authenticateToken w req admin_jobs_handler st.

(** ** Detail lookups *)

(** GET /api/jobs/:id *)
Definition get_jobs_id (w : world) (req : request) (st : db)
    : response * db :=
  match select_job true (params req !! "id") st with
  | Some [] => (job_not_found, st)
  | Some (row :: _) => (res_json (JobDetail row), st)
  | None => (server_error, st)
  end.

(** GET /api/admin/jobs/:id, behind the gate *)
Definition admin_job_detail_handler (req : request) (st : db)
    : response * db :=
  match select_job false (params req !! "id") st with
  | Some [] => (job_not_found, st)
  | Some (row :: _) => (res_json (JobDetail row), st)
  | None => (server_error, st)
  end.

Definition get_admin_jobs_id (w : world) (req : request) (st : db)
    : response * db :=
  authenticateToken w req admin_job_detail_handler st.

(** ** Mutations *)

Definition required_message : string :=
  "Tiêu đề, công ty, địa điểm, mô tả và email liên hệ là bắt buộc".

Definition salary_message : string :=
  "Lương tối thiểu không được lớn hơn lương tối đa".

(** [!title || !company || !location || !description || !contact_email] *)
Definition required_missing (b : gmap string jsval) : bool :=
  negb (truthy (prop b "title")) || negb (truthy (prop b "company"))
  || negb (truthy (prop b "location"))
  || negb (truthy (prop b "description"))
  || negb (truthy (prop b "contact_email")).

(** The salary check of create and update: both bounds are neither
    [null] nor [undefined], both convert to a number, and the minimum
    is greater than the maximum. *)
Definition salary_range_invalid (salary_min salary_max : jsval) : bool :=
  if is_present salary_min && is_present salary_max then
    let minNum := Number salary_min in
    let maxNum := Number salary_max in
    negb (isNaN minNum) && negb (isNaN maxNum) && num_gt minNum maxNum
  else false.

(** The parameters [$1 .. $12] that create and update pass. *)
Definition job_parameters (b : gmap string jsval) : list jsval :=
  [ prop b "title"; prop b "company"; prop b "location";
    js_or (prop b "salary_min") JNull; js_or (prop b "salary_max") JNull;
    js_or (prop b "salary_currency") (JStr "VND");
    js_or (prop b "job_type") (JStr "Full-time");
    prop b "description";
    js_or (prop b "requirements") JNull; js_or (prop b "benefits") JNull;
    prop b "contact_email"; js_or (prop b "contact_phone") JNull ].

(** POST /api/admin/jobs, behind the gate *)
Definition create_job_handler (w : world) (req : request) (st : db)
    : response * db :=
  let b := body req in
  if required_missing b then
    (mkResponse 400 (Message required_message), st)
  else if salary_range_invalid (prop b "salary_min") (prop b "salary_max")
  then (mkResponse 400 (Message salary_message), st)
  else
    match insert_job (CURRENT_TIMESTAMP w) (job_parameters b) st with
    | (Some (row :: _), st') =>
        (mkResponse 201 (MessageJob "Tạo công việc thành công" row), st')
    | (_, st') => (server_error, st')
    end.

Definition post_admin_jobs (w : world) (req : request) (st : db)
    : response * db :=
  authenticateToken w req (create_job_handler w) st.

(** [req.params.id] as a parameter of the statement. *)
Definition id_parameter (req : request) : jsval :=
  match params req !! "id" with
  | Some s => JStr s
  | None => JUndefined
  end.

(** [is_active !== undefined ? is_active : true] *)
Definition is_active_parameter (v : jsval) : jsval :=
  match v with
  | JUndefined => JBool true
  | _ => v
  end.

(** PUT /api/admin/jobs/:id, behind the gate *)
Definition update_job_handler (w : world) (req : request) (st : db)
    : response * db :=
  let b := body req in
  if required_missing b then
    (mkResponse 400 (Message required_message), st)
  else if salary_range_invalid (prop b "salary_min") (prop b "salary_max")
  then (mkResponse 400 (Message salary_message), st)
  else
    match
      update_job (CURRENT_TIMESTAMP w)
        (job_parameters b
         ++ [is_active_parameter (prop b "is_active"); id_parameter req])%list
        st
    with
    | (Some [], st') => (job_not_found, st')
    | (Some (row :: _), st') =>
        (res_json (MessageJob "Cập nhật công việc thành công" row), st')
    | (None, st') => (server_error, st')
    end.

Definition put_admin_jobs_id (w : world) (req : request) (st : db)
    : response * db :=
  authenticateToken w req (update_job_handler w) st.

(** DELETE /api/admin/jobs/:id, behind the gate *)
Definition delete_job_handler (req : request) (st : db)
    : response * db :=
  match delete_job (params req !! "id") st with
  | (Some [], st') => (job_not_found, st')
  | (Some (_ :: _), st') =>
      (res_json (Message "Xóa công việc thành công"), st')
  | (None, st') => (server_error, st')
  end.

Definition delete_admin_jobs_id (w : world) (req : request) (st : db)
    : response * db :=
  authenticateToken w req delete_job_handler st.

(** [`${row.is_active ? 'Kích hoạt' : 'Vô hiệu hóa'} công việc thành công`] *)
Definition toggle_message (row : Job.t) : string :=
  (if active row then "Kích hoạt" else "Vô hiệu hóa")
  ++ " công việc thành công".

(** PATCH /api/admin/jobs/:id/toggle, behind the gate *)
Definition toggle_job_handler (w : world) (req : request) (st : db)
    : response * db :=
  match toggle_job (CURRENT_TIMESTAMP w) (params req !! "id") st with
  | (Some [], st') => (job_not_found, st')
  | (Some (row :: _), st') =>
      (res_json (MessageJob (toggle_message row) row), st')
  | (None, st') => (server_error, st')
  end.

Definition patch_admin_jobs_id_toggle (w : world) (req : request)
    (st : db) : response * db :=
  authenticateToken w req (toggle_job_handler w) st.

(** The routes registered with [authenticateToken] (but for
    /api/admin/stats). *)
Definition protected_routes : list (world -> request -> db -> response * db) :=
  [ get_auth_verify; get_admin_jobs; post_admin_jobs; put_admin_jobs_id;
    get_admin_jobs_id; delete_admin_jobs_id; patch_admin_jobs_id_toggle ].

(** ** Notions that the properties below are stated with *)

(** The identity under which the gate lets a request through, if it
    does. *)
Definition authenticated (w : world) (req : request) : option Claims.t :=
  match bearer_token (headers req !! "authorization") with
  | Some t =>
      if String.eqb t "" then None
      else jwt_verify t JWT_SECRET (Date_now w / 1000)
  | None => None
  end.

(** The request that the gate forwards. *)
Definition attach (u : Claims.t) (req : request) : request :=
  mkRequest (headers req) (params req) (query req) (body req) (Some u).

(** ** Statistics *)

(** [is_active = false] in a WHERE clause: NULL does not pass. *)
Definition inactive (j : Job.t) : bool :=
  match Job.is_active j with
  | Some b => negb b
  | None => false
  end.

(** [SELECT job_type, COUNT( * ) as count FROM jobs WHERE is_active = true
    GROUP BY job_type] *)
Definition jobs_by_type (st : db) : list (option string * Z) :=
  foldl (fun g j => count_group (Job.job_type j) g) []
    (List.filter active (jobs st)).

(** [SELECT id, title, company, created_at FROM jobs
    ORDER BY created_at DESC LIMIT 5] *)
Definition recent_jobs (st : db) : list Stats.recent :=
  Stats.of_job <$> take 5 (order_by_created_at_desc (jobs st)).

(** The five queries of the handler and the document it sends. *)
Definition stats_handler (st : db) : Stats.t :=
  Stats.mk
    (Z.of_nat (length (jobs st)))
    (Z.of_nat (length (List.filter active (jobs st))))
    (Z.of_nat (length (List.filter inactive (jobs st))))
    (jobs_by_type st)
    (recent_jobs st).

(** What the statistics route answers: what the gate answers when it does
    not let the request through, the statistics otherwise. *)
Inductive stats_response : Type :=
  | StatsRefused (r : response)
  | StatsOk (s : Stats.t).

(** GET /api/admin/stats, behind the gate *)
Definition get_admin_stats (w : world) (req : request) (st : db)
    : stats_response * db :=
  match authenticated w req with
  | Some _ => (StatsOk (stats_handler st), st)
  | None =>
      (StatsRefused
         (authenticateToken w req (fun _ st' => (server_error, st')) st).1,
       st)
  end.

(** ** The router *)

(** The routes that the application registers on the datastore. *)
Inductive route : Type :=
  | POST_auth_login
  | GET_auth_verify
  | GET_jobs
  | GET_jobs_id
  | GET_admin_jobs
  | POST_admin_jobs
  | PUT_admin_jobs_id
  | GET_admin_jobs_id
  | DELETE_admin_jobs_id
  | PATCH_admin_jobs_id_toggle
  | GET_admin_stats.

(** The datastore after one request. *)
Definition dispatch (r : route) (w : world) (req : request) (st : db) : db :=
  match r with
  | POST_auth_login => (post_auth_login w req st).2
  | GET_auth_verify => (get_auth_verify w req st).2
  | GET_jobs => (get_jobs w req st).2
  | GET_jobs_id => (get_jobs_id w req st).2
  | GET_admin_jobs => (get_admin_jobs w req st).2
  | POST_admin_jobs => (post_admin_jobs w req st).2
  | PUT_admin_jobs_id => (put_admin_jobs_id w req st).2
  | GET_admin_jobs_id => (get_admin_jobs_id w req st).2
  | DELETE_admin_jobs_id => (delete_admin_jobs_id w req st).2
  | PATCH_admin_jobs_id_toggle => (patch_admin_jobs_id_toggle w req st).2
  | GET_admin_stats => (get_admin_stats w req st).2
  end.

(** The datastore after a sequence of requests, one after the other. Each
    handler sends at most one statement that writes, so for the datastore
    the requests that a running server interleaves are such a sequence, in
    the order in which their statements arrive. *)
Definition serve (requests : list (route * world * request)) (st : db) : db :=
  foldl (fun st' '(r, w, req) => dispatch r w req st') st requests.

End Server.

(** PRIMARY KEY on [jobs.id] and UNIQUE on [admins.username]. *)
Definition primary_key (st : db) : Prop := NoDup (Job.id <$> jobs st).
Definition unique_username (st : db) : Prop :=
  NoDup (Admin.username <$> admins st).

(** The sequence can still hand out an id that is new to the table. *)
Definition fresh_id (st : db) : Prop :=
  jobs_id_seq st <= 2147483647
  /\ forall j, j ∈ jobs st -> Job.id j <> jobs_id_seq st.

(** The same row, and the same datastore, with [is_active] rewritten by
    [f]. *)
Definition set_is_active (f : Job.t -> option bool) (j : Job.t) : Job.t :=
  Job.mk (Job.id j) (Job.title j) (Job.company j) (Job.location j)
    (Job.salary_min j) (Job.salary_max j) (Job.salary_currency j)
    (Job.job_type j) (Job.description j) (Job.requirements j)
    (Job.benefits j) (Job.contact_email j) (Job.contact_phone j)
    (f j) (Job.created_at j) (Job.updated_at j).

Definition relabel (f : Job.t -> option bool) (st : db) : db :=
  mkDb (admins st) (set_is_active f <$> jobs st) (jobs_id_seq st).

(** The number of jobs in a listing. *)
Definition jobs_returned (b : json) : option nat :=
  match b with
  | PublicPage js _ _ _ _ _ => Some (length js)
  | AdminPage js _ _ _ => Some (length js)
  | _ => None
  end.

(** The same request with the query parameter [limit] set to [v]. *)
Definition with_limit (v : string) (req : request) : request :=
  mkRequest (headers req) (params req) (<["limit" := v]> (query req))
    (body req) (user req).


(** Newest first. *)
Definition newest_first {A : Type} (created_at : A -> Z) (l : list A) : Prop :=
  StronglySorted (fun a b => created_at b <= created_at a) l.

(** ** Start-up: [validateEnv], [initDatabase] and the bootstrap *)






(** The database before the tables are known to exist: each table, if it
    exists, with the sequence of its [id SERIAL]. *)
Record cluster : Type := mkCluster
  { admins_table : option (list Admin.t * Z);
    jobs_table : option (list Job.t * Z) }.

(** [CREATE TABLE IF NOT EXISTS]: an existing table stays as it is. *)
Definition create_table_if_not_exists {A : Type} (t : option (list A * Z))
    : list A * Z :=
  match t with
  | Some rows => rows
  | None => ([], 1)
  end.

Definition default_admin_password : string :=
  "$2a$10$92IXUNpkjO0rOQ5byMi.Ye4oKoEa3Ro9llC/.og/at2.uheWG/igi".

(** [INSERT INTO admins (username, password, email) VALUES ('admin', ...,
    'admin@jobportal.com') ON CONFLICT (username) DO NOTHING]. The row
    takes the next value of the sequence, which keeps its advance whatever
    happens; a row of that username makes the statement do nothing; a row
    of that email or of that id, or an id out of INTEGER, makes it fail
    ([false]). *)
Definition insert_default_admin (now : Z) (t : list Admin.t * Z)
    : bool * (list Admin.t * Z) :=
  let '(rows, seq) := t in
  if negb (seq <=? 2147483647) then (false, (rows, seq + 1))
  else if existsb (fun a => String.eqb (Admin.username a) "admin") rows
  then (true, (rows, seq + 1))
  else if existsb (fun a => String.eqb (Admin.email a) "admin@jobportal.com")
            rows
          || existsb (fun a => Admin.id a =? seq) rows
  then (false, (rows, seq + 1))
  else (true,
        ((rows ++ [Admin.mk seq "admin" default_admin_password
                     "admin@jobportal.com" now])%list,
         seq + 1)).

(** [initDatabase]: whether it returns ([true]) or throws, and the
    database it leaves. *)
Definition initDatabase (now : Z) (c : cluster) : bool * cluster :=
  let admins := create_table_if_not_exists (admins_table c) in
  let jobs := create_table_if_not_exists (jobs_table c) in
  let '(ok, admins') := insert_default_admin now admins in
  (ok, mkCluster (Some admins') (Some jobs)).



(** The datastore that the routes work on, once both tables exist. *)
Definition datastore (c : cluster) : option db :=
  '(admins, _) ← admins_table c;
  '(jobs, seq) ← jobs_table c;
  Some (mkDb admins jobs seq).

(** ** Invariants of the [jobs] table *)

(** The primary key holds and every id was handed out by the sequence. *)
Definition well_formed (st : db) : Prop :=
  NoDup (Job.id <$> jobs st)
  /\ forall j, j ∈ jobs st -> Job.id j < jobs_id_seq st.

(** What one request may do to the datastore: the admins stay, the
    sequence does not go back, the invariant is kept, and a job whose id
    the sequence had handed out before is the job that had this id, with
    the [created_at] it had. *)
Definition evolves (st st' : db) : Prop :=
  admins st' = admins st
  /\ jobs_id_seq st <= jobs_id_seq st'
  /\ (well_formed st -> well_formed st')
  /\ forall j', j' ∈ jobs st' -> Job.id j' < jobs_id_seq st ->
       exists j, j ∈ jobs st /\ Job.id j = Job.id j'
                 /\ Job.created_at j = Job.created_at j'.

(** The routes whose handlers send no INSERT, UPDATE or DELETE. *)
Definition reads_only (r : route) : bool :=
  match r with
  | POST_admin_jobs | PUT_admin_jobs_id | DELETE_admin_jobs_id
  | PATCH_admin_jobs_id_toggle => false
  | _ => true
  end.

Fixpoint no_space (s : string) : bool :=
  match s with
  | String c s' => negb (Ascii.eqb c " ") && no_space s'
  | EmptyString => true
  end.

(** What the properties of issued tokens take from jsonwebtoken: a token
    is a non-empty text without spaces, and verifying a token under the
    key that signed it succeeds exactly until its expiry, with the signed
    payload. *)
Definition jwt_contract `{Platform} : Prop :=
  forall (id : Z) (username secret : string) (iat lifetime : Z),
    secret <> "" ->
    jwt_sign id username secret iat lifetime <> ""
    /\ no_space (jwt_sign id username secret iat lifetime) = true
    /\ forall clock,
         jwt_verify (jwt_sign id username secret iat lifetime) secret clock
         = if clock <? iat + lifetime
           then Some (Claims.mk id username iat (iat + lifetime))
           else None.

(** ** An executable instance of the libraries

    A small [Platform] on which the handlers run: numbers are read and
    printed as decimal integers, ILIKE folds ASCII letters, a password
    hash is the password behind a prefix and a token is its content in
    binary. It agrees with the libraries on the inputs used below. *)
Module Sample.

Fixpoint all_digits (acc : option Z) (s : string) : option Z :=
  match s with
  | String c s' =>
      match digit_value c with
      | Some d => all_digits (Some (10 * default 0 acc + d)) s'
      | None => None
      end
  | EmptyString => acc
  end.

Definition integer_text (s : string) : option Z :=
  match s with
  | String "-" r => Z.opp <$> all_digits None r
  | String "+" r => all_digits None r
  | _ => all_digits None s
  end.

Definition StringToNumber (s : string) : number :=
  if String.eqb s "" then Finite 0
  else match integer_text s with
       | Some z => Finite (inject_Z z)
       | None => NaN
       end.

Definition decimal (z : Z) : string :=
  DecimalString.NilZero.string_of_int (Z.to_int z).

Definition NumberToString (x : number) : string :=
  match x with
  | NaN => "NaN"
  | NegInfinity => "-Infinity"
  | PosInfinity => "Infinity"
  | Finite q =>
      if (Zpos (Qden q) =? 1) then decimal (Qnum q)
      else decimal (Qnum q) ++ "/" ++ decimal (Zpos (Qden q))
  end.

Definition int4in (s : string) : option Z :=
  z ← integer_text s;
  if (-2147483648 <=? z) && (z <=? 2147483647) then Some z else None.

Definition boolin (s : string) : option bool :=
  if String.eqb s "true" || String.eqb s "t" || String.eqb s "1"
  then Some true
  else if String.eqb s "false" || String.eqb s "f" || String.eqb s "0"
  then Some false
  else None.

Definition lower (c : ascii) : ascii :=
  let n := nat_of_ascii c in
  if ((65 <=? n) && (n <=? 90))%nat then ascii_of_nat (n + 32) else c.

Fixpoint lowercase (s : string) : string :=
  match s with
  | String c s' => String (lower c) (lowercase s')
  | EmptyString => EmptyString
  end.

(** LIKE: [%] is any run of characters, [_] any one character and a
    backslash takes the next character of the pattern as it is. *)
Fixpoint like (pattern text : string) {struct pattern} : bool :=
  match pattern with
  | EmptyString =>
      match text with EmptyString => true | _ => false end
  | String "%" p =>
      (fix rest (t : string) : bool :=
         like p t
         || match t with
            | String _ t' => rest t'
            | EmptyString => false
            end) text
  | String "_" p =>
      match text with String _ t => like p t | EmptyString => false end
  | String "\" (String c p) =>
      match text with
      | String d t => Ascii.eqb c d && like p t
      | EmptyString => false
      end
  | String c p =>
      match text with
      | String d t => Ascii.eqb c d && like p t
      | EmptyString => false
      end
  end.

Definition ilike (text pattern : string) : bool :=
  like (lowercase pattern) (lowercase text).

Definition hash (password : string) : string := "$2a$10$" ++ password.

Definition bcrypt_compare (password hashed : string) : bool :=
  String.eqb (hash password) hashed.

Fixpoint bits (p : positive) : string :=
  match p with
  | xH => "h"
  | xO p' => String "0" (bits p')
  | xI p' => String "1" (bits p')
  end.

Fixpoint of_bits (s : string) : option positive :=
  match s with
  | String "0" s' => xO <$> of_bits s'
  | String "1" s' => xI <$> of_bits s'
  | String "h" EmptyString => Some xH
  | _ => None
  end.

Definition jwt_sign (id : Z) (username secret : string)
    (iat lifetime : Z) : string :=
  bits (encode (id, username, secret, iat, iat + lifetime)).

Definition jwt_verify (token secret : string) (clock : Z)
    : option Claims.t :=
  p ← of_bits token;
  '(id, username, key, iat, exp) ← decode p;
  if String.eqb key secret && (clock <? exp)
  then Some (Claims.mk id username iat exp)
  else None.

Definition platform : Platform :=
  mkPlatform StringToNumber NumberToString int4in boolin ilike
    bcrypt_compare jwt_sign jwt_verify "test-secret" ltac:(discriminate).

(** *** A datastore and some requests *)

Definition admin : Admin.t :=
  Admin.mk 1 "admin" (hash "admin123") "admin@jobportal.com" 0.

Definition engineer : Job.t :=
  Job.mk 1 "Engineer" "Acme" "Hanoi" (Some 1000) (Some 2000) (Some "USD")
    (Some "Part-time") "Build things" (Some "Rocq") None "hr@acme.com"
    None (Some true) 100 100.

Definition designer : Job.t :=
  Job.mk 2 "Designer" "Acme" "Hue" None None (Some "VND")
    (Some "Full-time") "Draw things" None None "hr@acme.com" None
    (Some false) 200 200.

Definition tester : Job.t :=
  Job.mk 3 "Tester" "Initech" "Hanoi" None None (Some "VND")
    (Some "Full-time") "Break things" None None "jobs@initech.com" None
    (Some true) 300 300.

Definition store : db := mkDb [admin] [engineer; designer; tester] 4.

(** The clock at the login and one minute, 23 hours and 25 hours
    later. *)
Definition at_login : world := mkWorld 1700000000000 1000.
Definition later : world := mkWorld 1700000060000 2000.
Definition much_later : world := mkWorld 1700000120000 3000.
Definition after_23h : world := mkWorld (1700000000000 + 23 * 60 * 60 * 1000) 4000.
Definition after_25h : world := mkWorld (1700000000000 + 25 * 60 * 60 * 1000) 5000.

Definition identity : Claims.t :=
  Claims.mk 1 "admin" 1700000000 (1700000000 + 24 * 60 * 60).

Definition token : string :=
  jwt_sign 1 "admin" "test-secret" 1700000000 (24 * 60 * 60).

Definition bearer : gmap string string :=
  {[ "authorization" := "Bearer " ++ token ]}.

Definition login : request :=
  mkRequest ∅ ∅ ∅
    {[ "username" := JStr "admin"; "password" := JStr "admin123" ]} None.

Definition wrong_password : request :=
  mkRequest ∅ ∅ ∅
    {[ "username" := JStr "admin"; "password" := JStr "letmein" ]} None.

Definition unknown_user : request :=
  mkRequest ∅ ∅ ∅
    {[ "username" := JStr "nobody"; "password" := JStr "admin123" ]} None.

(** The five required fields of the scenario. *)
Definition five : gmap string jsval :=
  {[ "title" := JStr "Engineer"; "company" := JStr "Acme";
     "location" := JStr "Hanoi"; "description" := JStr "Build things";
     "contact_email" := JStr "hr@acme.com" ]}.

Definition create_five : request := mkRequest bearer ∅ ∅ five None.

(** An update of job 1 that sends the required fields only. *)
Definition update_five : request :=
  mkRequest bearer {[ "id" := "1" ]} ∅ five None.

(** An update of an id that no job has. *)
Definition update_absent : request :=
  mkRequest bearer {[ "id" := "9" ]} ∅ five None.

Definition bad_salary : request :=
  mkRequest bearer {[ "id" := "1" ]} ∅
    (<["salary_min" := JNum (Finite 2000)]>
       (<["salary_max" := JNum (Finite 1000)]> five)) None.

(** Falsy values in every optional field. *)
Definition falsy : request :=
  mkRequest bearer {[ "id" := "1" ]} ∅
    (<["salary_min" := JNum (Finite 0)]>
       (<["salary_max" := JNum (Finite 0)]>
          (<["salary_currency" := JStr ""]>
             (<["job_type" := JStr ""]>
                (<["requirements" := JStr ""]>
                   (<["benefits" := JStr ""]>
                      (<["contact_phone" := JStr ""]> five)))))))
    None.

Definition by_id (id : string) : request :=
  mkRequest bearer {[ "id" := id ]} ∅ ∅ None.

Definition listing (limit : string) : request :=
  mkRequest bearer ∅ {[ "limit" := limit ]} ∅ None.

Definition anonymous : request := mkRequest ∅ ∅ ∅ ∅ None.

Definition forged : request :=
  mkRequest {[ "authorization" := "Bearer abc.def.ghi" ]} ∅ ∅ ∅ None.

(** The columns that the five required fields alone give. *)
Definition five_columns (id : Z) (is_active : option bool)
    (created_at updated_at : Z) : Job.t :=
  Job.mk id "Engineer" "Acme" "Hanoi" None None (Some "VND")
    (Some "Full-time") "Build things" None None "hr@acme.com" None
    is_active created_at updated_at.

(** *** More requests, sequences of requests and a start-up *)

(** A create and an update of job 1 with an empty title. *)
Definition no_title : request :=
  mkRequest bearer {[ "id" := "1" ]} ∅ (<["title" := JStr ""]> five) None.

(** An update of job 1 that sends [is_active: null]. *)
Definition update_null : request :=
  mkRequest bearer {[ "id" := "1" ]} ∅ (<["is_active" := JNull]> five) None.


(** A public listing with every filter. *)
Definition filtered : request :=
  mkRequest ∅ ∅
    {[ "search" := "acme"; "location" := "hanoi";
       "job_type" := "Part-time" ]} ∅ None.

(** An admin at work: a create, a toggle of job 1 and a delete of
    job 2. *)
Definition session : list (route * world * request) :=
  [ (POST_admin_jobs, later, create_five);
    (PATCH_admin_jobs_id_toggle, much_later, by_id "1");
    (DELETE_admin_jobs_id, much_later, by_id "2") ].

(** Requests without a token that verifies, and requests that only
    read. *)
Definition outsiders : list (route * world * request) :=
  [ (GET_jobs, later, anonymous);
    (POST_admin_jobs, later, forged);
    (DELETE_admin_jobs_id, later, anonymous);
    (POST_auth_login, at_login, login);
    (GET_admin_jobs, later, listing "10");
    (PUT_admin_jobs_id, later, forged) ].


(** A database without tables, and what the first start makes of it. *)
Definition empty : cluster := mkCluster None None.

Definition initialised : cluster :=
  mkCluster
    (Some ([Admin.mk 1 "admin" default_admin_password
              "admin@jobportal.com" 0], 2))
    (Some ([], 1)).

End Sample.


(** * Properties *)

(** ** Lists of rows *)

Lemma insert_desc_elem (x j : Job.t) (l : list Job.t) :
  x ∈ insert_desc j l <-> x = j \/ x ∈ l.
Proof.
  induction l as [|k l IH]; simpl.
  - rewrite list_elem_of_singleton, elem_of_nil. tauto.
  - destruct (Job.created_at k <? Job.created_at j).
    + rewrite !elem_of_cons. tauto.
    + rewrite !elem_of_cons, IH. tauto.
Qed.

Lemma order_by_elem (x : Job.t) (l : list Job.t) :
  x ∈ order_by_created_at_desc l <-> x ∈ l.
Proof.
  unfold order_by_created_at_desc.
  induction l as [|k l IH]; simpl; [reflexivity|].
  rewrite insert_desc_elem, IH, elem_of_cons. tauto.
Qed.

Lemma insert_desc_length (j : Job.t) (l : list Job.t) :
  length (insert_desc j l) = S (length l).
Proof.
  induction l as [|k l IH]; simpl; [reflexivity|].
  destruct (Job.created_at k <? Job.created_at j); simpl; congruence.
Qed.

Lemma order_by_length (l : list Job.t) :
  length (order_by_created_at_desc l) = length l.
Proof.
  unfold order_by_created_at_desc.
  induction l as [|k l IH]; simpl; [reflexivity|].
  rewrite insert_desc_length. congruence.
Qed.

Lemma insert_desc_fmap (g : Job.t -> Job.t) (j : Job.t) (l : list Job.t) :
  (forall x, Job.created_at (g x) = Job.created_at x) ->
  insert_desc (g j) (g <$> l) = g <$> insert_desc j l.
Proof.
  intros Hg. induction l as [|k l IH]; [reflexivity|].
  rewrite fmap_cons. cbn [insert_desc]. rewrite !Hg.
  destruct (Job.created_at k <? Job.created_at j).
  - by rewrite !fmap_cons.
  - by rewrite fmap_cons, IH.
Qed.

Lemma order_by_fmap (g : Job.t -> Job.t) (l : list Job.t) :
  (forall x, Job.created_at (g x) = Job.created_at x) ->
  order_by_created_at_desc (g <$> l) = g <$> order_by_created_at_desc l.
Proof.
  intros Hg. unfold order_by_created_at_desc.
  induction l as [|k l IH]; [reflexivity|].
  rewrite fmap_cons. cbn [foldr]. rewrite IH. by apply insert_desc_fmap.
Qed.

Lemma filter_fmap (g : Job.t -> Job.t) (p : Job.t -> bool) (l : list Job.t) :
  (forall x, p (g x) = p x) ->
  List.filter p (g <$> l) = g <$> List.filter p l.
Proof.
  intros Hp. induction l as [|k l IH]; [reflexivity|].
  rewrite fmap_cons. cbn [List.filter]. rewrite Hp, IH.
  by destruct (p k).
Qed.

Lemma filter_elem (p : Job.t -> bool) (x : Job.t) (l : list Job.t) :
  x ∈ List.filter p l <-> x ∈ l /\ p x = true.
Proof. rewrite !list_elem_of_In. apply filter_In. Qed.

(** Under a key without duplicates, the rows of one key are one row. *)
Lemma key_unique {A : Type} (key : A -> Z) (l : list A) (x y : A) :
  NoDup (key <$> l) -> x ∈ l -> y ∈ l -> key x = key y -> x = y.
Proof.
  induction l as [|a l IH]; simpl; intros Hnd Hx Hy Hk.
  - inversion Hx.
  - apply NoDup_cons in Hnd as [Hna Hnd].
    apply elem_of_cons in Hx as [->|Hx]; apply elem_of_cons in Hy as [->|Hy].
    + reflexivity.
    + exfalso. apply Hna. rewrite Hk. apply list_elem_of_fmap. eauto.
    + exfalso. apply Hna. rewrite <- Hk. apply list_elem_of_fmap. eauto.
    + auto.
Qed.

Lemma filter_unique {A K : Type} (key : A -> K) (eqb : K -> K -> bool)
    (l : list A) (j : A) :
  (forall x y, eqb x y = true <-> x = y) ->
  NoDup (key <$> l) -> j ∈ l ->
  List.filter (fun x => eqb (key x) (key j)) l = [j].
Proof.
  intros Heqb.
  assert (Hrefl : forall x, eqb x x = true) by (intros x; by apply Heqb).
  assert (Hneq : forall x y, x <> y -> eqb x y = false).
  { intros x y Hxy. destruct (eqb x y) eqn:E; [|done]. by apply Heqb in E. }
  induction l as [|a l IH]; simpl; intros Hnd Hj.
  - inversion Hj.
  - apply NoDup_cons in Hnd as [Hna Hnd].
    apply elem_of_cons in Hj as [->|Hj].
    + rewrite Hrefl. f_equal.
      clear IH Hnd. induction l as [|b l IH]; simpl; [reflexivity|].
      simpl in Hna. rewrite not_elem_of_cons in Hna. destruct Hna as [Hne Hna].
      rewrite (Hneq (key b) (key a)) by congruence. auto.
    + rewrite Hneq; [auto|].
      intros E. apply Hna. rewrite E. apply list_elem_of_fmap. eauto.
Qed.

Lemma filter_key (l : list Job.t) (j : Job.t) :
  NoDup (Job.id <$> l) -> j ∈ l ->
  List.filter (fun x => Job.id x =? Job.id j) l = [j].
Proof. apply (filter_unique Job.id Z.eqb), Z.eqb_eq. Qed.

Lemma filter_none {A : Type} (p : A -> bool) (l : list A) :
  (forall x, x ∈ l -> p x = false) -> List.filter p l = [].
Proof.
  induction l as [|a l IH]; simpl; intros Hp; [reflexivity|].
  rewrite (Hp a) by left. apply IH. intros x Hx. apply Hp. by right.
Qed.

(** ** Text *)

Lemma split_no_space (t : string) :
  no_space t = true -> split " " t = [t].
Proof.
  induction t as [|a t IH]; simpl; [reflexivity|].
  intros [Ha Ht]%andb_prop.
  apply negb_true_iff in Ha. rewrite Ha, (IH Ht). reflexivity.
Qed.

Lemma split_bearer (t : string) :
  no_space t = true -> split " " ("Bearer " ++ t) = ["Bearer"; t].
Proof.
  intros Ht. simpl. change ("" ++ t) with t.
  by rewrite (split_no_space t Ht).
Qed.

Lemma eqb_empty (t : string) : t <> "" -> String.eqb t "" = false.
Proof. intros Ht. by apply String.eqb_neq. Qed.

Lemma has_nul_app (s t : string) :
  has_nul (s ++ t) = has_nul s || has_nul t.
Proof.
  induction s as [|c s IH]; simpl; [reflexivity|].
  change (has_nul (String c s ++ t)) with (Ascii.eqb c zero || has_nul (s ++ t)).
  by rewrite IH, orb_assoc.
Qed.

Lemma has_nul_pattern (s : string) :
  has_nul ("%" ++ s ++ "%") = has_nul s.
Proof.
  change (has_nul ("%" ++ s ++ "%")) with (has_nul (s ++ "%")).
  rewrite has_nul_app. simpl. by rewrite orb_false_r.
Qed.

(** Membership in a list that is written out. *)
Ltac listed :=
  repeat (first [apply list_elem_of_here | apply list_elem_of_further]).

Section Properties.
Context `{Platform}.

(** ** The gate *)

Lemma gate_forward w req next st u :
  authenticated w req = Some u ->
  authenticateToken w req next st = next (attach u req) st.
Proof.
  unfold authenticated, authenticateToken.
  destruct (bearer_token _) as [[|a t]|]; simpl; try discriminate.
  destruct (jwt_verify _ _ _); [|discriminate].
  by intros [= ->].
Qed.

Lemma gate_reject w req next st :
  authenticated w req = None ->
  exists r, authenticateToken w req next st = (r, st)
            /\ (status r = 401 \/ status r = 403).
Proof.
  unfold authenticated, authenticateToken.
  destruct (bearer_token _) as [[|a t]|]; simpl; eauto.
  destruct (jwt_verify _ _ _); [discriminate|]. eauto.
Qed.

(** C6. The gate reads the token as the second space-separated field of
    the Authorization header, so [Bearer <token>] yields the token.
    Without a token (no header, no second field or an empty one) it
    answers 401 "Access token required"; with a token that
    [jwt.verify] rejects it answers 403 "Invalid token"; in both cases
    the answer and the state do not depend on the handler behind the
    gate. With a token that verifies it calls the handler on the
    request with the decoded identity attached. Every protected route
    answers a request that the gate does not let through with 401 or
    403 and leaves the state as it was. *)
Theorem gate_contract (w : world) (req : request)
    (next : request -> db -> response * db) (st : db) :
  let token := bearer_token (headers req !! "authorization") in
  (forall t, no_space t = true ->
     headers req !! "authorization" = Some ("Bearer " ++ t) ->
     token = Some t)
  /\ (token = None \/ token = Some "" ->
      authenticateToken w req next st
      = (mkResponse 401 (Message "Access token required"), st))
  /\ (forall t, token = Some t -> t <> "" ->
      jwt_verify t JWT_SECRET (Date_now w / 1000) = None ->
      authenticateToken w req next st
      = (mkResponse 403 (Message "Invalid token"), st))
  /\ (forall t u, token = Some t -> t <> "" ->
      jwt_verify t JWT_SECRET (Date_now w / 1000) = Some u ->
      authenticateToken w req next st
      = next (mkRequest (headers req) (params req) (query req)
                (body req) (Some u)) st)
  /\ (forall route, route ∈ protected_routes ->
      authenticated w req = None ->
      exists r, route w req st = (r, st)
                /\ (status r = 401 \/ status r = 403)).
Proof.
  cbv zeta. split; [|split; [|split; [|split]]].
  - intros t Ht ->. unfold bearer_token.
    change (String.eqb ("Bearer " ++ t) "") with false. cbv iota.
    by rewrite (split_bearer t Ht).
  - unfold authenticateToken. by intros [-> | ->].
  - intros t Ht Hne Hv. unfold authenticateToken. rewrite Ht.
    destruct t as [|a t]; [done|]. by rewrite Hv.
  - intros t u Ht Hne Hv. unfold authenticateToken. rewrite Ht.
    destruct t as [|a t]; [done|]. by rewrite Hv.
  - intros route Hroute Hauth. unfold protected_routes in Hroute.
    repeat (apply elem_of_cons in Hroute as [->|Hroute];
            [by apply gate_reject|]).
    inversion Hroute.
Qed.

(** ** Pagination *)

Lemma limitInt_with_limit (v : string) (req : request) :
  limitInt (with_limit v req)
  = Z.min 100 (Z.max 1 (num_or (parseInt (str_or (Some v) "10")) 10)).
Proof. unfold limitInt, with_limit. simpl. by rewrite lookup_insert_eq. Qed.

Lemma pageInt_with_limit (v : string) (req : request) :
  pageInt (with_limit v req) = pageInt req.
Proof.
  unfold pageInt, with_limit. simpl. by rewrite lookup_insert_ne.
Qed.

(** The listings read [limit] only through [limitInt]. *)
Lemma get_jobs_limit (w : world) (v v' : string) (req : request) (st : db) :
  limitInt (with_limit v req) = limitInt (with_limit v' req) ->
  get_jobs w (with_limit v req) st = get_jobs w (with_limit v' req) st.
Proof.
  intros E. unfold get_jobs. rewrite !pageInt_with_limit, E.
  unfold with_limit. simpl. by rewrite !lookup_insert_ne.
Qed.

Lemma admin_jobs_limit (v v' : string) (req : request) (st : db) :
  limitInt (with_limit v req) = limitInt (with_limit v' req) ->
  admin_jobs_handler (with_limit v req) st
  = admin_jobs_handler (with_limit v' req) st.
Proof.
  intros E. unfold admin_jobs_handler. rewrite !pageInt_with_limit, E.
  unfold with_limit. simpl. by rewrite !lookup_insert_ne.
Qed.

Lemma select_page_length base clauses limit offset st rows :
  select_page base clauses limit offset st = Some rows ->
  Z.of_nat (length rows) <= limit.
Proof.
  unfold select_page, row_count.
  destruct (select_where _ _ _) as [all|]; [|discriminate].
  cbn [mbind option_bind].
  destruct ((0 <=? limit) && (limit <? 2 ^ 63)) eqn:El; [|discriminate].
  cbn [mbind option_bind].
  destruct ((0 <=? offset) && (offset <? 2 ^ 63)); [|discriminate].
  cbn [mbind option_bind]. intros [= <-].
  rewrite length_take. apply andb_prop in El as [El _]. lia.
Qed.

Lemma clauses_accept (req : request) :
  (forall k s, k ∈ ["search"; "location"; "job_type"] ->
     query req !! k = Some s -> has_nul s = false) ->
  forallb (fun c : string * (Job.t -> bool) => negb (has_nul c.1))
    (when_given (query req !! "search") search_clause
     ++ when_given (query req !! "location") location_clause
     ++ when_given (query req !! "job_type") job_type_clause)%list = true
  /\ forallb (fun c : string * (Job.t -> bool) => negb (has_nul c.1))
       (when_given (query req !! "search") search_clause) = true.
Proof.
  intros Hq.
  assert (Hone : forall k clause,
            k ∈ ["search"; "location"; "job_type"] ->
            (forall s, has_nul (clause s).1 = has_nul s) ->
            forallb (fun c : string * (Job.t -> bool) => negb (has_nul c.1))
              (when_given (query req !! k) clause) = true).
  { intros k clause Hk Hc. unfold when_given.
    destruct (query req !! k) as [s|] eqn:E; [|done].
    destruct (String.eqb s ""); [done|].
    cbn [forallb]. by rewrite Hc, (Hq k s Hk E). }
  rewrite !forallb_app.
  rewrite (Hone "search" search_clause), (Hone "location" location_clause),
    (Hone "job_type" job_type_clause); try done; try listed;
    intros s; cbn [fst search_clause location_clause job_type_clause];
    by rewrite ?has_nul_pattern.
Qed.

Lemma select_page_answers base clauses limit offset st :
  forallb (fun c : string * (Job.t -> bool) => negb (has_nul c.1)) clauses
  = true ->
  0 <= limit < 2 ^ 63 -> 0 <= offset < 2 ^ 63 ->
  exists rows n,
    select_page base clauses limit offset st = Some rows
    /\ select_count base clauses st = Some n.
Proof.
  intros Hc Hl Ho. unfold select_page, select_count, select_where, row_count.
  rewrite Hc. cbn [mbind option_bind].
  destruct (Z.leb_spec 0 limit); [|lia].
  destruct (Z.ltb_spec limit (2 ^ 63)); [|lia].
  destruct (Z.leb_spec 0 offset); [|lia].
  destruct (Z.ltb_spec offset (2 ^ 63)); [|lia].
  cbn [andb mbind option_bind]. eauto.
Qed.

(** C1, as the code has it. For every listing request the effective
    limit lies in [1,100] and the effective page is at least 1. A [page]
    or [limit] that is absent, empty, not a number for [parseInt], or
    zero falls back to the default (page 1, limit 10); a negative one is
    raised to 1, a limit above 100 is lowered to 100, and any other
    value is taken as it is. So the public and the admin listing answer
    [limit=-5] as they answer [limit=1], [limit=500] as [limit=100] and
    a limit that is not a number as [limit=10]; a listing never holds
    more jobs than the effective limit; and whatever [page] and [limit]
    hold, the listing is answered 200 as long as the filter texts hold no
    NUL and the page is below 2^56. *)
Theorem pagination_sanitized (req : request) :
  let page : option string := query req !! "page" in
  let limit : option string := query req !! "limit" in
  (1 <= limitInt req <= 100 /\ 1 <= pageInt req)
  /\ (limit = None \/ limit = Some "" -> limitInt req = 10)
  /\ (forall s, limit = Some s -> parseInt s = None -> limitInt req = 10)
  /\ (forall s n, limit = Some s -> parseInt s = Some n ->
        (n = 0 -> limitInt req = 10) /\ (n < 0 -> limitInt req = 1)
        /\ (1 <= n <= 100 -> limitInt req = n)
        /\ (100 < n -> limitInt req = 100))
  /\ (page = None \/ page = Some "" -> pageInt req = 1)
  /\ (forall s, page = Some s -> parseInt s = None -> pageInt req = 1)
  /\ (forall s n, page = Some s -> parseInt s = Some n ->
        (n <= 0 -> pageInt req = 1) /\ (1 <= n -> pageInt req = n))
  /\ (forall w st,
        get_jobs w (with_limit "-5" req) st
        = get_jobs w (with_limit "1" req) st
        /\ get_jobs w (with_limit "500" req) st
           = get_jobs w (with_limit "100" req) st
        /\ admin_jobs_handler (with_limit "-5" req) st
           = admin_jobs_handler (with_limit "1" req) st
        /\ admin_jobs_handler (with_limit "500" req) st
           = admin_jobs_handler (with_limit "100" req) st)
  /\ (forall w st s, parseInt s = None ->
        get_jobs w (with_limit s req) st
        = get_jobs w (with_limit "10" req) st
        /\ admin_jobs_handler (with_limit s req) st
           = admin_jobs_handler (with_limit "10" req) st)
  /\ (forall w st n,
        (jobs_returned (payload (get_jobs w req st).1) = Some n ->
         Z.of_nat n <= limitInt req)
        /\ (jobs_returned (payload (get_admin_jobs w req st).1) = Some n ->
            Z.of_nat n <= limitInt req))
  /\ (forall w st,
        (forall k s, k ∈ ["search"; "location"; "job_type"] ->
           query req !! k = Some s -> has_nul s = false) ->
        pageInt req <= 2 ^ 56 ->
        status (get_jobs w req st).1 = 200
        /\ status (admin_jobs_handler req st).1 = 200).
Proof.
  cbv zeta.
  assert (Hempty : parseInt "" = None) by reflexivity.
  assert (Hs : forall s, parseInt s <> None -> str_or (Some s) "10" = s
                                             /\ str_or (Some s) "1" = s).
  { intros s Hp. unfold str_or.
    destruct (String.eqb_spec s ""); [by subst|done]. }
  split; [unfold limitInt, pageInt; lia|].
  split; [by unfold limitInt; intros [-> | ->]|].
  split.
  { intros s Hl Hp. unfold limitInt, str_or. rewrite Hl.
    destruct (String.eqb s ""); [done|]. by rewrite Hp. }
  split.
  { intros s n Hl Hp. unfold limitInt. rewrite Hl.
    rewrite (proj1 (Hs s ltac:(congruence))), Hp. unfold num_or.
    destruct (Z.eqb_spec n 0); lia. }
  split; [by unfold pageInt; intros [-> | ->]|].
  split.
  { intros s Hl Hp. unfold pageInt, str_or. rewrite Hl.
    destruct (String.eqb s ""); [done|]. by rewrite Hp. }
  split.
  { intros s n Hl Hp. unfold pageInt. rewrite Hl.
    rewrite (proj2 (Hs s ltac:(congruence))), Hp. unfold num_or.
    destruct (Z.eqb_spec n 0); lia. }
  split.
  { intros w st.
    repeat split;
      (apply get_jobs_limit || apply admin_jobs_limit);
      by rewrite !limitInt_with_limit. }
  split.
  { intros w st s Hp.
    assert (E : limitInt (with_limit s req) = limitInt (with_limit "10" req)).
    { rewrite !limitInt_with_limit. unfold str_or.
      destruct (String.eqb s ""); [done|]. by rewrite Hp. }
    split; [by apply get_jobs_limit | by apply admin_jobs_limit]. }
  split; [intros w st n; split|].
  - unfold get_jobs.
    destruct (select_page _ _ _ _ _) as [rows|] eqn:Hrows; [|discriminate].
    apply select_page_length in Hrows.
    destruct (select_count _ _ _); [|discriminate].
    cbn [fst payload res_json jobs_returned]. intros [= <-].
    by rewrite length_fmap.
  - unfold get_admin_jobs, authenticateToken.
    destruct (bearer_token _) as [[|c t]|]; try discriminate.
    destruct (jwt_verify _ _ _); [|discriminate].
    unfold admin_jobs_handler.
    change (limitInt (mkRequest _ _ (query req) _ _)) with (limitInt req).
    change (pageInt (mkRequest _ _ (query req) _ _)) with (pageInt req).
    cbn [query].
    destruct (select_page _ _ _ _ _) as [rows|] eqn:Hrows; [|discriminate].
    apply select_page_length in Hrows.
    destruct (select_count _ _ _); [|discriminate].
    cbn [fst payload res_json jobs_returned]. by intros [= <-].
  - intros w st Hq Hpage.
    destruct (clauses_accept req Hq) as [Hpublic Hadmin].
    assert (Hl : 0 <= limitInt req < 2 ^ 63) by (unfold limitInt; lia).
    assert (Ho : 0 <= (pageInt req - 1) * limitInt req < 2 ^ 63).
    { assert (1 <= pageInt req) by (unfold pageInt; lia).
      assert (1 <= limitInt req <= 100) by (unfold limitInt; lia).
      change (2 ^ 56) with 72057594037927936 in Hpage.
      change (2 ^ 63) with 9223372036854775808. nia. }
    split.
    + unfold get_jobs.
      destruct (select_page_answers active _ _ _ st Hpublic Hl Ho)
        as (rows & n & -> & ->). reflexivity.
    + unfold admin_jobs_handler.
      destruct (select_page_answers (fun _ => true) _ _ _ st Hadmin Hl Ho)
        as (rows & n & -> & ->). reflexivity.
Qed.

(** ** Visibility *)

Lemma select_where_elem base clauses st rows x :
  select_where base clauses st = Some rows ->
  x ∈ rows <->
  x ∈ jobs st /\ base x = true /\ forallb (fun c => c.2 x) clauses = true.
Proof.
  unfold select_where. destruct (forallb _ clauses); [|discriminate].
  intros [= <-]. rewrite filter_elem, andb_true_iff. tauto.
Qed.

Lemma select_page_elem base clauses limit offset st rows x :
  select_page base clauses limit offset st = Some rows ->
  x ∈ rows -> x ∈ jobs st /\ base x = true.
Proof.
  unfold select_page.
  destruct (select_where _ _ _) as [all|] eqn:Hall; [|discriminate].
  cbn [mbind option_bind].
  destruct (row_count limit) as [l|]; [|discriminate].
  cbn [mbind option_bind].
  destruct (row_count offset) as [o|]; [|discriminate].
  cbn [mbind option_bind]. intros [= <-] Hx.
  assert (Hin : x ∈ all).
  { apply order_by_elem. eapply subseteq_drop, subseteq_take, Hx. }
  apply (select_where_elem _ _ _ _ x Hall) in Hin. tauto.
Qed.

(** A first page that is long enough holds every row that passes. *)
Lemma select_page_all base clauses limit st all :
  select_where base clauses st = Some all ->
  Z.of_nat (length all) <= limit -> limit <= 100 ->
  exists rows,
    select_page base clauses limit 0 st = Some rows
    /\ forall x, x ∈ rows <-> x ∈ all.
Proof.
  intros Hall Hlen Hlim. unfold select_page, row_count. rewrite Hall.
  cbn [mbind option_bind].
  destruct (Z.leb_spec 0 limit); [|lia].
  destruct (Z.ltb_spec limit (2 ^ 63)); [|lia].
  cbn [andb mbind option_bind].
  exists (order_by_created_at_desc all). split.
  - change ((0 <=? 0) && (0 <? 2 ^ 63)) with true.
    change (Z.to_nat 0) with 0%nat. cbn [mbind option_bind drop].
    rewrite drop_0, take_ge; [reflexivity|]. rewrite order_by_length. lia.
  - intros x. apply order_by_elem.
Qed.

Lemma job_active (j : Job.t) :
  active j = true <-> Job.is_active j = Some true.
Proof.
  unfold active. destruct (Job.is_active j) as [[]|]; split; congruence.
Qed.

(** The admin listing of a relabelled table is the relabelled listing. *)
Lemma admin_jobs_relabel (f : Job.t -> option bool) (req : request)
    (st : db) (rows : list Job.t) (cp tp tj : Z) :
  admin_jobs_handler req st = (res_json (AdminPage rows cp tp tj), st) ->
  admin_jobs_handler req (relabel f st)
  = (res_json (AdminPage (set_is_active f <$> rows) cp tp tj), relabel f st).
Proof.
  unfold admin_jobs_handler.
  set (clauses := when_given (query req !! "search") search_clause).
  assert (Hwhere :
    select_where (fun _ => true) clauses (relabel f st)
    = (fun l : list Job.t => set_is_active f <$> l)
        <$> select_where (fun _ => true) clauses st).
  { unfold select_where. destruct (forallb _ clauses); [|done].
    cbn [fmap option_fmap option_map relabel jobs]. f_equal.
    apply filter_fmap. intros x. f_equal.
    subst clauses. unfold when_given.
    destruct (query req !! "search") as [s|]; [|done].
    by destruct (String.eqb s ""). }
  unfold select_page, select_count. rewrite Hwhere.
  destruct (select_where _ clauses st) as [all|];
    cbn [fmap option_fmap option_map mbind option_bind]; [|discriminate].
  destruct (row_count (limitInt req)) as [l|];
    cbn [mbind option_bind]; [|discriminate].
  destruct (row_count _) as [o|]; cbn [mbind option_bind]; [|discriminate].
  intros [= <- <- <- <-].
  rewrite order_by_fmap by done.
  by rewrite <- fmap_drop, <- fmap_take, !length_fmap.
Qed.

Lemma select_job_id only_active s k st :
  int4in s = Some k ->
  select_job only_active (Some s) st
  = Some (List.filter
            (fun j => has_id k j && (if only_active then active j else true))
            (jobs st)).
Proof. unfold select_job, nullable. by intros ->. Qed.

Lemma search_where (search : option string) (j : Job.t) (st : db) :
  (forall s, search = Some s -> s <> "" ->
     has_nul s = false
     /\ ilike (Job.title j) ("%" ++ s ++ "%")
        || ilike (Job.company j) ("%" ++ s ++ "%") = true) ->
  exists all,
    select_where (fun _ => true) (when_given search search_clause) st
    = Some all
    /\ (j ∈ jobs st -> j ∈ all)
    /\ (length all <= length (jobs st))%nat.
Proof.
  intros Hs. unfold select_where, when_given.
  destruct search as [s|].
  2: { eexists. split; [reflexivity|]. split.
       - intros Hj. by apply filter_elem.
       - apply List.filter_length_le. }
  destruct (String.eqb_spec s "") as [->|Hne].
  { eexists. split; [reflexivity|]. split.
    - intros Hj. by apply filter_elem.
    - apply List.filter_length_le. }
  destruct (Hs s eq_refl Hne) as [Hnul Hlike].
  unfold search_clause. cbn [forallb fst snd].
  rewrite has_nul_pattern, Hnul. cbn [negb andb].
  eexists. split; [reflexivity|]. split.
  - intros Hj. apply filter_elem. split; [done|].
    cbn [andb]. by rewrite Hlike.
  - apply List.filter_length_le.
Qed.

(** C2. Every job of the public listing is a row whose [is_active] is
    true. The admin listing does not look at [is_active]: on a first
    page that is long enough for the table, it holds every row that
    passes the search, active or not, and rewriting [is_active] in the
    table changes nothing in its answer but that column. For an id whose
    row is not active, the public detail route answers 404 and the admin
    detail route answers 200 with the row. *)
Theorem visibility (w : world) (req : request) (st : db) :
  (forall js cp tp tj hn hp x,
     payload (get_jobs w req st).1 = PublicPage js cp tp tj hn hp ->
     x ∈ js ->
     exists j, j ∈ jobs st /\ Job.is_active j = Some true
               /\ x = PublicJob.of_job j)
  /\ (forall u j,
        authenticated w req = Some u -> j ∈ jobs st ->
        (forall s, query req !! "search" = Some s -> s <> "" ->
           has_nul s = false
           /\ ilike (Job.title j) ("%" ++ s ++ "%")
              || ilike (Job.company j) ("%" ++ s ++ "%") = true) ->
        pageInt req = 1 ->
        Z.of_nat (length (jobs st)) <= limitInt req ->
        exists rows cp tp tj,
          get_admin_jobs w req st = (res_json (AdminPage rows cp tp tj), st)
          /\ j ∈ rows)
  /\ (forall f rows cp tp tj,
        get_admin_jobs w req st = (res_json (AdminPage rows cp tp tj), st) ->
        get_admin_jobs w req (relabel f st)
        = (res_json (AdminPage (set_is_active f <$> rows) cp tp tj),
           relabel f st))
  /\ (forall j s,
        primary_key st -> j ∈ jobs st -> Job.is_active j <> Some true ->
        params req !! "id" = Some s -> int4in s = Some (Job.id j) ->
        get_jobs_id w req st = (job_not_found, st)
        /\ forall u, authenticated w req = Some u ->
             get_admin_jobs_id w req st = (res_json (JobDetail j), st)).
Proof.
  split; [|split; [|split]].
  - intros js cp tp tj hn hp x. unfold get_jobs.
    destruct (select_page _ _ _ _ _) as [rows|] eqn:Hrows; [|discriminate].
    destruct (select_count _ _ _); [|discriminate].
    cbn [fst payload res_json]. intros [= <- _ _ _ _ _] Hx.
    apply list_elem_of_fmap in Hx as (j & -> & Hj).
    apply (select_page_elem _ _ _ _ _ _ _ Hrows) in Hj as [Hj Hact].
    exists j. by rewrite <- job_active.
  - intros u j Hauth Hj Hsearch Hpage Hlen.
    unfold get_admin_jobs. rewrite (gate_forward _ _ _ _ u Hauth).
    unfold admin_jobs_handler.
    change (limitInt (attach u req)) with (limitInt req).
    change (pageInt (attach u req)) with (pageInt req).
    change (query (attach u req)) with (query req).
    rewrite Hpage. change ((1 - 1) * limitInt req) with 0.
    destruct (search_where (query req !! "search") j st Hsearch)
      as (all & Hall & Hin & Hle).
    assert (Hlim : limitInt req <= 100) by (unfold limitInt; lia).
    destruct (select_page_all _ _ (limitInt req) st all Hall
                ltac:(lia) Hlim) as (rows & -> & Hrows).
    unfold select_count. rewrite Hall. cbn [mbind option_bind].
    do 4 eexists. split; [reflexivity|]. apply Hrows. auto.
  - intros f rows cp tp tj. unfold get_admin_jobs, authenticateToken.
    destruct (bearer_token _) as [[|c t]|]; try discriminate.
    destruct (jwt_verify _ _ _); [|discriminate].
    apply admin_jobs_relabel.
  - intros j s Hpk Hj Hna Hid Hint. split; [|intros u Hauth].
    + unfold get_jobs_id. rewrite Hid, (select_job_id _ _ _ _ Hint).
      rewrite filter_none; [reflexivity|].
      intros x Hx. unfold has_id.
      destruct (Z.eqb_spec (Job.id x) (Job.id j)) as [E|E]; [|done].
      rewrite (key_unique Job.id (jobs st) x j) by done.
      cbn [andb]. destruct (active j) eqn:Ea; [|done].
      by apply job_active in Ea.
    + unfold get_admin_jobs_id. rewrite (gate_forward _ _ _ _ u Hauth).
      unfold admin_job_detail_handler.
      change (params (attach u req)) with (params req).
      rewrite Hid, (select_job_id _ _ _ _ Hint).
      rewrite (List.filter_ext _ (fun x => Job.id x =? Job.id j))
        by (intros x; unfold has_id; apply andb_true_r).
      by rewrite filter_key.
Qed.

(** ** Mutations *)

Lemma varcharin_fits (n : nat) (t : string) :
  has_nul t = false -> (char_length t <= n)%nat ->
  varcharin n t = Some t.
Proof.
  intros Hnul Hlen. unfold varcharin. rewrite Hnul.
  by destruct (Nat.leb_spec (char_length t) n); [|lia].
Qed.

Lemma insert_job_fresh now ps st columns :
  job_columns ps = Some columns -> fresh_id st ->
  insert_job now ps st
  = (Some [columns (jobs_id_seq st) (Some true) now now],
     mkDb (admins st)
       (jobs st ++ [columns (jobs_id_seq st) (Some true) now now])
       (jobs_id_seq st + 1)).
Proof.
  intros Hc [Hmax Hnew]. unfold insert_job. rewrite Hc.
  destruct (Z.leb_spec (jobs_id_seq st) 2147483647); [|lia].
  destruct (existsb _ (jobs st)) eqn:E; [|reflexivity].
  apply existsb_exists in E as (x & Hx & E).
  apply list_elem_of_In in Hx. apply Z.eqb_eq in E. by apply Hnew in Hx.
Qed.

(** C3. A create request that passes the gate and whose [salary_min]
    and [salary_max] are both present and numeric, the minimum above
    the maximum, is answered 400 and leaves the state as it was; so is
    an update request, for every id. The message is the one of the
    salary range, unless a required field is missing, whose message
    comes first. *)
Theorem salary_range_rejected (w : world) (req : request) (st : db)
    (u : Claims.t) :
  let salary_min := prop (body req) "salary_min" in
  let salary_max := prop (body req) "salary_max" in
  let message :=
    if required_missing (body req) then required_message
    else salary_message in
  authenticated w req = Some u ->
  is_present salary_min = true -> is_present salary_max = true ->
  isNaN (Number salary_min) = false -> isNaN (Number salary_max) = false ->
  num_gt (Number salary_min) (Number salary_max) = true ->
  post_admin_jobs w req st = (mkResponse 400 (Message message), st)
  /\ put_admin_jobs_id w req st = (mkResponse 400 (Message message), st).
Proof.
  intros salary_min salary_max message Hauth Hmin Hmax Hn1 Hn2 Hgt.
  unfold post_admin_jobs, put_admin_jobs_id.
  rewrite !(gate_forward _ _ _ _ u Hauth).
  unfold create_job_handler, update_job_handler.
  change (body (attach u req)) with (body req).
  subst message. destruct (required_missing (body req)); [done|].
  unfold salary_range_invalid. fold salary_min salary_max.
  by rewrite Hmin, Hmax, Hn1, Hn2, Hgt.
Qed.

(** C9. A create request that passes the gate and supplies only the
    five required fields, as non-empty texts that their columns take
    (such as "Engineer", "Acme", "Hanoi", "Build things",
    "hr@acme.com"), is answered 201 with the created row; the row is
    appended to the table with the five texts, [salary_currency]
    "VND", [job_type] "Full-time", [is_active] true and the other
    optional columns NULL. *)
Theorem create_defaults (w : world) (req : request) (st : db)
    (u : Claims.t) (title company location description contact_email : string) :
  let b := body req in
  authenticated w req = Some u -> fresh_id st ->
  prop b "title" = JStr title -> prop b "company" = JStr company ->
  prop b "location" = JStr location ->
  prop b "description" = JStr description ->
  prop b "contact_email" = JStr contact_email ->
  (forall k, k ∈ ["salary_min"; "salary_max"; "salary_currency"; "job_type";
                  "requirements"; "benefits"; "contact_phone"] ->
             prop b k = JUndefined) ->
  (forall t, t ∈ [title; company; location; description; contact_email] ->
             t <> "" /\ has_nul t = false) ->
  (char_length title <= 200)%nat -> (char_length company <= 150)%nat ->
  (char_length location <= 100)%nat ->
  (char_length contact_email <= 100)%nat ->
  exists row,
    post_admin_jobs w req st
    = (mkResponse 201 (MessageJob "Tạo công việc thành công" row),
       mkDb (admins st) (jobs st ++ [row]) (jobs_id_seq st + 1))
    /\ Job.salary_currency row = Some "VND"
    /\ Job.job_type row = Some "Full-time"
    /\ Job.is_active row = Some true
    /\ row = Job.mk (jobs_id_seq st) title company location None None
               (Some "VND") (Some "Full-time") description None None
               contact_email None (Some true)
               (CURRENT_TIMESTAMP w) (CURRENT_TIMESTAMP w).
Proof.
  intros b Hauth Hfresh Ht Hc Hl Hd He Hopt Htxt L1 L2 L3 L4.
  assert (Hcols : job_columns (job_parameters b)
                  = Some (fun id is_active created_at updated_at =>
                      Job.mk id title company location None None
                        (Some "VND") (Some "Full-time") description None
                        None contact_email None is_active created_at
                        updated_at)).
  { unfold job_parameters. rewrite Ht, Hc, Hl, Hd, He.
    rewrite !Hopt by listed.
    unfold job_columns, js_or.
    cbn [truthy prepareValue not_null nullable mbind option_bind fmap
         option_fmap option_map].
    rewrite (varcharin_fits 200 title), (varcharin_fits 150 company),
      (varcharin_fits 100 location), (varcharin_fits 100 contact_email);
      try done; try (apply Htxt; listed).
    unfold textin. rewrite (proj2 (Htxt description ltac:(listed))).
    reflexivity. }
  assert (Hreq : required_missing b = false).
  { unfold required_missing. rewrite Ht, Hc, Hl, Hd, He. cbn [truthy].
    rewrite !eqb_empty; try done; apply Htxt; listed. }
  exists (Job.mk (jobs_id_seq st) title company location None None
            (Some "VND") (Some "Full-time") description None None
            contact_email None (Some true)
            (CURRENT_TIMESTAMP w) (CURRENT_TIMESTAMP w)).
  split; [|by repeat split].
  unfold post_admin_jobs. rewrite (gate_forward _ _ _ _ u Hauth).
  unfold create_job_handler. change (body (attach u req)) with b.
  rewrite Hreq, !Hopt by listed.
  cbn [salary_range_invalid is_present andb].
  by rewrite (insert_job_fresh _ _ _ _ Hcols Hfresh).
Qed.

(** What [job_columns] assigns, column by column. *)
Lemma job_columns_fields p1 p2 p3 p4 p5 p6 p7 p8 p9 p10 p11 p12 columns :
  job_columns [p1; p2; p3; p4; p5; p6; p7; p8; p9; p10; p11; p12]
  = Some columns ->
  forall id is_active created_at updated_at,
    let row := columns id is_active created_at updated_at in
    (Job.id row = id /\ Job.is_active row = is_active
     /\ Job.created_at row = created_at /\ Job.updated_at row = updated_at)
    /\ not_null (varcharin 200) (prepareValue p1) = Some (Job.title row)
    /\ not_null (varcharin 150) (prepareValue p2) = Some (Job.company row)
    /\ not_null (varcharin 100) (prepareValue p3) = Some (Job.location row)
    /\ nullable int4in (prepareValue p4) = Some (Job.salary_min row)
    /\ nullable int4in (prepareValue p5) = Some (Job.salary_max row)
    /\ nullable (varcharin 10) (prepareValue p6)
       = Some (Job.salary_currency row)
    /\ nullable (varcharin 50) (prepareValue p7) = Some (Job.job_type row)
    /\ not_null textin (prepareValue p8) = Some (Job.description row)
    /\ nullable textin (prepareValue p9) = Some (Job.requirements row)
    /\ nullable textin (prepareValue p10) = Some (Job.benefits row)
    /\ not_null (varcharin 100) (prepareValue p11)
       = Some (Job.contact_email row)
    /\ nullable (varcharin 20) (prepareValue p12)
       = Some (Job.contact_phone row).
Proof.
  unfold job_columns. intros Hc id ia c t.
  repeat match type of Hc with
         | mbind _ ?m = Some _ =>
             destruct m eqn:?; cbn [mbind option_bind] in Hc;
             [|discriminate]
         end.
  injection Hc as <-. cbn. repeat split.
Qed.

Lemma update_job_bound now b ia_p id_p st columns ia k :
  job_columns (job_parameters b) = Some columns ->
  nullable boolin (prepareValue ia_p) = Some ia ->
  nullable int4in (prepareValue id_p) = Some k ->
  update_job now (job_parameters b ++ [ia_p; id_p]) st
  = (Some ((fun j => columns (Job.id j) ia (Job.created_at j) now)
             <$> List.filter (id_matches k) (jobs st)),
     mkDb (admins st)
       ((fun j => if id_matches k j
                  then columns (Job.id j) ia (Job.created_at j) now
                  else j) <$> jobs st)
       (jobs_id_seq st)).
Proof.
  intros Hc Hia Hk. unfold update_job.
  unfold job_parameters in *. cbn [app]. by rewrite Hc, Hia, Hk.
Qed.

Lemma same_db (st : db) :
  mkDb (admins st) (jobs st) (jobs_id_seq st) = st.
Proof. by destruct st. Qed.

(** An UPDATE by id: no row when the id is not in the table, and one
    row under the primary key when it is. *)
Lemma update_by_id_absent (set : Job.t -> Job.t) (k : Z) (l : list Job.t) :
  (forall x, x ∈ l -> Job.id x <> k) ->
  List.filter (id_matches (Some k)) l = []
  /\ (fun x => if id_matches (Some k) x then set x else x) <$> l = l.
Proof.
  intros Hno.
  assert (E : forall x, x ∈ l -> id_matches (Some k) x = false).
  { intros x Hx. by apply Z.eqb_neq, Hno. }
  split; [by apply filter_none|].
  rewrite <- (list_fmap_id l) at 2. apply list_fmap_ext.
  intros i x Hx. rewrite E; [done|]. by eapply list_elem_of_lookup_2.
Qed.

Lemma update_by_id_present (set : Job.t -> Job.t) (l : list Job.t)
    (j : Job.t) :
  NoDup (Job.id <$> l) -> j ∈ l ->
  List.filter (id_matches (Some (Job.id j))) l = [j]
  /\ (fun x => if id_matches (Some (Job.id j)) x then set x else x) <$> l
     = (fun x => if Job.id x =? Job.id j then set j else x) <$> l.
Proof.
  intros Hnd Hj. split; [by apply filter_key|].
  apply list_fmap_ext. intros i x Hx. cbn [id_matches]. unfold has_id.
  destruct (Z.eqb_spec (Job.id x) (Job.id j)) as [E|E]; [|done].
  f_equal. apply (key_unique Job.id l); [done| |done|done].
  by eapply list_elem_of_lookup_2.
Qed.

Section Update.
Variables (w : world) (req : request) (st : db) (u : Claims.t).
Variables (columns : Z -> option bool -> Z -> Z -> Job.t).
Variables (ia : option bool) (s : string) (k : Z).
Hypothesis Hauth : authenticated w req = Some u.
Hypothesis Hrequired : required_missing (body req) = false.
Hypothesis Hsalary :
  salary_range_invalid (prop (body req) "salary_min")
    (prop (body req) "salary_max") = false.
Hypothesis Hcolumns : job_columns (job_parameters (body req)) = Some columns.
Hypothesis Hactive :
  nullable boolin
    (prepareValue (is_active_parameter (prop (body req) "is_active")))
  = Some ia.
Hypothesis Hid : params req !! "id" = Some s.
Hypothesis Hint : int4in s = Some k.

Lemma put_statement :
  put_admin_jobs_id w req st
  = match
      update_job (CURRENT_TIMESTAMP w)
        (job_parameters (body req)
         ++ [is_active_parameter (prop (body req) "is_active");
             JStr s])%list st
    with
    | (Some [], st') => (job_not_found, st')
    | (Some (row :: _), st') =>
        (res_json (MessageJob "Cập nhật công việc thành công" row), st')
    | (None, st') => (server_error, st')
    end.
Proof.
  unfold put_admin_jobs_id. rewrite (gate_forward _ _ _ _ u Hauth).
  unfold update_job_handler, id_parameter.
  change (body (attach u req)) with (body req).
  change (params (attach u req)) with (params req).
  by rewrite Hrequired, Hsalary, Hid.
Qed.

Lemma put_absent :
  (forall x, x ∈ jobs st -> Job.id x <> k) ->
  put_admin_jobs_id w req st = (job_not_found, st).
Proof.
  intros Hno. rewrite put_statement.
  rewrite (update_job_bound _ _ _ _ _ columns ia (Some k) Hcolumns Hactive)
    by (cbn [prepareValue nullable]; by rewrite Hint).
  destruct (update_by_id_absent
              (fun j => columns (Job.id j) ia (Job.created_at j)
                          (CURRENT_TIMESTAMP w)) k (jobs st) Hno)
    as [-> ->].
  by rewrite same_db.
Qed.

Lemma put_present (j : Job.t) :
  primary_key st -> j ∈ jobs st -> Job.id j = k ->
  let row := columns k ia (Job.created_at j) (CURRENT_TIMESTAMP w) in
  put_admin_jobs_id w req st
  = (res_json (MessageJob "Cập nhật công việc thành công" row),
     mkDb (admins st)
       ((fun x => if Job.id x =? k then row else x) <$> jobs st)
       (jobs_id_seq st)).
Proof.
  intros Hpk Hj <- row. rewrite put_statement.
  rewrite (update_job_bound _ _ _ _ _ columns ia (Some (Job.id j))
             Hcolumns Hactive)
    by (cbn [prepareValue nullable]; by rewrite Hint).
  destruct (update_by_id_present
              (fun j => columns (Job.id j) ia (Job.created_at j)
                          (CURRENT_TIMESTAMP w)) (jobs st) j Hpk Hj)
    as [-> ->].
  reflexivity.
Qed.
End Update.

Lemma create_statement w req st u :
  authenticated w req = Some u ->
  required_missing (body req) = false ->
  salary_range_invalid (prop (body req) "salary_min")
    (prop (body req) "salary_max") = false ->
  post_admin_jobs w req st
  = match insert_job (CURRENT_TIMESTAMP w) (job_parameters (body req)) st with
    | (Some (row :: _), st') =>
        (mkResponse 201 (MessageJob "Tạo công việc thành công" row), st')
    | (_, st') => (server_error, st')
    end.
Proof.
  intros Hauth Hreq Hsal.
  unfold post_admin_jobs. rewrite (gate_forward _ _ _ _ u Hauth).
  unfold create_job_handler. change (body (attach u req)) with (body req).
  by rewrite Hreq, Hsal.
Qed.

(** C4, as the code has it. An update request that passes the gate and
    the validation, and whose values the datastore takes, is answered
    404 and changes nothing when no job has the id. Otherwise it is
    answered 200 with the updated row, which replaces the row of that
    id: [id] and [created_at] are kept, [updated_at] is the current
    timestamp, and every other column is assigned from the request. Of
    the fields that the request does not send, [salary_min],
    [salary_max], [requirements], [benefits] and [contact_phone] become
    NULL, [salary_currency] becomes "VND", [job_type] becomes
    "Full-time" and [is_active] becomes true (the datastore reading the
    text [true] of that parameter as true). *)
Theorem update_replaces (w : world) (req : request) (st : db)
    (u : Claims.t) (columns : Z -> option bool -> Z -> Z -> Job.t)
    (ia : option bool) (s : string) (k : Z) :
  let b := body req in
  authenticated w req = Some u ->
  required_missing b = false ->
  salary_range_invalid (prop b "salary_min") (prop b "salary_max") = false ->
  job_columns (job_parameters b) = Some columns ->
  nullable boolin (prepareValue (is_active_parameter (prop b "is_active")))
  = Some ia ->
  params req !! "id" = Some s -> int4in s = Some k ->
  boolin "true" = Some true ->
  ((forall x, x ∈ jobs st -> Job.id x <> k) ->
   put_admin_jobs_id w req st = (job_not_found, st))
  /\ (forall j, primary_key st -> j ∈ jobs st -> Job.id j = k ->
      exists row,
        put_admin_jobs_id w req st
        = (res_json (MessageJob "Cập nhật công việc thành công" row),
           mkDb (admins st)
             ((fun x => if Job.id x =? k then row else x) <$> jobs st)
             (jobs_id_seq st))
        /\ (Job.id row = k /\ Job.created_at row = Job.created_at j
            /\ Job.updated_at row = CURRENT_TIMESTAMP w
            /\ Job.is_active row = ia)
        /\ (not_null (varcharin 200) (prepareValue (prop b "title"))
            = Some (Job.title row)
            /\ not_null (varcharin 150) (prepareValue (prop b "company"))
               = Some (Job.company row)
            /\ not_null (varcharin 100) (prepareValue (prop b "location"))
               = Some (Job.location row)
            /\ not_null textin (prepareValue (prop b "description"))
               = Some (Job.description row)
            /\ not_null (varcharin 100)
                 (prepareValue (prop b "contact_email"))
               = Some (Job.contact_email row))
        /\ (nullable int4in
              (prepareValue (js_or (prop b "salary_min") JNull))
            = Some (Job.salary_min row)
            /\ nullable int4in
                 (prepareValue (js_or (prop b "salary_max") JNull))
               = Some (Job.salary_max row)
            /\ nullable (varcharin 10)
                 (prepareValue (js_or (prop b "salary_currency") (JStr "VND")))
               = Some (Job.salary_currency row)
            /\ nullable (varcharin 50)
                 (prepareValue (js_or (prop b "job_type") (JStr "Full-time")))
               = Some (Job.job_type row)
            /\ nullable textin
                 (prepareValue (js_or (prop b "requirements") JNull))
               = Some (Job.requirements row)
            /\ nullable textin
                 (prepareValue (js_or (prop b "benefits") JNull))
               = Some (Job.benefits row)
            /\ nullable (varcharin 20)
                 (prepareValue (js_or (prop b "contact_phone") JNull))
               = Some (Job.contact_phone row))
        /\ ((prop b "salary_min" = JUndefined -> Job.salary_min row = None)
            /\ (prop b "salary_max" = JUndefined -> Job.salary_max row = None)
            /\ (prop b "requirements" = JUndefined ->
                Job.requirements row = None)
            /\ (prop b "benefits" = JUndefined -> Job.benefits row = None)
            /\ (prop b "contact_phone" = JUndefined ->
                Job.contact_phone row = None)
            /\ (prop b "salary_currency" = JUndefined ->
                Job.salary_currency row = Some "VND")
            /\ (prop b "job_type" = JUndefined ->
                Job.job_type row = Some "Full-time")
            /\ (prop b "is_active" = JUndefined ->
                Job.is_active row = Some true))).
Proof.
  intros b Hauth Hreq Hsal Hcols Hia Hid Hint Htrue. split.
  - by apply (put_absent w req st u columns ia s k).
  - intros j Hpk Hj Hk.
    exists (columns k ia (Job.created_at j) (CURRENT_TIMESTAMP w)).
    split; [by apply (put_present w req st u columns ia s k)|].
    destruct (job_columns_fields _ _ _ _ _ _ _ _ _ _ _ _ _ Hcols
                k ia (Job.created_at j) (CURRENT_TIMESTAMP w))
      as ((F1 & F2 & F3 & F4) & C1 & C2 & C3 & C4 & C5 & C6 & C7 & C8
          & C9 & C10 & C11 & C12).
    cbv zeta in *.
    set (row := columns k ia (Job.created_at j) (CURRENT_TIMESTAMP w)) in *.
    split; [done|]. split; [done|]. split; [done|].
    repeat split.
    + intros E. rewrite E in C4. by injection C4.
    + intros E. rewrite E in C5. by injection C5.
    + intros E. rewrite E in C9. by injection C9.
    + intros E. rewrite E in C10. by injection C10.
    + intros E. rewrite E in C12. by injection C12.
    + intros E. rewrite E in C6. by injection C6.
    + intros E. rewrite E in C7. by injection C7.
    + intros E. rewrite E in Hia. cbn in Hia. rewrite Htrue in Hia.
      rewrite F2. by injection Hia.
Qed.

(** C10. For a create or an update request that passes the gate and
    the validation and whose values the datastore takes, the stored row
    has the falsy optional values coalesced: a [salary_min] or
    [salary_max] that is the number 0 is stored as NULL, an empty
    [salary_currency] as "VND", an empty [job_type] as "Full-time", and
    an empty [requirements], [benefits] or [contact_phone] as NULL. *)
Theorem falsy_coalesced (w : world) (req : request) (st : db)
    (u : Claims.t) (columns : Z -> option bool -> Z -> Z -> Job.t) :
  let b := body req in
  authenticated w req = Some u ->
  required_missing b = false ->
  salary_range_invalid (prop b "salary_min") (prop b "salary_max") = false ->
  job_columns (job_parameters b) = Some columns ->
  (forall id is_active created_at updated_at,
     let row := columns id is_active created_at updated_at in
     (forall q, prop b "salary_min" = JNum (Finite q) -> (q == 0)%Q ->
                Job.salary_min row = None)
     /\ (forall q, prop b "salary_max" = JNum (Finite q) -> (q == 0)%Q ->
                   Job.salary_max row = None)
     /\ (prop b "salary_currency" = JStr "" ->
         Job.salary_currency row = Some "VND")
     /\ (prop b "job_type" = JStr "" -> Job.job_type row = Some "Full-time")
     /\ (prop b "requirements" = JStr "" -> Job.requirements row = None)
     /\ (prop b "benefits" = JStr "" -> Job.benefits row = None)
     /\ (prop b "contact_phone" = JStr "" -> Job.contact_phone row = None))
  /\ (fresh_id st ->
      let row :=
        columns (jobs_id_seq st) (Some true) (CURRENT_TIMESTAMP w)
          (CURRENT_TIMESTAMP w) in
      post_admin_jobs w req st
      = (mkResponse 201 (MessageJob "Tạo công việc thành công" row),
         mkDb (admins st) (jobs st ++ [row]) (jobs_id_seq st + 1)))
  /\ (forall j s ia,
        primary_key st -> j ∈ jobs st ->
        params req !! "id" = Some s -> int4in s = Some (Job.id j) ->
        nullable boolin
          (prepareValue (is_active_parameter (prop b "is_active")))
        = Some ia ->
        let row :=
          columns (Job.id j) ia (Job.created_at j) (CURRENT_TIMESTAMP w) in
        put_admin_jobs_id w req st
        = (res_json (MessageJob "Cập nhật công việc thành công" row),
           mkDb (admins st)
             ((fun x => if Job.id x =? Job.id j then row else x)
                <$> jobs st)
             (jobs_id_seq st))).
Proof.
  intros b Hauth Hreq Hsal Hcols. split; [|split].
  - intros id ia c t.
    destruct (job_columns_fields _ _ _ _ _ _ _ _ _ _ _ _ _ Hcols id ia c t)
      as (_ & _ & _ & _ & C4 & C5 & C6 & C7 & _ & C9 & C10 & _ & C12).
    cbv zeta in *. set (row := columns id ia c t) in *.
    assert (Hzero : forall q, (q == 0)%Q ->
              js_or (JNum (Finite q)) JNull = JNull).
    { intros q Hq. unfold js_or. cbn [truthy is_zero].
      by rewrite (proj2 (Qeq_bool_iff q 0) Hq). }
    repeat split.
    + intros q E Hq. rewrite E, (Hzero q Hq) in C4. by injection C4.
    + intros q E Hq. rewrite E, (Hzero q Hq) in C5. by injection C5.
    + intros E. rewrite E in C6. by injection C6.
    + intros E. rewrite E in C7. by injection C7.
    + intros E. rewrite E in C9. by injection C9.
    + intros E. rewrite E in C10. by injection C10.
    + intros E. rewrite E in C12. by injection C12.
  - intros Hfresh row.
    rewrite (create_statement w req st u Hauth Hreq Hsal).
    by rewrite (insert_job_fresh _ _ _ _ Hcols Hfresh).
  - intros j s ia Hpk Hj Hid Hint Hia.
    by apply (put_present w req st u columns ia s (Job.id j)).
Qed.

(** ** Toggle *)

Lemma toggle_statement w req st u s k :
  authenticated w req = Some u ->
  params req !! "id" = Some s -> int4in s = Some k ->
  patch_admin_jobs_id_toggle w req st
  = (match List.filter (id_matches (Some k)) (jobs st) with
     | [] => job_not_found
     | j :: _ =>
         let row := toggled (CURRENT_TIMESTAMP w) j in
         res_json (MessageJob (toggle_message row) row)
     end,
     mkDb (admins st)
       ((fun j => if id_matches (Some k) j
                  then toggled (CURRENT_TIMESTAMP w) j else j) <$> jobs st)
       (jobs_id_seq st)).
Proof.
  intros Hauth Hid Hint. unfold patch_admin_jobs_id_toggle.
  rewrite (gate_forward _ _ _ _ u Hauth).
  unfold toggle_job_handler, toggle_job.
  change (params (attach u req)) with (params req).
  rewrite Hid. cbn [nullable]. rewrite Hint. cbn [fmap option_fmap option_map].
  by destruct (List.filter _ (jobs st)).
Qed.

Lemma sql_not_twice (b : option bool) : sql_not (sql_not b) = b.
Proof. by destruct b as [[]|]. Qed.

(** C5. Toggling an existing job answers 200 with the updated row and
    the message of its new state ("Kích hoạt ..." when the row is now
    active, "Vô hiệu hóa ..." otherwise); [is_active] is negated and
    [updated_at] is the timestamp of the request. Under a clock that
    advances from one request to the next, two toggles bring
    [is_active] back to its first value and [updated_at] grows both
    times; nothing else in the row changes. Toggling an id that no job
    has answers 404 and changes nothing. *)
Theorem toggle_twice (w1 w2 : world) (req : request) (st : db)
    (u1 u2 : Claims.t) (s : string) (k : Z) :
  authenticated w1 req = Some u1 -> authenticated w2 req = Some u2 ->
  params req !! "id" = Some s -> int4in s = Some k ->
  ((forall x, x ∈ jobs st -> Job.id x <> k) ->
   patch_admin_jobs_id_toggle w1 req st = (job_not_found, st))
  /\ (forall j,
        primary_key st -> j ∈ jobs st -> Job.id j = k ->
        Job.updated_at j < CURRENT_TIMESTAMP w1 < CURRENT_TIMESTAMP w2 ->
        exists j1 j2 st1 st2,
          patch_admin_jobs_id_toggle w1 req st
          = (res_json (MessageJob (toggle_message j1) j1), st1)
          /\ patch_admin_jobs_id_toggle w2 req st1
             = (res_json (MessageJob (toggle_message j2) j2), st2)
          /\ jobs st1
             = (fun x => if Job.id x =? k then j1 else x) <$> jobs st
          /\ jobs st2
             = (fun x => if Job.id x =? k then j2 else x) <$> jobs st
          /\ (forall b, Job.is_active j = Some b ->
                        Job.is_active j1 = Some (negb b))
          /\ Job.is_active j2 = Job.is_active j
          /\ Job.updated_at j < Job.updated_at j1 < Job.updated_at j2
          /\ toggle_message j1
             = (if bool_decide (Job.is_active j1 = Some true)
                then "Kích hoạt công việc thành công"
                else "Vô hiệu hóa công việc thành công")
          /\ toggle_message j2
             = (if bool_decide (Job.is_active j2 = Some true)
                then "Kích hoạt công việc thành công"
                else "Vô hiệu hóa công việc thành công")
          /\ j2 = Job.mk (Job.id j) (Job.title j) (Job.company j)
                    (Job.location j) (Job.salary_min j) (Job.salary_max j)
                    (Job.salary_currency j) (Job.job_type j)
                    (Job.description j) (Job.requirements j)
                    (Job.benefits j) (Job.contact_email j)
                    (Job.contact_phone j) (Job.is_active j)
                    (Job.created_at j) (CURRENT_TIMESTAMP w2)).
Proof.
  intros Hauth1 Hauth2 Hid Hint. split.
  - intros Hno. rewrite (toggle_statement w1 req st u1 s k Hauth1 Hid Hint).
    destruct (update_by_id_absent (toggled (CURRENT_TIMESTAMP w1)) k
                (jobs st) Hno) as [-> ->].
    by rewrite same_db.
  - intros j Hpk Hj <- Hclock.
    set (j1 := toggled (CURRENT_TIMESTAMP w1) j).
    set (j2 := toggled (CURRENT_TIMESTAMP w2) j1).
    set (st1 := mkDb (admins st)
                  ((fun x => if Job.id x =? Job.id j then j1 else x)
                     <$> jobs st) (jobs_id_seq st)).
    set (st2 := mkDb (admins st)
                  ((fun x => if Job.id x =? Job.id j then j2 else x)
                     <$> jobs st) (jobs_id_seq st)).
    assert (Hids : Job.id <$> jobs st1 = Job.id <$> jobs st).
    { unfold st1. cbn [jobs]. rewrite <- list_fmap_compose.
      apply list_fmap_ext. intros i x _. cbn.
      by destruct (Z.eqb_spec (Job.id x) (Job.id j)) as [->|]. }
    assert (Hpk1 : primary_key st1) by (unfold primary_key; by rewrite Hids).
    assert (Hj1 : j1 ∈ jobs st1).
    { unfold st1. cbn [jobs]. apply list_elem_of_fmap. exists j.
      by rewrite Z.eqb_refl. }
    assert (Hmsg : forall x,
              toggle_message x
              = (if bool_decide (Job.is_active x = Some true)
                 then "Kích hoạt công việc thành công"
                 else "Vô hiệu hóa công việc thành công")).
    { intros x. unfold toggle_message, active.
      by destruct (Job.is_active x) as [[]|]. }
    exists j1, j2, st1, st2. repeat split.
    + rewrite (toggle_statement w1 req st u1 s _ Hauth1 Hid Hint).
      destruct (update_by_id_present (toggled (CURRENT_TIMESTAMP w1))
                  (jobs st) j Hpk Hj) as [-> ->].
      reflexivity.
    + rewrite (toggle_statement w2 req st1 u2 s _ Hauth2 Hid Hint).
      change (Job.id j) with (Job.id j1).
      destruct (update_by_id_present (toggled (CURRENT_TIMESTAMP w2))
                  (jobs st1) j1 Hpk1 Hj1) as [-> ->].
      cbv zeta. f_equal. unfold st1, st2. cbn [admins jobs jobs_id_seq].
      f_equal. rewrite <- list_fmap_compose. apply list_fmap_ext.
      intros i x _. cbn [compose]. change (Job.id j1) with (Job.id j).
      destruct (Z.eqb_spec (Job.id x) (Job.id j)) as [E|E].
      * change (Job.id j1) with (Job.id j). by rewrite Z.eqb_refl.
      * by destruct (Z.eqb_spec (Job.id x) (Job.id j)).
    + intros b Hb. cbn. by rewrite Hb.
    + cbn. apply sql_not_twice.
    + cbn. lia.
    + cbn. lia.
    + apply Hmsg.
    + apply Hmsg.
    + unfold j2, j1, toggled. cbn. by rewrite sql_not_twice.
Qed.

(** ** Login *)

Lemma select_admin_text (v : jsval) (t : string) (st : db) :
  prepareValue v = Some t -> has_nul t = false ->
  select_admin v st
  = Some (List.filter (fun a => String.eqb (Admin.username a) t)
            (admins st)).
Proof. unfold select_admin, textin. by intros -> ->. Qed.

(** C8. A login whose username matches no admin row is answered 401
    "Tài khoản không tồn tại"; a login whose username matches an admin
    and whose password fails [bcrypt.compare] is answered 401
    "Mật khẩu không đúng"; the two messages differ, and neither login
    changes the state. *)
Theorem login_failures (w : world) (req : request) (st : db) :
  let username := prop (body req) "username" in
  let password := prop (body req) "password" in
  (forall t,
     truthy username = true -> truthy password = true ->
     prepareValue username = Some t -> has_nul t = false ->
     (forall a, a ∈ admins st -> Admin.username a <> t) ->
     post_auth_login w req st
     = (mkResponse 401 (Message "Tài khoản không tồn tại"), st))
  /\ (forall t pw a,
        truthy username = true ->
        prepareValue username = Some t -> has_nul t = false ->
        password = JStr pw -> pw <> "" ->
        unique_username st -> a ∈ admins st -> Admin.username a = t ->
        bcrypt_compare pw (Admin.password a) = false ->
        post_auth_login w req st
        = (mkResponse 401 (Message "Mật khẩu không đúng"), st))
  /\ "Tài khoản không tồn tại" <> "Mật khẩu không đúng".
Proof.
  cbv zeta. repeat split.
  - intros t Hu Hp Ht Hnul Hno. unfold post_auth_login.
    rewrite Hu, Hp, (select_admin_text _ t st Ht Hnul). cbn [negb orb].
    rewrite filter_none; [reflexivity|].
    intros a Ha. apply String.eqb_neq. by apply Hno.
  - intros t pw a Hu Ht Hnul Hpw Hne Huniq Ha Hat Hcmp.
    unfold post_auth_login.
    rewrite Hu, (select_admin_text _ t st Ht Hnul), Hpw.
    cbn [truthy]. rewrite (eqb_empty pw Hne). cbn [negb orb].
    subst t.
    rewrite (filter_unique Admin.username String.eqb (admins st) a
               String.eqb_eq Huniq Ha).
    by rewrite Hcmp.
  - discriminate.
Qed.

(** C7. The token of a successful login is signed over the id and the
    username of an admin row with a lifetime of 24 hours: presented as
    [Bearer <token>] 23 hours after the login it passes the gate, which
    attaches that identity, and 25 hours after the login the gate
    answers 403 "Invalid token". *)
Theorem token_lifetime (w : world) (req : request) (st st' : db)
    (m token : string) (id : Z) (username email : string) :
  jwt_contract ->
  post_auth_login w req st
  = (res_json (LoginOk m token id username email), st') ->
  (exists a, a ∈ admins st /\ Admin.id a = id
             /\ Admin.username a = username)
  /\ forall (w' : world) (req' : request)
       (next : request -> db -> response * db) (st1 : db),
       headers req' !! "authorization" = Some ("Bearer " ++ token) ->
       (Date_now w' = Date_now w + 23 * 60 * 60 * 1000 ->
        authenticateToken w' req' next st1
        = next (mkRequest (headers req') (params req') (query req')
                  (body req')
                  (Some (Claims.mk id username (Date_now w / 1000)
                           (Date_now w / 1000 + 24 * 60 * 60)))) st1)
       /\ (Date_now w' = Date_now w + 25 * 60 * 60 * 1000 ->
           authenticateToken w' req' next st1
           = (mkResponse 403 (Message "Invalid token"), st1)).
Proof.
  intros Hjwt Hlogin. pose proof JWT_SECRET_set as Hsecret.
  unfold post_auth_login in Hlogin.
  destruct (negb (truthy _) || negb (truthy _)); [discriminate|].
  destruct (select_admin _ st) as [[|a rest]|] eqn:Hsel; try discriminate.
  destruct (prop (body req) "password") as [| | | |pw]; try discriminate.
  destruct (bcrypt_compare pw _); [|discriminate].
  injection Hlogin as _ <- <- <- _ _.
  split.
  - exists a. split; [|done].
    unfold select_admin in Hsel.
    destruct (prepareValue _); [|discriminate].
    destruct (textin _); simpl in Hsel; [|discriminate].
    injection Hsel as Hsel.
    assert (Ha : a ∈ a :: rest) by left.
    rewrite <- Hsel in Ha. rewrite list_elem_of_In in Ha.
    apply filter_In in Ha as [Ha _]. by apply list_elem_of_In.
  - intros w' req' next st1 Hhdr.
    destruct (Hjwt (Admin.id a) (Admin.username a) JWT_SECRET
                (Date_now w / 1000) expiresIn Hsecret)
      as (Hne & Hsp & Hver).
    set (tk := jwt_sign _ _ _ _ _) in *.
    assert (Htok : bearer_token (headers req' !! "authorization") = Some tk).
    { rewrite Hhdr. unfold bearer_token.
      change (String.eqb ("Bearer " ++ tk) "") with false. cbv iota.
      by rewrite (split_bearer tk Hsp). }
    unfold authenticateToken. rewrite Htok.
    destruct tk as [|c tk'] eqn:Etk; [done|]. rewrite Hver.
    unfold expiresIn. split; intros ->.
    + replace ((Date_now w + 23 * 60 * 60 * 1000) / 1000)
        with (Date_now w / 1000 + 82800)
        by (rewrite <- (Z.div_add _ 82800 1000) by lia; f_equal; lia).
      destruct (Z.ltb_spec (Date_now w / 1000 + 82800)
                  (Date_now w / 1000 + 24 * 60 * 60)); [done|lia].
    + replace ((Date_now w + 25 * 60 * 60 * 1000) / 1000)
        with (Date_now w / 1000 + 90000)
        by (rewrite <- (Z.div_add _ 90000 1000) by lia; f_equal; lia).
      destruct (Z.ltb_spec (Date_now w / 1000 + 90000)
                  (Date_now w / 1000 + 24 * 60 * 60)); [lia|done].
Qed.

End Properties.


(** * The properties on the sample instance *)

Lemma of_bits_bits (p : positive) : Sample.of_bits (Sample.bits p) = Some p.
Proof. induction p as [p IH|p IH|]; simpl; by rewrite ?IH. Qed.

Lemma bits_no_space (p : positive) : no_space (Sample.bits p) = true.
Proof. induction p as [p IH|p IH|]; simpl; by rewrite ?IH. Qed.

Lemma bits_not_empty (p : positive) : Sample.bits p <> "".
Proof. by destruct p. Qed.

(** The sample tokens meet the contract of the token library. *)
Lemma sample_jwt_contract : @jwt_contract Sample.platform.
Proof.
  intros id username secret iat lifetime Hsecret.
  split; [apply bits_not_empty|]. split; [apply bits_no_space|].
  intros clock. cbn [jwt_verify jwt_sign Sample.platform].
  unfold Sample.jwt_verify, Sample.jwt_sign.
  rewrite of_bits_bits. cbn [mbind option_bind].
  rewrite decode_encode. cbn [mbind option_bind].
  rewrite String.eqb_refl. cbn [andb].
  by destruct (clock <? iat + lifetime).
Qed.

Example parseInt_runs :
  parseInt "-5" = Some (-5) /\ parseInt "  42abc" = Some 42
  /\ parseInt "abc" = None /\ parseInt "" = None /\ parseInt "-0" = Some 0
  /\ parseInt "+7" = Some 7 /\ parseInt "1e3" = Some 1.
Proof. repeat split. Qed.

Example split_runs :
  split " " "Bearer abc" = ["Bearer"; "abc"]
  /\ split " " "Bearer" = ["Bearer"] /\ split " " "a  b" = ["a"; ""; "b"]
  /\ split " " "" = [""].
Proof. repeat split. Qed.

Example truthy_runs :
  truthy (JNum (Finite 0)) = false /\ truthy (JStr "") = false
  /\ truthy (JStr "0") = true /\ truthy (JBool false) = false
  /\ js_or (JNum (Finite 0)) JNull = JNull
  /\ js_or (JStr "") (JStr "VND") = JStr "VND".
Proof. repeat split. Qed.

Example varcharin_runs :
  varcharin 3 "abc" = Some "abc" /\ varcharin 3 "abcd" = None
  /\ varcharin 3 "abc  " = Some "abc" /\ varcharin 10 "VND" = Some "VND".
Proof. repeat split. Qed.

Example ilike_runs :
  Sample.ilike "Senior Engineer" "%engi%" = true
  /\ Sample.ilike "Acme" "%engi%" = false
  /\ Sample.ilike "abc" "%a_c%" = true.
Proof. repeat split. Qed.

Section Examples.
#[local] Existing Instance Sample.platform.

Example limitInt_runs :
  limitInt (Sample.listing "-5") = 1 /\ limitInt (Sample.listing "0") = 10
  /\ limitInt (Sample.listing "500") = 100
  /\ limitInt (Sample.listing "25") = 25
  /\ limitInt (Sample.listing "abc") = 10
  /\ limitInt Sample.anonymous = 10 /\ pageInt Sample.anonymous = 1.
Proof. repeat split. Qed.

Example get_jobs_runs :
  (get_jobs Sample.later Sample.anonymous Sample.store).1
  = res_json
      (PublicPage
         [PublicJob.of_job Sample.tester; PublicJob.of_job Sample.engineer]
         1 1 2 false false).
Proof. vm_compute. reflexivity. Qed.

Lemma sample_authenticated :
  authenticated Sample.later Sample.create_five = Some Sample.identity.
Proof. vm_compute. reflexivity. Qed.

Lemma sample_primary_key : primary_key Sample.store.
Proof.
  unfold primary_key. change (Job.id <$> jobs Sample.store) with [1; 2; 3].
  repeat (apply NoDup_cons; split;
          [rewrite ?not_elem_of_cons, elem_of_nil; intuition discriminate|]).
  apply NoDup_nil_2.
Qed.

Lemma sample_fresh_id : fresh_id Sample.store.
Proof.
  split; [by vm_compute|]. intros j Hj.
  repeat (apply elem_of_cons in Hj as [->|Hj]; [by vm_compute|]).
  inversion Hj.
Qed.

(** Witness of C6: the gate on the sample token, on a request without a
    header and on a token that does not verify. *)
Lemma gate_contract_witness :
  bearer_token (headers Sample.create_five !! "authorization")
  = Some Sample.token
  /\ authenticateToken Sample.later Sample.anonymous
       (create_job_handler Sample.later) Sample.store
     = (mkResponse 401 (Message "Access token required"), Sample.store)
  /\ authenticateToken Sample.later Sample.forged
       (create_job_handler Sample.later) Sample.store
     = (mkResponse 403 (Message "Invalid token"), Sample.store)
  /\ authenticateToken Sample.later Sample.create_five
       (create_job_handler Sample.later) Sample.store
     = create_job_handler Sample.later
         (attach Sample.identity Sample.create_five) Sample.store
  /\ exists r,
       delete_admin_jobs_id Sample.later Sample.anonymous Sample.store
       = (r, Sample.store)
       /\ (status r = 401 \/ status r = 403).
Proof.
  destruct (gate_contract Sample.later Sample.create_five
              (create_job_handler Sample.later) Sample.store)
    as (Hextract & _ & _ & Hforward & _).
  destruct (gate_contract Sample.later Sample.anonymous
              (create_job_handler Sample.later) Sample.store)
    as (_ & Hmissing & _ & _ & Hroutes).
  assert (Hanonymous : authenticated Sample.later Sample.anonymous = None)
    by reflexivity.
  destruct (gate_contract Sample.later Sample.forged
              (create_job_handler Sample.later) Sample.store)
    as (_ & _ & Hinvalid & _ & _).
  split; [|split; [|split; [|split]]].
  - apply (Hextract Sample.token); vm_compute; reflexivity.
  - apply Hmissing. left. vm_compute. reflexivity.
  - apply (Hinvalid "abc.def.ghi"); [vm_compute; reflexivity|discriminate|].
    vm_compute. reflexivity.
  - apply (Hforward Sample.token Sample.identity).
    + vm_compute. reflexivity.
    + apply bits_not_empty.
    + vm_compute. reflexivity.
  - apply (Hroutes delete_admin_jobs_id); [|exact Hanonymous].
    unfold protected_routes. listed.
Defined.

(** Witness of C7: the sample login issues the sample token, which the
    gate accepts 23 hours later and rejects 25 hours later. *)
Lemma token_lifetime_witness :
  post_auth_login Sample.at_login Sample.login Sample.store
  = (res_json (LoginOk "Đăng nhập thành công" Sample.token 1 "admin"
                 "admin@jobportal.com"), Sample.store)
  /\ authenticateToken Sample.after_23h Sample.create_five
       (create_job_handler Sample.after_23h) Sample.store
     = create_job_handler Sample.after_23h
         (attach Sample.identity Sample.create_five) Sample.store
  /\ authenticateToken Sample.after_25h Sample.create_five
       (create_job_handler Sample.after_25h) Sample.store
     = (mkResponse 403 (Message "Invalid token"), Sample.store).
Proof.
  assert (Hlogin :
    post_auth_login Sample.at_login Sample.login Sample.store
    = (res_json (LoginOk "Đăng nhập thành công" Sample.token 1 "admin"
                   "admin@jobportal.com"), Sample.store))
    by (vm_compute; reflexivity).
    destruct (token_lifetime Sample.at_login Sample.login Sample.store
              Sample.store _ _ _ _ _ sample_jwt_contract Hlogin)
    as [_ Hgate].
  split; [exact Hlogin|]. split.
  - destruct (Hgate Sample.after_23h Sample.create_five
                (create_job_handler Sample.after_23h) Sample.store)
      as [H23 _]; [vm_compute; reflexivity|].
    apply H23. reflexivity.
  - destruct (Hgate Sample.after_25h Sample.create_five
                (create_job_handler Sample.after_25h) Sample.store)
      as [_ H25]; [vm_compute; reflexivity|].
    apply H25. reflexivity.
Defined.

(** Witness of C8: an unknown username and a wrong password on the sample
    datastore. *)
Lemma login_failures_witness :
  post_auth_login Sample.at_login Sample.unknown_user Sample.store
  = (mkResponse 401 (Message "Tài khoản không tồn tại"), Sample.store)
  /\ post_auth_login Sample.at_login Sample.wrong_password Sample.store
     = (mkResponse 401 (Message "Mật khẩu không đúng"), Sample.store).
Proof.
  split.
  - destruct (login_failures Sample.at_login Sample.unknown_user Sample.store)
      as (Hunknown & _ & _).
    apply (Hunknown "nobody"); try (vm_compute; reflexivity).
    intros a Ha. apply list_elem_of_singleton in Ha as ->. discriminate.
  - destruct (login_failures Sample.at_login Sample.wrong_password
                Sample.store) as (_ & Hwrong & _).
    apply (Hwrong "admin" "letmein" Sample.admin);
      try (vm_compute; reflexivity).
    + discriminate.
    + unfold unique_username. cbn. apply NoDup_singleton.
    + apply list_elem_of_here.
Defined.

(** Witness of C1: [limit=-5], [limit=500], [limit=abc] and [page=0] on
    the sample listing. *)
Lemma pagination_sanitized_witness :
  limitInt (Sample.listing "-5") = 1
  /\ limitInt (Sample.listing "500") = 100
  /\ limitInt (Sample.listing "abc") = 10
  /\ pageInt (Sample.listing "abc") = 1
  /\ Z.of_nat 1 <= limitInt (Sample.listing "-5").
Proof.
  destruct (pagination_sanitized (Sample.listing "-5"))
    as (_ & _ & _ & Hm5 & _ & _ & _ & _ & _ & Hlen & _).
  destruct (pagination_sanitized (Sample.listing "500"))
    as (_ & _ & _ & H500 & _).
  destruct (pagination_sanitized (Sample.listing "abc"))
    as (_ & _ & Habc & _ & Hpage & _).
  split; [|split; [|split; [|split]]].
  - apply (Hm5 "-5" (-5)); [reflexivity|reflexivity|lia].
  - apply (H500 "500" 500); [reflexivity|reflexivity|lia].
  - apply (Habc "abc"); reflexivity.
  - apply Hpage. left. reflexivity.
  - apply (Hlen Sample.later Sample.store 1%nat). vm_compute. reflexivity.
Defined.

(** Witness of C2: the sample listings and the detail routes on the
    inactive job 2. *)
Lemma visibility_witness :
  (forall x,
     x ∈ [PublicJob.of_job Sample.tester; PublicJob.of_job Sample.engineer] ->
     exists j, j ∈ jobs Sample.store /\ Job.is_active j = Some true
               /\ x = PublicJob.of_job j)
  /\ (exists rows cp tp tj,
        get_admin_jobs Sample.later (Sample.listing "10") Sample.store
        = (res_json (AdminPage rows cp tp tj), Sample.store)
        /\ Sample.designer ∈ rows)
  /\ get_jobs_id Sample.later (Sample.by_id "2") Sample.store
     = (job_not_found, Sample.store)
  /\ get_admin_jobs_id Sample.later (Sample.by_id "2") Sample.store
     = (res_json (JobDetail Sample.designer), Sample.store).
Proof.
  destruct (visibility Sample.later (Sample.listing "10") Sample.store)
    as (Hpublic & Hadmin & _).
  destruct (visibility Sample.later (Sample.by_id "2") Sample.store)
    as (_ & _ & _ & Hdetail).
  assert (Hdesigner : Sample.designer ∈ jobs Sample.store)
    by (apply list_elem_of_further, list_elem_of_here).
  destruct (Hdetail Sample.designer "2" sample_primary_key Hdesigner)
    as [H404 H200]; [discriminate|reflexivity|reflexivity|].
  split; [|split; [|split]].
  - intros x Hx.
    apply (Hpublic
             [PublicJob.of_job Sample.tester; PublicJob.of_job Sample.engineer]
             1 1 2 false false x); [vm_compute; reflexivity|exact Hx].
  - apply (Hadmin Sample.identity Sample.designer).
    + vm_compute. reflexivity.
    + exact Hdesigner.
    + intros s Hs. vm_compute in Hs. discriminate.
    + reflexivity.
    + vm_compute. discriminate.
  - exact H404.
  - apply (H200 Sample.identity). vm_compute. reflexivity.
Defined.

(** Witness of C3: a minimum of 2000 over a maximum of 1000. *)
Lemma salary_range_rejected_witness :
  post_admin_jobs Sample.later Sample.bad_salary Sample.store
  = (mkResponse 400 (Message salary_message), Sample.store)
  /\ put_admin_jobs_id Sample.later Sample.bad_salary Sample.store
     = (mkResponse 400 (Message salary_message), Sample.store).
Proof.
  apply (salary_range_rejected Sample.later Sample.bad_salary Sample.store
           Sample.identity); vm_compute; reflexivity.
Defined.

(** Witness of C9: the scenario of the five required fields. *)
Lemma create_defaults_witness :
  exists row,
    post_admin_jobs Sample.later Sample.create_five Sample.store
    = (mkResponse 201 (MessageJob "Tạo công việc thành công" row),
       mkDb (admins Sample.store) (jobs Sample.store ++ [row]) 5)
    /\ Job.salary_currency row = Some "VND"
    /\ Job.job_type row = Some "Full-time"
    /\ Job.is_active row = Some true
    /\ row = Job.mk 4 "Engineer" "Acme" "Hanoi" None None (Some "VND")
               (Some "Full-time") "Build things" None None "hr@acme.com"
               None (Some true) 2000 2000.
Proof.
  apply (create_defaults Sample.later Sample.create_five Sample.store
           Sample.identity "Engineer" "Acme" "Hanoi" "Build things"
           "hr@acme.com");
    try (vm_compute; reflexivity); try (vm_compute; lia).
  - exact sample_fresh_id.
  - intros k Hk.
    repeat (apply elem_of_cons in Hk as [->|Hk]; [reflexivity|]).
    inversion Hk.
  - intros t Ht.
    repeat (apply elem_of_cons in Ht as [->|Ht]; [by split|]).
    inversion Ht.
Defined.

(** Witness of C4: an update of job 1 and of an id that no job has. *)
Lemma update_replaces_witness :
  put_admin_jobs_id Sample.later Sample.update_absent Sample.store
  = (job_not_found, Sample.store)
  /\ exists row,
       put_admin_jobs_id Sample.later Sample.update_five Sample.store
       = (res_json (MessageJob "Cập nhật công việc thành công" row),
          mkDb (admins Sample.store)
            ((fun x => if Job.id x =? 1 then row else x)
               <$> jobs Sample.store)
            (jobs_id_seq Sample.store))
       /\ Job.created_at row = 100 /\ Job.updated_at row = 2000
       /\ Job.salary_min row = None /\ Job.requirements row = None
       /\ Job.salary_currency row = Some "VND"
       /\ Job.job_type row = Some "Full-time"
       /\ Job.is_active row = Some true.
Proof.
  split.
  - apply (update_replaces Sample.later Sample.update_absent Sample.store
             Sample.identity Sample.five_columns (Some true) "9" 9);
      try (vm_compute; reflexivity).
    intros x Hx.
    repeat (apply elem_of_cons in Hx as [->|Hx]; [discriminate|]).
    inversion Hx.
  - destruct (update_replaces Sample.later Sample.update_five Sample.store
                Sample.identity Sample.five_columns (Some true) "1" 1)
      as [_ Hpresent]; try (vm_compute; reflexivity).
    destruct (Hpresent Sample.engineer sample_primary_key)
      as (row & Hput & (_ & Hc & Hu & _) & _ & _ & Hunsent);
      [apply list_elem_of_here|reflexivity|].
    destruct Hunsent as (N1 & _ & N3 & _ & _ & N6 & N7 & N8).
    exists row. split; [exact Hput|].
    split; [exact Hc|]. split; [exact Hu|].
    split; [by apply N1|]. split; [by apply N3|].
    split; [by apply N6|]. split; [by apply N7|by apply N8].
Defined.

(** Witness of C5: two toggles of job 1 and one of an id that no job
    has. *)
Lemma toggle_twice_witness :
  patch_admin_jobs_id_toggle Sample.later (Sample.by_id "9") Sample.store
  = (job_not_found, Sample.store)
  /\ exists j1 j2 st1 st2,
       patch_admin_jobs_id_toggle Sample.later (Sample.by_id "1") Sample.store
       = (res_json (MessageJob (toggle_message j1) j1), st1)
       /\ patch_admin_jobs_id_toggle Sample.much_later (Sample.by_id "1") st1
          = (res_json (MessageJob (toggle_message j2) j2), st2)
       /\ Job.is_active j1 = Some false /\ Job.is_active j2 = Some true
       /\ 100 < Job.updated_at j1 < Job.updated_at j2.
Proof.
  split.
  - apply (toggle_twice Sample.later Sample.much_later (Sample.by_id "9")
             Sample.store Sample.identity Sample.identity "9" 9);
      try (vm_compute; reflexivity).
    intros x Hx.
    repeat (apply elem_of_cons in Hx as [->|Hx]; [discriminate|]).
    inversion Hx.
  - destruct (toggle_twice Sample.later Sample.much_later (Sample.by_id "1")
                Sample.store Sample.identity Sample.identity "1" 1)
      as [_ Hpresent]; try (vm_compute; reflexivity).
    destruct (Hpresent Sample.engineer sample_primary_key)
      as (j1 & j2 & st1 & st2 & H1 & H2 & _ & _ & Hflip & Hback & Hclock & _);
      [apply list_elem_of_here|reflexivity|split; reflexivity|].
    exists j1, j2, st1, st2.
    split; [exact H1|]. split; [exact H2|].
    split; [exact (Hflip true eq_refl)|]. split; [exact Hback|exact Hclock].
Defined.

(** Witness of C10: a create and an update with a falsy value in every
    optional field. *)
Lemma falsy_coalesced_witness :
  post_admin_jobs Sample.later Sample.falsy Sample.store
  = (mkResponse 201
       (MessageJob "Tạo công việc thành công" (Sample.five_columns 4 (Some true) 2000 2000)),
     mkDb (admins Sample.store)
       (jobs Sample.store ++ [Sample.five_columns 4 (Some true) 2000 2000]) 5)
  /\ put_admin_jobs_id Sample.later Sample.falsy Sample.store
     = (res_json
          (MessageJob "Cập nhật công việc thành công"
             (Sample.five_columns 1 (Some true) 100 2000)),
        mkDb (admins Sample.store)
          ((fun x => if Job.id x =? 1
                     then Sample.five_columns 1 (Some true) 100 2000 else x)
             <$> jobs Sample.store)
          (jobs_id_seq Sample.store))
  /\ Job.salary_min (Sample.five_columns 4 (Some true) 2000 2000) = None
  /\ Job.salary_currency (Sample.five_columns 4 (Some true) 2000 2000) = Some "VND"
  /\ Job.requirements (Sample.five_columns 4 (Some true) 2000 2000) = None.
Proof.
  destruct (falsy_coalesced Sample.later Sample.falsy Sample.store
              Sample.identity Sample.five_columns)
    as (Hcoalesced & Hcreate & Hupdate); try (vm_compute; reflexivity).
  destruct (Hcoalesced 4 (Some true) 2000 2000)
    as (Hmin & _ & Hcurrency & _ & Hrequirements & _).
  split; [exact (Hcreate sample_fresh_id)|].
  split.
  - apply (Hupdate Sample.engineer "1" (Some true) sample_primary_key);
      try (vm_compute; reflexivity).
    apply list_elem_of_here.
  - split; [apply (Hmin 0%Q); reflexivity|].
    split; [apply Hcurrency; reflexivity|apply Hrequirements; reflexivity].
Defined.

(** C1 as stated does not hold: [limit=-5] is answered with an effective
    limit of 1, not with the default 10, and the two listings differ. *)
Lemma limit_minus_five_is_not_default :
  limitInt (Sample.listing "-5") = 1
  /\ limitInt (Sample.listing "10") = 10
  /\ get_jobs Sample.later (Sample.listing "-5") Sample.store
     <> get_jobs Sample.later (Sample.listing "10") Sample.store.
Proof.
  split; [reflexivity|]. split; [reflexivity|].
  intros E.
  apply (f_equal (fun r => jobs_returned (payload r.1))) in E.
  vm_compute in E. discriminate.
Qed.

(** C4 as stated does not hold: an update that does not send
    [salary_currency] and [job_type] stores "VND" and "Full-time", not
    NULL. *)
Lemma update_unsent_defaults_are_not_null :
  prop (body Sample.update_five) "salary_currency" = JUndefined
  /\ prop (body Sample.update_five) "job_type" = JUndefined
  /\ exists row rest,
       jobs (put_admin_jobs_id Sample.later Sample.update_five Sample.store).2
       = row :: rest
       /\ Job.id row = 1
       /\ Job.salary_currency row = Some "VND"
       /\ Job.job_type row = Some "Full-time"
       /\ Job.salary_currency row <> None
       /\ Job.job_type row <> None.
Proof.
  split; [reflexivity|]. split; [reflexivity|].
  eexists. eexists. split; [vm_compute; reflexivity|].
  repeat split; discriminate.
Qed.

End Examples.


(** * Further properties of the handlers *)

Lemma filter_all {A : Type} (p : A -> bool) (l : list A) :
  (forall x, x ∈ l -> p x = true) -> List.filter p l = l.
Proof.
  induction l as [|a l IH]; simpl; intros Hp; [reflexivity|].
  rewrite (Hp a) by left. f_equal. apply IH. intros x Hx. apply Hp. by right.
Qed.

Lemma filter_sublist {A : Type} (p : A -> bool) (l : list A) :
  List.filter p l `sublist_of` l.
Proof.
  induction l as [|a l IH]; simpl; [constructor|].
  destruct (p a); by constructor.
Qed.

Lemma filter_elem_of {A : Type} (p : A -> bool) (x : A) (l : list A) :
  x ∈ List.filter p l <-> x ∈ l /\ p x = true.
Proof. rewrite !list_elem_of_In. apply filter_In. Qed.

Section Further.
Context `{Platform}.

(** ** Delete *)

Lemma delete_statement w req st u s k :
  authenticated w req = Some u ->
  params req !! "id" = Some s -> int4in s = Some k ->
  delete_admin_jobs_id w req st
  = (match List.filter (id_matches (Some k)) (jobs st) with
     | [] => job_not_found
     | _ :: _ => res_json (Message "Xóa công việc thành công")
     end,
     mkDb (admins st)
       (List.filter (fun j => negb (id_matches (Some k) j)) (jobs st))
       (jobs_id_seq st)).
Proof.
  intros Hauth Hid Hint. unfold delete_admin_jobs_id.
  rewrite (gate_forward _ _ _ _ u Hauth).
  unfold delete_job_handler, delete_job.
  change (params (attach u req)) with (params req).
  rewrite Hid. cbn [nullable]. rewrite Hint. cbn [fmap option_fmap option_map].
  by destruct (List.filter _ (jobs st)).
Qed.

Lemma no_row_of_id (k : Z) (l : list Job.t) :
  (forall x, x ∈ l -> Job.id x <> k) ->
  List.filter (id_matches (Some k)) l = []
  /\ List.filter (fun j => negb (id_matches (Some k) j)) l = l.
Proof.
  intros Hno.
  assert (E : forall x, x ∈ l -> id_matches (Some k) x = false).
  { intros x Hx. by apply Z.eqb_neq, Hno. }
  split; [by apply filter_none|].
  apply filter_all. intros x Hx. by rewrite (E x Hx).
Qed.

(** X1. A delete that passes the gate answers 404 and changes nothing
    when no job has the id. When a job has it, the answer is 200 with the
    confirmation message only, and the table loses the rows of that id
    and nothing else: the other rows stay, in their order, and the
    admins and the id sequence are as before. *)
Theorem delete_removes (w : world) (req : request) (st : db)
    (u : Claims.t) (s : string) (k : Z) :
  authenticated w req = Some u ->
  params req !! "id" = Some s -> int4in s = Some k ->
  ((forall x, x ∈ jobs st -> Job.id x <> k) ->
   delete_admin_jobs_id w req st = (job_not_found, st))
  /\ (forall j, j ∈ jobs st -> Job.id j = k ->
      exists st',
        delete_admin_jobs_id w req st
        = (res_json (Message "Xóa công việc thành công"), st')
        /\ admins st' = admins st /\ jobs_id_seq st' = jobs_id_seq st
        /\ jobs st' `sublist_of` jobs st
        /\ forall x, x ∈ jobs st' <-> x ∈ jobs st /\ Job.id x <> k).
Proof.
  intros Hauth Hid Hint.
  rewrite (delete_statement w req st u s k Hauth Hid Hint). split.
  - intros Hno. destruct (no_row_of_id k (jobs st) Hno) as [-> ->].
    by rewrite same_db.
  - intros j Hj Hk.
    exists (mkDb (admins st)
              (List.filter (fun j => negb (id_matches (Some k) j)) (jobs st))
              (jobs_id_seq st)).
    split; [|split; [done|split; [done|split]]].
    + destruct (List.filter (id_matches (Some k)) (jobs st)) as [|r rs] eqn:E;
        [|reflexivity].
      assert (Hin : j ∈ List.filter (id_matches (Some k)) (jobs st)).
      { apply filter_elem_of. split; [done|]. by apply Z.eqb_eq. }
      rewrite E in Hin. inversion Hin.
    + apply filter_sublist.
    + intros x. cbn [jobs]. rewrite filter_elem_of, negb_true_iff.
      unfold id_matches, has_id. by rewrite Z.eqb_neq.
Qed.

(** X2. Once a delete of an id has passed the gate, the id is gone for
    every route: the public and the admin detail lookup, a second delete
    and a toggle of that id all answer 404 and change nothing. *)
Theorem delete_then_gone (w : world) (req : request) (st : db)
    (u : Claims.t) (s : string) (k : Z) :
  authenticated w req = Some u ->
  params req !! "id" = Some s -> int4in s = Some k ->
  let st' := (delete_admin_jobs_id w req st).2 in
  forall (w' : world) (req' : request),
    params req' !! "id" = Some s ->
    get_jobs_id w' req' st' = (job_not_found, st')
    /\ forall u', authenticated w' req' = Some u' ->
         get_admin_jobs_id w' req' st' = (job_not_found, st')
         /\ delete_admin_jobs_id w' req' st' = (job_not_found, st')
         /\ patch_admin_jobs_id_toggle w' req' st' = (job_not_found, st').
Proof.
  intros Hauth Hid Hint st' w' req' Hid'.
  assert (Hgone : forall x, x ∈ jobs st' -> Job.id x <> k).
  { subst st'. rewrite (delete_statement w req st u s k Hauth Hid Hint).
    cbn [snd jobs]. intros x Hx. apply filter_elem_of in Hx as [_ Hx].
    apply negb_true_iff in Hx. by apply Z.eqb_neq in Hx. }
  clearbody st'. split; [|intros u' Hauth'; split; [|split]].
  - unfold get_jobs_id. rewrite Hid', (select_job_id _ _ _ _ Hint).
    rewrite filter_none; [reflexivity|].
    intros x Hx. unfold has_id.
    by rewrite (proj2 (Z.eqb_neq _ _) (Hgone x Hx)).
  - unfold get_admin_jobs_id. rewrite (gate_forward _ _ _ _ u' Hauth').
    unfold admin_job_detail_handler.
    change (params (attach u' req')) with (params req').
    rewrite Hid', (select_job_id _ _ _ _ Hint).
    rewrite filter_none; [reflexivity|].
    intros x Hx. unfold has_id.
    by rewrite (proj2 (Z.eqb_neq _ _) (Hgone x Hx)).
  - rewrite (delete_statement w' req' st' u' s k Hauth' Hid' Hint).
    destruct (no_row_of_id k (jobs st') Hgone) as [-> ->].
    by rewrite same_db.
  - rewrite (toggle_statement w' req' st' u' s k Hauth' Hid' Hint).
    destruct (update_by_id_absent (toggled (CURRENT_TIMESTAMP w')) k
                (jobs st') Hgone) as [-> ->].
    by rewrite same_db.
Qed.

(** ** Create, then look up *)

Lemma detail_of_row (st : db) (j : Job.t) (s : string) :
  primary_key st -> j ∈ jobs st -> int4in s = Some (Job.id j) ->
  select_job false (Some s) st = Some [j]
  /\ (active j = true -> select_job true (Some s) st = Some [j]).
Proof.
  intros Hpk Hj Hint. rewrite !(select_job_id _ _ _ _ Hint). split.
  - rewrite (List.filter_ext _ (fun x => Job.id x =? Job.id j))
      by (intros x; unfold has_id; apply andb_true_r).
    by rewrite filter_key.
  - intros Hactive.
    rewrite (List.filter_ext_in _ (fun x => Job.id x =? Job.id j)).
    + by rewrite filter_key.
    + intros x Hx. apply list_elem_of_In in Hx. unfold has_id.
      destruct (Z.eqb_spec (Job.id x) (Job.id j)) as [E|E]; [|done].
      by rewrite (key_unique Job.id (jobs st) x j Hpk Hx Hj E), Hactive.
Qed.

(** X3. When a create is answered 201, the row of the answer is the one
    appended to the table: its id is the value that the sequence had, it
    is active, and both timestamps are the one of the request; the
    primary key still holds, and from then on the public and the admin
    detail lookup of that id answer 200 with this very row. *)
Theorem create_then_lookup (w : world) (req : request) (st st' : db)
    (m : string) (row : Job.t) :
  primary_key st ->
  post_admin_jobs w req st = (mkResponse 201 (MessageJob m row), st') ->
  (jobs st' = (jobs st ++ [row])%list /\ admins st' = admins st
   /\ jobs_id_seq st' = jobs_id_seq st + 1 /\ primary_key st')
  /\ (Job.id row = jobs_id_seq st /\ Job.is_active row = Some true
      /\ Job.created_at row = CURRENT_TIMESTAMP w
      /\ Job.updated_at row = CURRENT_TIMESTAMP w)
  /\ forall (w' : world) (req' : request) (s : string),
       params req' !! "id" = Some s -> int4in s = Some (Job.id row) ->
       get_jobs_id w' req' st' = (res_json (JobDetail row), st')
       /\ forall u', authenticated w' req' = Some u' ->
            get_admin_jobs_id w' req' st' = (res_json (JobDetail row), st').
Proof.
  intros Hpk Hcreate.
  unfold post_admin_jobs, authenticateToken in Hcreate.
  destruct (bearer_token _) as [[|c t]|]; try discriminate.
  destruct (jwt_verify _ _ _); [|discriminate].
  unfold create_job_handler in Hcreate. cbn [body] in Hcreate.
  destruct (required_missing _); [discriminate|].
  destruct (salary_range_invalid _ _); [discriminate|].
  unfold insert_job in Hcreate.
  destruct (job_columns _) as [columns|] eqn:Hcols; [|discriminate].
  destruct (jobs_id_seq st <=? 2147483647); [|discriminate].
  destruct (existsb _ (jobs st)) eqn:Hnew; [discriminate|].
  cbn [andb negb] in Hcreate. injection Hcreate as _ <- <-.
  destruct (job_columns_fields _ _ _ _ _ _ _ _ _ _ _ _ _ Hcols
              (jobs_id_seq st) (Some true) (CURRENT_TIMESTAMP w)
              (CURRENT_TIMESTAMP w)) as [(F1 & F2 & F3 & F4) _].
  cbv zeta in *.
  set (row := columns _ _ _ _) in *.
  assert (Hpk' : primary_key
                   (mkDb (admins st) (jobs st ++ [row]) (jobs_id_seq st + 1))).
  { unfold primary_key. cbn [jobs]. rewrite fmap_app. apply NoDup_app.
    split; [done|]. split; [|apply NoDup_singleton].
    intros k Hk Hk'. apply list_elem_of_singleton in Hk'. subst k.
    apply list_elem_of_fmap in Hk as (x & Hx & Hin).
    assert (Hex : existsb (has_id (jobs_id_seq st)) (jobs st) = true).
    { apply existsb_exists. exists x. split; [by apply list_elem_of_In|].
      apply Z.eqb_eq. congruence. }
    congruence. }
  split; [done|]. split; [done|].
  intros w' req' s Hid Hint.
  assert (Hrow : row ∈ jobs (mkDb (admins st) (jobs st ++ [row])
                              (jobs_id_seq st + 1))).
  { cbn [jobs]. apply elem_of_app. right. apply list_elem_of_here. }
  destruct (detail_of_row _ row s Hpk' Hrow Hint) as [Hadmin Hpublic].
  split.
  - unfold get_jobs_id. rewrite Hid, Hpublic; [reflexivity|].
    unfold active. by rewrite F2.
  - intros u' Hauth. unfold get_admin_jobs_id.
    rewrite (gate_forward _ _ _ _ u' Hauth).
    unfold admin_job_detail_handler.
    change (params (attach u' req')) with (params req').
    by rewrite Hid, Hadmin.
Qed.

(** ** Required fields *)

(** X4. A create or an update that passes the gate and in which one of
    [title], [company], [location], [description] or [contact_email] is
    missing or falsy is answered 400 with the message of the required
    fields and leaves the state as it was, whatever the other fields
    hold. *)
Theorem required_fields (w : world) (req : request) (st : db)
    (u : Claims.t) (k : string) :
  authenticated w req = Some u ->
  k ∈ ["title"; "company"; "location"; "description"; "contact_email"] ->
  truthy (prop (body req) k) = false ->
  post_admin_jobs w req st = (mkResponse 400 (Message required_message), st)
  /\ put_admin_jobs_id w req st
     = (mkResponse 400 (Message required_message), st).
Proof.
  intros Hauth Hk Hfalsy.
  assert (Hmissing : required_missing (body req) = true).
  { unfold required_missing.
    repeat (apply elem_of_cons in Hk as [->|Hk];
            [rewrite Hfalsy; cbn [negb orb]; by rewrite ?orb_true_r|]).
    inversion Hk. }
  unfold post_admin_jobs, put_admin_jobs_id.
  rewrite !(gate_forward _ _ _ _ u Hauth).
  unfold create_job_handler, update_job_handler.
  change (body (attach u req)) with (body req). by rewrite Hmissing.
Qed.

(** ** Login *)

(** X5. A login without a username or without a password is answered
    400. With the username of an admin row and a password that
    [bcrypt.compare] accepts against the stored hash, it is answered 200
    with the admin's id, username and email and a token signed over the
    id and the username with the secret of the process, for 24 hours from
    the clock of the request. With a matching username and a password
    that is not a string, it is answered 500. No login changes the
    datastore. *)
Theorem login_contract (w : world) (req : request) (st : db) :
  let username := prop (body req) "username" in
  let password := prop (body req) "password" in
  (truthy username = false \/ truthy password = false ->
   post_auth_login w req st
   = (mkResponse 400 (Message "Username và password là bắt buộc"), st))
  /\ (forall t a,
        truthy username = true ->
        prepareValue username = Some t -> has_nul t = false ->
        unique_username st -> a ∈ admins st -> Admin.username a = t ->
        (forall pw, password = JStr pw -> pw <> "" ->
           bcrypt_compare pw (Admin.password a) = true ->
           post_auth_login w req st
           = (res_json
                (LoginOk "Đăng nhập thành công"
                   (jwt_sign (Admin.id a) (Admin.username a) JWT_SECRET
                      (Date_now w / 1000) (24 * 60 * 60))
                   (Admin.id a) (Admin.username a) (Admin.email a)), st))
        /\ (truthy password = true -> (forall pw, password <> JStr pw) ->
            post_auth_login w req st = (server_error, st)))
  /\ (post_auth_login w req st).2 = st.
Proof.
  cbv zeta. split; [|split].
  - unfold post_auth_login. intros [-> | ->]; [done|].
    by rewrite orb_true_r.
  - intros t a Hu Ht Hnul Huniq Ha Hat. subst t.
    assert (Hsel : select_admin (prop (body req) "username") st = Some [a]).
    { rewrite (select_admin_text _ _ st Ht Hnul).
      by rewrite (filter_unique Admin.username String.eqb (admins st) a
                    String.eqb_eq Huniq Ha). }
    split.
    + intros pw Hpw Hne Hcmp. unfold post_auth_login.
      rewrite Hu, Hsel, Hpw. cbn [truthy]. rewrite (eqb_empty pw Hne).
      cbn [negb orb]. by rewrite Hcmp.
    + intros Hp Hnot. unfold post_auth_login. rewrite Hu, Hp, Hsel.
      cbn [negb orb].
      destruct (prop (body req) "password") as [| | | |pw]; try done.
      by destruct (Hnot pw).
  - unfold post_auth_login.
    destruct (negb _ || negb _); [done|].
    destruct (select_admin _ st) as [[|a rest]|]; try done.
    destruct (prop (body req) "password"); try done.
    by destruct (bcrypt_compare _ _).
Qed.

(** ** An id that is not an integer *)

(** X6. When the datastore does not read the [:id] of the path as an
    integer, the public detail lookup answers 500, not 404, and so do the
    admin detail lookup, the delete, the toggle and a validated update
    once past the gate; none of them changes the datastore. *)
Theorem malformed_id (w : world) (req : request) (st : db) (s : string) :
  params req !! "id" = Some s -> int4in s = None ->
  get_jobs_id w req st = (server_error, st)
  /\ forall u, authenticated w req = Some u ->
       get_admin_jobs_id w req st = (server_error, st)
       /\ delete_admin_jobs_id w req st = (server_error, st)
       /\ patch_admin_jobs_id_toggle w req st = (server_error, st)
       /\ (required_missing (body req) = false ->
           salary_range_invalid (prop (body req) "salary_min")
             (prop (body req) "salary_max") = false ->
           put_admin_jobs_id w req st = (server_error, st)).
Proof.
  intros Hid Hint.
  assert (Hsel : forall b, select_job b (params req !! "id") st = None).
  { intros b. unfold select_job. rewrite Hid. cbn [nullable].
    by rewrite Hint. }
  split; [unfold get_jobs_id; by rewrite Hsel|].
  intros u Hauth. split; [|split; [|split]].
  - unfold get_admin_jobs_id. rewrite (gate_forward _ _ _ _ u Hauth).
    unfold admin_job_detail_handler.
    change (params (attach u req)) with (params req). by rewrite Hsel.
  - unfold delete_admin_jobs_id. rewrite (gate_forward _ _ _ _ u Hauth).
    unfold delete_job_handler, delete_job.
    change (params (attach u req)) with (params req).
    rewrite Hid. cbn [nullable]. by rewrite Hint.
  - unfold patch_admin_jobs_id_toggle. rewrite (gate_forward _ _ _ _ u Hauth).
    unfold toggle_job_handler, toggle_job.
    change (params (attach u req)) with (params req).
    rewrite Hid. cbn [nullable]. by rewrite Hint.
  - intros Hreq Hsal. unfold put_admin_jobs_id.
    rewrite (gate_forward _ _ _ _ u Hauth).
    unfold update_job_handler, id_parameter.
    change (body (attach u req)) with (body req).
    change (params (attach u req)) with (params req).
    rewrite Hreq, Hsal, Hid. unfold update_job, job_parameters. cbn [app].
    destruct (job_columns _) as [columns|]; cbn [mbind option_bind]; [|done].
    destruct (nullable boolin _) as [ia|]; cbn [mbind option_bind]; [|done].
    cbn [prepareValue nullable]. by rewrite Hint.
Qed.

(** ** Sequences of requests *)

Lemma evolves_refl (st : db) : evolves st st.
Proof.
  split; [done|]. split; [lia|]. split; [done|]. intros j' Hj' _. eauto.
Qed.

Lemma evolves_trans (st1 st2 st3 : db) :
  evolves st1 st2 -> evolves st2 st3 -> evolves st1 st3.
Proof.
  intros (A1 & S1 & W1 & C1) (A2 & S2 & W2 & C2).
  split; [congruence|]. split; [lia|]. split; [auto|].
  intros j3 Hj3 Hlt.
  destruct (C2 j3 Hj3 ltac:(lia)) as (j2 & Hj2 & Hid & Hc).
  destruct (C1 j2 Hj2 ltac:(lia)) as (j1 & Hj1 & Hid1 & Hc1).
  exists j1. split; [done|]. split; congruence.
Qed.

(** An UPDATE that keeps [id] and [created_at] of every row. *)
Lemma evolves_fmap (f : Job.t -> Job.t) (st : db) :
  (forall j, Job.id (f j) = Job.id j
             /\ Job.created_at (f j) = Job.created_at j) ->
  evolves st (mkDb (admins st) (f <$> jobs st) (jobs_id_seq st)).
Proof.
  intros Hf. split; [done|]. split; [cbn; lia|]. split.
  - intros [Hnd Hlt]. split; cbn [jobs jobs_id_seq].
    + rewrite <- list_fmap_compose.
      rewrite (list_fmap_ext (Job.id ∘ f) Job.id (jobs st)); [done|].
      intros i x _. apply Hf.
    + intros j' (j & -> & Hj)%list_elem_of_fmap.
      rewrite (proj1 (Hf j)). by apply Hlt.
  - intros j' (j & -> & Hj)%list_elem_of_fmap _. exists j.
    split; [done|]. destruct (Hf j). split; congruence.
Qed.

(** A DELETE. *)
Lemma evolves_filter (p : Job.t -> bool) (st : db) :
  evolves st (mkDb (admins st) (List.filter p (jobs st)) (jobs_id_seq st)).
Proof.
  split; [done|]. split; [cbn; lia|]. split.
  - intros [Hnd Hlt]. split; cbn [jobs jobs_id_seq].
    + apply (sublist_NoDup _ _ Hnd), fmap_sublist, filter_sublist.
    + intros j' Hj'. apply filter_elem_of in Hj' as [Hj' _]. by apply Hlt.
  - intros j' Hj' _. apply filter_elem_of in Hj' as [Hj' _]. eauto.
Qed.

Lemma insert_job_evolves now ps st : evolves st (insert_job now ps st).2.
Proof.
  unfold insert_job.
  destruct (job_columns ps) as [columns|] eqn:Hcols; [|apply evolves_refl].
  destruct (jobs_id_seq st <=? 2147483647); cbn [andb].
  2: { split; [done|]. split; [cbn; lia|]. split.
       - intros [Hnd Hlt]. split; [done|]. intros j Hj. cbn.
         specialize (Hlt j Hj). lia.
       - intros j' Hj' _. eauto. }
  destruct (existsb _ (jobs st)) eqn:Hnew; cbn [negb snd].
  { split; [done|]. split; [cbn; lia|]. split.
    - intros [Hnd Hlt]. split; [done|]. intros j Hj. cbn.
      specialize (Hlt j Hj). lia.
    - intros j' Hj' _. eauto. }
  assert (Hid : forall ia c t, Job.id (columns (jobs_id_seq st) ia c t)
                               = jobs_id_seq st).
  { intros ia c t. unfold job_columns in Hcols.
    destruct ps as [|p1 [|p2 [|p3 [|p4 [|p5 [|p6 [|p7 [|p8 [|p9 [|p10
      [|p11 [|p12 [|]]]]]]]]]]]]]; try discriminate.
    by destruct (job_columns_fields _ _ _ _ _ _ _ _ _ _ _ _ _ Hcols
                   (jobs_id_seq st) ia c t) as [(F1 & _) _]. }
  set (row := columns _ _ _ _).
  split; [done|]. split; [cbn; lia|]. split.
  - intros [Hnd Hlt]. split; cbn [jobs jobs_id_seq].
    + rewrite fmap_app. apply NoDup_app. split; [done|].
      split; [|apply NoDup_singleton].
      intros k (x & -> & Hx)%list_elem_of_fmap Hk.
      apply list_elem_of_singleton in Hk. unfold row in Hk.
      rewrite Hid in Hk. specialize (Hlt x Hx). lia.
    + intros j [Hj| ->%list_elem_of_singleton]%elem_of_app.
      * specialize (Hlt j Hj). lia.
      * unfold row. rewrite Hid. lia.
  - intros j' [Hj'| ->%list_elem_of_singleton]%elem_of_app Hlt; [eauto|].
    unfold row in Hlt. rewrite Hid in Hlt. lia.
Qed.

Lemma update_job_evolves now ps st : evolves st (update_job now ps st).2.
Proof.
  unfold update_job.
  destruct ps as [|p1 [|p2 [|p3 [|p4 [|p5 [|p6 [|p7 [|p8 [|p9 [|p10
    [|p11 [|p12 [|p13 [|p14 [|]]]]]]]]]]]]]]]; try apply evolves_refl.
  destruct (job_columns _) as [columns|] eqn:Hcols;
    cbn [mbind option_bind]; [|apply evolves_refl].
  destruct (nullable boolin _) as [ia|];
    cbn [mbind option_bind]; [|apply evolves_refl].
  destruct (nullable int4in _) as [k|];
    cbn [mbind option_bind snd]; [|apply evolves_refl].
  apply (evolves_fmap
           (fun j => if id_matches k j
                     then columns (Job.id j) ia (Job.created_at j) now
                     else j)).
  intros j. destruct (id_matches k j); [|done].
  by destruct (job_columns_fields _ _ _ _ _ _ _ _ _ _ _ _ _ Hcols
                 (Job.id j) ia (Job.created_at j) now)
    as [(F1 & _ & F3 & _) _].
Qed.

Lemma toggle_job_evolves now id st : evolves st (toggle_job now id st).2.
Proof.
  unfold toggle_job. destruct (nullable int4in id) as [k|];
    [|apply evolves_refl].
  apply (evolves_fmap
           (fun j => if id_matches k j then toggled now j else j)).
  intros j. by destruct (id_matches k j).
Qed.

Lemma delete_job_evolves id st : evolves st (delete_job id st).2.
Proof.
  unfold delete_job. destruct (nullable int4in id) as [k|];
    [|apply evolves_refl].
  apply evolves_filter.
Qed.

(** The gate passes on what the handler behind it guarantees. *)
Lemma gate_keeps (R : db -> db -> Prop) w req next st :
  R st st -> (forall req' , R st (next req' st).2) ->
  R st (authenticateToken w req next st).2.
Proof.
  intros Hrefl Hnext. unfold authenticateToken.
  destruct (bearer_token _) as [[|c t]|]; try done.
  by destruct (jwt_verify _ _ _).
Qed.

Lemma login_state w req st : (post_auth_login w req st).2 = st.
Proof.
  unfold post_auth_login.
  destruct (negb _ || negb _); [done|].
  destruct (select_admin _ st) as [[|a rest]|]; try done.
  destruct (prop (body req) "password"); try done.
  by destruct (bcrypt_compare _ _).
Qed.

Lemma get_jobs_state w req st : (get_jobs w req st).2 = st.
Proof.
  unfold get_jobs. destruct (select_page _ _ _ _ _); [|done].
  by destruct (select_count _ _ _).
Qed.

Lemma get_jobs_id_state w req st : (get_jobs_id w req st).2 = st.
Proof.
  unfold get_jobs_id. by destruct (select_job _ _ _) as [[|]|].
Qed.

Lemma admin_jobs_state req st : (admin_jobs_handler req st).2 = st.
Proof.
  unfold admin_jobs_handler. destruct (select_page _ _ _ _ _); [|done].
  by destruct (select_count _ _ _).
Qed.

Lemma admin_job_detail_state req st :
  (admin_job_detail_handler req st).2 = st.
Proof.
  unfold admin_job_detail_handler.
  by destruct (select_job _ _ _) as [[|]|].
Qed.

Lemma get_admin_stats_state w req st : (get_admin_stats w req st).2 = st.
Proof. unfold get_admin_stats. by destruct (authenticated w req). Qed.

(** A route that only reads, and any route on a request that the gate
    refuses, leaves the datastore as it was. *)
Lemma dispatch_reads r w req st :
  reads_only r = true -> dispatch r w req st = st.
Proof.
  destruct r; try discriminate; intros _; cbn [dispatch].
  - apply login_state.
  - unfold get_auth_verify. by apply (gate_keeps (fun a b => b = a)).
  - apply get_jobs_state.
  - apply get_jobs_id_state.
  - unfold get_admin_jobs. apply (gate_keeps (fun a b => b = a)); [done|].
    intros req'. apply admin_jobs_state.
  - unfold get_admin_jobs_id. apply (gate_keeps (fun a b => b = a)); [done|].
    intros req'. apply admin_job_detail_state.
  - apply get_admin_stats_state.
Qed.

Lemma dispatch_refused r w req st :
  authenticated w req = None -> dispatch r w req st = st.
Proof.
  intros Hauth.
  destruct (reads_only r) eqn:Hr; [by apply dispatch_reads|].
  destruct r; try discriminate; cbn [dispatch];
    unfold post_admin_jobs, put_admin_jobs_id, delete_admin_jobs_id,
      patch_admin_jobs_id_toggle;
    match goal with
    | |- (authenticateToken ?w ?req ?next ?st).2 = _ =>
        destruct (gate_reject w req next st Hauth) as (resp & -> & _)
    end; reflexivity.
Qed.

Lemma dispatch_evolves r w req st : evolves st (dispatch r w req st).
Proof.
  destruct (reads_only r) eqn:Hr.
  { rewrite dispatch_reads by done. apply evolves_refl. }
  destruct r; try discriminate; cbn [dispatch].
  - unfold post_admin_jobs. apply gate_keeps; [apply evolves_refl|].
    intros req'. unfold create_job_handler.
    destruct (required_missing _); [apply evolves_refl|].
    destruct (salary_range_invalid _ _); [apply evolves_refl|].
    pose proof (insert_job_evolves (CURRENT_TIMESTAMP w)
                  (job_parameters (body req')) st) as He.
    by destruct (insert_job _ _ st) as [[[|row rows]|] st'].
  - unfold put_admin_jobs_id. apply gate_keeps; [apply evolves_refl|].
    intros req'. unfold update_job_handler.
    destruct (required_missing _); [apply evolves_refl|].
    destruct (salary_range_invalid _ _); [apply evolves_refl|].
    match goal with
    | |- context [update_job ?now ?ps st] =>
        pose proof (update_job_evolves now ps st) as He;
        by destruct (update_job now ps st) as [[[|row rows]|] st']
    end.
  - unfold delete_admin_jobs_id. apply gate_keeps; [apply evolves_refl|].
    intros req'. unfold delete_job_handler.
    pose proof (delete_job_evolves (params req' !! "id") st) as He.
    by destruct (delete_job _ st) as [[[|row rows]|] st'].
  - unfold patch_admin_jobs_id_toggle.
    apply gate_keeps; [apply evolves_refl|].
    intros req'. unfold toggle_job_handler.
    pose proof (toggle_job_evolves (CURRENT_TIMESTAMP w)
                  (params req' !! "id") st) as He.
    by destruct (toggle_job _ _ st) as [[[|row rows]|] st'].
Qed.

Lemma serve_evolves requests st : evolves st (serve requests st).
Proof.
  revert st. induction requests as [|[[r w] req] requests IH]; intros st.
  - apply evolves_refl.
  - unfold serve. cbn [foldl]. eapply evolves_trans; [|apply IH].
    apply dispatch_evolves.
Qed.

(** X7. No sequence of requests changes the [admins] table: no route
    inserts, updates or deletes an admin. *)
Theorem admins_never_change (requests : list (route * world * request))
    (st : db) :
  admins (serve requests st) = admins st.
Proof. apply serve_evolves. Qed.

(** X8. Whatever requests are served, the [jobs] table keeps its primary
    key and every id in it lies below the id sequence, which never goes
    back. *)
Theorem well_formed_kept (requests : list (route * world * request))
    (st : db) :
  well_formed st ->
  well_formed (serve requests st)
  /\ jobs_id_seq st <= jobs_id_seq (serve requests st).
Proof.
  intros Hwf. destruct (serve_evolves requests st) as (_ & Hs & Hw & _).
  auto.
Qed.

(** X9. Ids are not reused and [created_at] is never rewritten: after any
    sequence of requests, a job either got its id from the sequence
    during these requests, or it is the job that had this id before, with
    the [created_at] it had. *)
Theorem ids_not_reused (requests : list (route * world * request))
    (st : db) (j' : Job.t) :
  j' ∈ jobs (serve requests st) ->
  jobs_id_seq st <= Job.id j'
  \/ exists j, j ∈ jobs st /\ Job.id j = Job.id j'
               /\ Job.created_at j = Job.created_at j'.
Proof.
  intros Hj'. destruct (serve_evolves requests st) as (_ & _ & _ & Hc).
  destruct (Z.le_gt_cases (jobs_id_seq st) (Job.id j')); [by left|].
  right. apply Hc; [done|lia].
Qed.

(** X10. Without a token that the gate accepts nothing is ever written:
    a sequence of requests in which every request either goes to a route
    that only reads (the login, the public routes, the admin listing,
    detail and statistics) or is refused by the gate leaves the
    datastore exactly as it was. *)
Theorem nothing_written_without_token
    (requests : list (route * world * request)) (st : db) :
  (forall r w req, (r, w, req) ∈ requests ->
     reads_only r = true \/ authenticated w req = None) ->
  serve requests st = st.
Proof.
  revert st. induction requests as [|[[r w] req] requests IH]; intros st Hall.
  - reflexivity.
  - unfold serve. cbn [foldl].
    assert (Hstep : dispatch r w req st = st).
    { destruct (Hall r w req) as [Hr|Ha]; [left| |].
      - by apply dispatch_reads.
      - by apply dispatch_refused. }
    rewrite Hstep. apply IH. intros r' w' req' Hin. apply Hall. by right.
Qed.

(** ** Listings *)

Lemma insert_desc_sorted (j : Job.t) (l : list Job.t) :
  newest_first Job.created_at l ->
  newest_first Job.created_at (insert_desc j l).
Proof.
  unfold newest_first.
  induction l as [|k l IH]; intros Hs; cbn [insert_desc].
  - repeat constructor.
  - apply StronglySorted_inv in Hs as [Hs Hk].
    destruct (Z.ltb_spec (Job.created_at k) (Job.created_at j)).
    + constructor; [by constructor|]. constructor; [lia|].
      eapply Forall_impl; [exact Hk|]. cbn. intros; lia.
    + constructor; [by apply IH|].
      apply Forall_forall. intros x [->|Hx]%insert_desc_elem; [lia|].
      rewrite Forall_forall in Hk. by apply Hk.
Qed.

Lemma order_by_sorted (l : list Job.t) :
  newest_first Job.created_at (order_by_created_at_desc l).
Proof.
  unfold order_by_created_at_desc.
  induction l as [|k l IH]; cbn [foldr]; [constructor|].
  by apply insert_desc_sorted.
Qed.

Lemma page_sorted (n m : nat) (l : list Job.t) :
  newest_first Job.created_at l ->
  newest_first Job.created_at (take n (drop m l)).
Proof.
  unfold newest_first. intros Hs.
  rewrite <- (take_drop m l) in Hs. apply StronglySorted_app_1_r in Hs.
  rewrite <- (take_drop n (drop m l)) in Hs.
  by apply StronglySorted_app_1_l in Hs.
Qed.

Lemma select_page_rows base clauses limit offset st rows :
  select_page base clauses limit offset st = Some rows ->
  exists all,
    select_where base clauses st = Some all
    /\ 0 <= offset
    /\ rows = take (Z.to_nat limit)
                (drop (Z.to_nat offset) (order_by_created_at_desc all)).
Proof.
  unfold select_page, row_count.
  destruct (select_where _ _ _) as [all|]; [|discriminate].
  cbn [mbind option_bind].
  destruct ((0 <=? limit) && (limit <? 2 ^ 63)); [|discriminate].
  cbn [mbind option_bind].
  destruct ((0 <=? offset) && (offset <? 2 ^ 63)) eqn:Eo; [|discriminate].
  cbn [mbind option_bind]. intros [= <-].
  apply andb_prop in Eo as [Eo _]. exists all. split; [done|]. split; [lia|].
  reflexivity.
Qed.



(** What a public listing that is answered holds. *)
Lemma get_jobs_page w req st code js cp tp tj hn hp st' :
  get_jobs w req st = (mkResponse code (PublicPage js cp tp tj hn hp), st') ->
  exists all,
    select_where active
      (when_given (query req !! "search") search_clause
       ++ when_given (query req !! "location") location_clause
       ++ when_given (query req !! "job_type") job_type_clause)%list st
    = Some all
    /\ js = PublicJob.of_job
            <$> take (Z.to_nat (limitInt req))
                  (drop (Z.to_nat ((pageInt req - 1) * limitInt req))
                     (order_by_created_at_desc all))
    /\ cp = pageInt req /\ tj = Z.of_nat (length all)
    /\ tp = ceil_div tj (limitInt req)
    /\ hn = (cp <? tp) /\ hp = (1 <? cp).
Proof.
  unfold get_jobs.
  destruct (select_page _ _ _ _ _) as [rows|] eqn:Hrows; [|discriminate].
  apply select_page_rows in Hrows as (all & Hall & _ & ->).
  unfold select_count. rewrite Hall. cbn [mbind option_bind].
  intros [= _ <- <- <- <- <- <- _]. exists all. by repeat split.
Qed.

Lemma admin_jobs_page req st code js cp tp tj st' :
  admin_jobs_handler req st = (mkResponse code (AdminPage js cp tp tj), st') ->
  exists all,
    select_where (fun _ => true)
      (when_given (query req !! "search") search_clause) st = Some all
    /\ js = take (Z.to_nat (limitInt req))
              (drop (Z.to_nat ((pageInt req - 1) * limitInt req))
                 (order_by_created_at_desc all))
    /\ cp = pageInt req /\ tj = Z.of_nat (length all)
    /\ tp = ceil_div tj (limitInt req).
Proof.
  unfold admin_jobs_handler.
  destruct (select_page _ _ _ _ _) as [rows|] eqn:Hrows; [|discriminate].
  apply select_page_rows in Hrows as (all & Hall & _ & ->).
  unfold select_count. rewrite Hall. cbn [mbind option_bind].
  intros [= _ <- <- <- <- _]. exists all. by repeat split.
Qed.

(** An admin listing that is answered came through the gate, from the
    handler on the same query. *)
Lemma get_admin_jobs_page w req st code js cp tp tj st' :
  get_admin_jobs w req st = (mkResponse code (AdminPage js cp tp tj), st') ->
  exists req',
    query req' = query req
    /\ admin_jobs_handler req' st
       = (mkResponse code (AdminPage js cp tp tj), st').
Proof.
  unfold get_admin_jobs, authenticateToken.
  destruct (bearer_token _) as [[|c t]|]; try discriminate.
  destruct (jwt_verify _ _ _); [|discriminate].
  intros Hh. eexists. split; [|exact Hh]. reflexivity.
Qed.

(** X11. Both listings come newest first: along the jobs of a page,
    [created_at] never grows. *)
Theorem listings_newest_first (w : world) (req : request) (st st' : db)
    (code : Z) :
  (forall js cp tp tj hn hp,
     get_jobs w req st
     = (mkResponse code (PublicPage js cp tp tj hn hp), st') ->
     newest_first PublicJob.created_at js)
  /\ (forall js cp tp tj,
        get_admin_jobs w req st
        = (mkResponse code (AdminPage js cp tp tj), st') ->
        newest_first Job.created_at js).
Proof.
  split.
  - intros js cp tp tj hn hp (all & _ & -> & _)%get_jobs_page.
    apply (StronglySorted_fmap _
             (fun a b => Job.created_at b <= Job.created_at a)); [done|].
    apply page_sorted, order_by_sorted.
  - intros js cp tp tj (req' & Hq & Hh)%get_admin_jobs_page.
    apply admin_jobs_page in Hh as (all & _ & -> & _).
    apply page_sorted, order_by_sorted.
Qed.


(** X13. The filters of the public listing: every job of an answered
    page is an active row that passes each filter the query gives (a
    search text is matched by ILIKE against the title or the company, a
    location by ILIKE against the location, a job type by equality, which
    a NULL [job_type] never passes); an empty filter is no filter. On a
    first page that is long enough for [totalJobs], every active row
    that passes them is listed. *)
Theorem listing_filters (w : world) (req : request) (st st' : db)
    (code : Z) (js : list PublicJob.t) (cp tp tj : Z) (hn hp : bool) :
  get_jobs w req st = (mkResponse code (PublicPage js cp tp tj hn hp), st') ->
  let passes (j : Job.t) : Prop :=
    (forall s, query req !! "search" = Some s -> s <> "" ->
       ilike (Job.title j) ("%" ++ s ++ "%")
       || ilike (Job.company j) ("%" ++ s ++ "%") = true)
    /\ (forall s, query req !! "location" = Some s -> s <> "" ->
          ilike (Job.location j) ("%" ++ s ++ "%") = true)
    /\ (forall s, query req !! "job_type" = Some s -> s <> "" ->
          Job.job_type j = Some s) in
  (forall pj, pj ∈ js ->
     exists j, j ∈ jobs st /\ pj = PublicJob.of_job j
               /\ active j = true /\ passes j)
  /\ (cp = 1 -> tj <= limitInt req ->
      forall j, j ∈ jobs st -> active j = true -> passes j ->
                PublicJob.of_job j ∈ js).
Proof.
  intros (all & Hall & -> & -> & -> & _)%get_jobs_page passes.
  assert (Hpass : forall j,
            forallb (fun c : string * (Job.t -> bool) => c.2 j)
              (when_given (query req !! "search") search_clause
               ++ when_given (query req !! "location") location_clause
               ++ when_given (query req !! "job_type") job_type_clause)%list
            = true <-> passes j).
  { intros j. subst passes. rewrite !forallb_app, !andb_true_iff.
    unfold when_given.
    assert (Hone : forall (q : option string)
                     (clause : string -> string * (Job.t -> bool))
                     (P : string -> Prop),
               (forall s, (clause s).2 j = true <-> P s) ->
               forallb (fun c : string * (Job.t -> bool) => c.2 j)
                 match q with
                 | Some t => if String.eqb t "" then [] else [clause t]
                 | None => []
                 end = true
               <-> forall s, q = Some s -> s <> "" -> P s).
    { intros q clause P HP. destruct q as [t|]; [|by split].
      destruct (String.eqb_spec t "") as [->|Hne].
      - split; [|done]. by intros _ s [= <-].
      - cbn [forallb]. rewrite andb_true_r, HP. split.
        + by intros Ht s [= <-].
        + intros Hs. by apply Hs. }
    rewrite (Hone _ search_clause
               (fun s => ilike (Job.title j) ("%" ++ s ++ "%")
                         || ilike (Job.company j) ("%" ++ s ++ "%") = true))
      by done.
    rewrite (Hone _ location_clause
               (fun s => ilike (Job.location j) ("%" ++ s ++ "%") = true))
      by done.
    rewrite (Hone _ job_type_clause (fun s => Job.job_type j = Some s)).
    - tauto.
    - intros s. cbn [job_type_clause snd].
      destruct (Job.job_type j) as [t|]; [|by split].
      rewrite String.eqb_eq. split; congruence. }
  split.
  - intros pj (j & -> & Hj)%list_elem_of_fmap.
    assert (Hin : j ∈ all).
    { apply order_by_elem. eapply subseteq_drop, subseteq_take, Hj. }
    apply (select_where_elem _ _ _ _ j Hall) in Hin as (Hin & Hact & Hcl).
    exists j. split; [done|]. split; [done|]. split; [done|].
    by apply Hpass.
  - intros Hcp Htj j Hj Hact Hp. apply list_elem_of_fmap. exists j.
    split; [done|]. rewrite Hcp. change ((1 - 1) * limitInt req) with 0.
    change (Z.to_nat 0) with 0%nat. rewrite drop_0, take_ge.
    + apply order_by_elem, (select_where_elem _ _ _ _ j Hall).
      split; [done|]. split; [done|]. by apply Hpass.
    + rewrite order_by_length. lia.
Qed.

(** ** Statistics *)

Lemma count_group_keys (k i : option string) (g : list (option string * Z)) :
  i ∈ (count_group k g).*1 <-> i = k \/ i ∈ g.*1.
Proof.
  induction g as [|[k' n] g IH]; cbn [count_group].
  - rewrite fmap_cons, fmap_nil, list_elem_of_singleton, elem_of_nil. tauto.
  - case_bool_decide as E.
    + subst k'. rewrite !fmap_cons, !elem_of_cons. cbn [fst]. tauto.
    + rewrite !fmap_cons, !elem_of_cons, IH. cbn [fst]. tauto.
Qed.

Lemma count_group_NoDup (k : option string) (g : list (option string * Z)) :
  NoDup g.*1 -> NoDup (count_group k g).*1.
Proof.
  induction g as [|[k' n] g IH]; cbn [count_group]; intros Hnd.
  - rewrite fmap_cons, fmap_nil. apply NoDup_singleton.
  - rewrite fmap_cons in Hnd. apply NoDup_cons in Hnd as [Hk' Hnd].
    case_bool_decide as E.
    + rewrite fmap_cons. by apply NoDup_cons.
    + rewrite fmap_cons. apply NoDup_cons. split; [|by apply IH].
      cbn [fst]. rewrite count_group_keys. intros [->|Hin]; [done|].
      by apply Hk'.
Qed.

Lemma count_group_sum (k : option string) (g : list (option string * Z)) :
  foldr Z.add 0 (count_group k g).*2 = foldr Z.add 0 g.*2 + 1.
Proof.
  induction g as [|[k' n] g IH]; cbn [count_group]; [reflexivity|].
  case_bool_decide as E; rewrite !fmap_cons; cbn [foldr snd]; [lia|].
  rewrite IH. lia.
Qed.

Lemma count_group_lookup (k i : option string)
    (g : list (option string * Z)) :
  (list_to_map (count_group k g) : gmap (option string) Z) !! i
  = if decide (k = i)
    then Some (default 0
                 ((list_to_map g : gmap (option string) Z) !! k) + 1)
    else (list_to_map g : gmap (option string) Z) !! i.
Proof.
  induction g as [|[k' n] g IH]; cbn [count_group].
  - rewrite list_to_map_cons, list_to_map_nil, lookup_insert, !lookup_empty.
    by destruct (decide (k = i)).
  - case_bool_decide as E.
    + subst k'. rewrite !list_to_map_cons, !lookup_insert.
      rewrite (decide_True (P := k = k)) by done.
      by destruct (decide (k = i)).
    + rewrite !list_to_map_cons, !lookup_insert, IH.
      rewrite (decide_False (P := k' = k)) by done.
      destruct (decide (k' = i)) as [->|]; [|done].
      by rewrite (decide_False (P := k = i)) by congruence.
Qed.

Lemma group_by_job_type (l pre : list Job.t) (g : list (option string * Z)) :
  let counted (k : option string) (rows : list Job.t) : Z :=
    Z.of_nat (length (List.filter
                        (fun j => bool_decide (Job.job_type j = k)) rows)) in
  let grouped (g : list (option string * Z)) (rows : list Job.t) : Prop :=
    NoDup g.*1 /\ foldr Z.add 0 g.*2 = Z.of_nat (length rows)
    /\ forall k, (list_to_map g : gmap (option string) Z) !! k
                 = if decide (counted k rows = 0) then None
                   else Some (counted k rows) in
  grouped g pre ->
  grouped (foldl (fun g j => count_group (Job.job_type j) g) g l)
    (pre ++ l)%list.
Proof.
  intros counted grouped. revert pre g.
  induction l as [|j l IH]; intros pre g Hg.
  - by rewrite app_nil_r.
  - cbn [foldl]. rewrite (cons_middle j pre l), app_assoc. apply IH.
    destruct Hg as (Hnd & Hsum & Hlook). split; [by apply count_group_NoDup|].
    split.
    + rewrite count_group_sum, Hsum, length_app. cbn [length]. lia.
    + intros k. rewrite count_group_lookup.
      assert (Hc : forall i, counted i (pre ++ [j])%list
                             = counted i pre
                               + if bool_decide (Job.job_type j = i)
                                 then 1 else 0).
      { intros i. unfold counted. rewrite List.filter_app, length_app.
        cbn [List.filter]. case_bool_decide; cbn [length]; lia. }
      rewrite Hc, (Hlook (Job.job_type j)). unfold counted at 3.
      destruct (decide (Job.job_type j = k)) as [->|Hne].
      * rewrite bool_decide_true by done.
        assert (0 <= counted k pre) by (unfold counted; lia).
        rewrite (decide_False (P := counted k pre + 1 = 0)) by lia.
        destruct (decide (counted k pre = 0)) as [->|]; [done|].
        reflexivity.
      * rewrite bool_decide_false by done. rewrite Z.add_0_r. apply Hlook.
Qed.

Lemma filter_both {A : Type} (p q : A -> bool) (l : list A) :
  List.filter q (List.filter p l) = List.filter (fun x => p x && q x) l.
Proof.
  induction l as [|a l IH]; [reflexivity|]. cbn [List.filter].
  destruct (p a); cbn [List.filter andb]; [|done]. by rewrite IH.
Qed.

Lemma is_active_counts (l : list Job.t) :
  (length (List.filter active l) + length (List.filter inactive l)
   <= length l)%nat
  /\ ((length (List.filter active l) + length (List.filter inactive l)
       = length l)%nat
      <-> forall j, j ∈ l -> Job.is_active j <> None).
Proof.
  induction l as [|a l [IHle IHeq]].
  - split; [done|]. split; [|done]. intros _ j Hj. inversion Hj.
  - pose proof (List.filter_length_le active l).
    pose proof (List.filter_length_le inactive l).
    cbn [List.filter].
    assert (Ha : (active a = true /\ inactive a = false
                  /\ Job.is_active a <> None)
                 \/ (active a = false /\ inactive a = true
                     /\ Job.is_active a <> None)
                 \/ (active a = false /\ inactive a = false
                     /\ Job.is_active a = None)).
    { unfold active, inactive.
      destruct (Job.is_active a) as [[]|]; cbn [negb]; auto 10. }
    destruct Ha as [(-> & -> & Ha)|[(-> & -> & Ha)|(-> & -> & Ha)]];
      cbn [length].
    + split; [lia|]. split.
      * intros Hl j [->|Hj]%elem_of_cons; [done|]. apply IHeq; [lia|done].
      * intros Hl.
        enough (length (List.filter active l)
                + length (List.filter inactive l) = length l)%nat by lia.
        apply IHeq. intros j Hj. apply Hl. by right.
    + split; [lia|]. split.
      * intros Hl j [->|Hj]%elem_of_cons; [done|]. apply IHeq; [lia|done].
      * intros Hl.
        enough (length (List.filter active l)
                + length (List.filter inactive l) = length l)%nat by lia.
        apply IHeq. intros j Hj. apply Hl. by right.
    + split; [lia|]. split; [lia|]. intros Hl. exfalso.
      by apply (Hl a); [left|].
Qed.

(** X14. The statistics route is behind the gate: a request that the
    gate refuses gets its 401 or 403. A request that passes gets the
    counts of the table as it is: [totalJobs] rows in all, of which
    [activeJobs] and [inactiveJobs] are disjoint parts that add up to
    the total exactly when no row has a NULL [is_active]; the counts of
    [jobsByType] add up to [activeJobs]. Either way the datastore is left
    as it was. (The five queries of the handler read the same table.) *)
Theorem stats_counts (w : world) (req : request) (st : db) :
  (authenticated w req = None ->
   exists r, get_admin_stats w req st = (StatsRefused r, st)
             /\ (status r = 401 \/ status r = 403))
  /\ (forall s st',
        get_admin_stats w req st = (StatsOk s, st') ->
        st' = st
        /\ authenticated w req <> None
        /\ Stats.totalJobs s = Z.of_nat (length (jobs st))
        /\ 0 <= Stats.activeJobs s /\ 0 <= Stats.inactiveJobs s
        /\ Stats.activeJobs s + Stats.inactiveJobs s <= Stats.totalJobs s
        /\ (Stats.activeJobs s + Stats.inactiveJobs s = Stats.totalJobs s
            <-> forall j, j ∈ jobs st -> Job.is_active j <> None)
        /\ foldr Z.add 0 (Stats.jobsByType s).*2 = Stats.activeJobs s).
Proof.
  unfold get_admin_stats. split.
  - intros Hauth. rewrite Hauth.
    destruct (gate_reject w req (fun _ st' => (server_error, st')) st Hauth)
      as (r & -> & Hr).
    eauto.
  - intros s st'. destruct (authenticated w req); [|discriminate].
    intros [= <- <-]. cbn [Stats.totalJobs Stats.activeJobs
                             Stats.inactiveJobs Stats.jobsByType stats_handler].
    destruct (is_active_counts (jobs st)) as [Hle Heq].
    split; [done|]. split; [done|]. split; [done|].
    split; [lia|]. split; [lia|]. split; [lia|]. split.
    + rewrite <- Heq. lia.
    + unfold jobs_by_type.
      destruct (group_by_job_type (List.filter active (jobs st)) [] [])
        as (_ & Hsum & _); [|exact Hsum].
      split; [constructor|]. split; [done|]. intros k.
      by rewrite list_to_map_nil, lookup_empty.
Qed.

(** X15. [jobsByType] is the GROUP BY of the active rows: no job type
    comes twice (NULL being one group), and a pair of a type and a count
    is in it exactly when the count is the number of active rows of that
    type and is not zero. *)
Theorem stats_by_type (w : world) (req : request) (st st' : db)
    (s : Stats.t) :
  get_admin_stats w req st = (StatsOk s, st') ->
  NoDup (Stats.jobsByType s).*1
  /\ forall k n,
       (k, n) ∈ Stats.jobsByType s
       <-> 0 < n
           /\ n = Z.of_nat
                    (length
                       (List.filter
                          (fun j => active j
                                    && bool_decide (Job.job_type j = k))
                          (jobs st))).
Proof.
  unfold get_admin_stats. destruct (authenticated w req); [|discriminate].
  intros [= <- <-]. cbn [Stats.jobsByType stats_handler]. unfold jobs_by_type.
  destruct (group_by_job_type (List.filter active (jobs st)) [] [])
    as (Hnd & _ & Hlook).
  { split; [constructor|]. split; [done|]. intros k.
    by rewrite list_to_map_nil, lookup_empty. }
  change ([] ++ List.filter active (jobs st))%list
    with (List.filter active (jobs st)) in Hlook.
  split; [exact Hnd|]. intros k n.
  rewrite (elem_of_list_to_map (M := gmap (option string)) _ _ _ Hnd).
  rewrite Hlook, filter_both.
  destruct (decide _) as [E|E]; split.
  - discriminate.
  - intros [Hpos ->]. lia.
  - intros [= <-]. split; [lia|done].
  - by intros [_ ->].
Qed.

(** X16. [recentJobs] holds the five newest rows, or all of them when
    the table has fewer: its entries are the id, title, company and
    [created_at] of rows of the table, newest first, and a row of the
    table that is not listed is not newer than any listed one. *)
Theorem stats_recent (w : world) (req : request) (st st' : db)
    (s : Stats.t) :
  get_admin_stats w req st = (StatsOk s, st') ->
  length (Stats.recentJobs s) = Nat.min 5 (length (jobs st))
  /\ newest_first Stats.created_at (Stats.recentJobs s)
  /\ (forall r, r ∈ Stats.recentJobs s ->
        exists j, j ∈ jobs st /\ r = Stats.of_job j)
  /\ (forall j r, j ∈ jobs st -> Stats.of_job j ∉ Stats.recentJobs s ->
        r ∈ Stats.recentJobs s -> Job.created_at j <= Stats.created_at r).
Proof.
  unfold get_admin_stats. destruct (authenticated w req); [|discriminate].
  intros [= <- <-]. cbn [Stats.recentJobs stats_handler]. unfold recent_jobs.
  pose proof (order_by_sorted (jobs st)) as Hs.
  split; [|split; [|split]].
  - by rewrite length_fmap, length_take, order_by_length.
  - apply (StronglySorted_fmap _
             (fun a b => Job.created_at b <= Job.created_at a)); [done|].
    unfold newest_first in Hs.
    rewrite <- (take_drop 5 (order_by_created_at_desc (jobs st))) in Hs.
    by apply StronglySorted_app_1_l in Hs.
  - intros r (j & -> & Hj)%list_elem_of_fmap. exists j. split; [|done].
    apply order_by_elem. eapply subseteq_take, Hj.
  - intros j r Hj Hout (x & -> & Hx)%list_elem_of_fmap.
    change (Stats.created_at (Stats.of_job x)) with (Job.created_at x).
    apply order_by_elem in Hj.
    rewrite <- (take_drop 5 (order_by_created_at_desc (jobs st))) in Hj, Hs.
    apply elem_of_app in Hj as [Hj|Hj].
    + exfalso. apply Hout, list_elem_of_fmap. eauto.
    + apply (StronglySorted_app_1_elem_of _ _ _ x j Hs Hx Hj).
Qed.

(** ** Toggling and public visibility *)

(** X17. A toggle that passes the gate decides what the public sees of
    the job from then on (under the primary key): the public detail
    route answers 200 with the toggled row when the job was inactive
    before, and 404 when it was active or when its [is_active] was NULL,
    which the toggle leaves NULL. The admin detail route answers 200 with
    the toggled row in every case. *)
Theorem toggle_visibility (w : world) (req : request) (st : db)
    (u : Claims.t) (s : string) (j : Job.t) :
  authenticated w req = Some u ->
  params req !! "id" = Some s -> int4in s = Some (Job.id j) ->
  primary_key st -> j ∈ jobs st ->
  let st' := (patch_admin_jobs_id_toggle w req st).2 in
  let row := toggled (CURRENT_TIMESTAMP w) j in
  forall (w' : world) (req' : request),
    params req' !! "id" = Some s ->
    (Job.is_active j = Some false ->
     get_jobs_id w' req' st' = (res_json (JobDetail row), st'))
    /\ (Job.is_active j <> Some false ->
        get_jobs_id w' req' st' = (job_not_found, st'))
    /\ (Job.is_active j = None -> Job.is_active row = None)
    /\ forall u', authenticated w' req' = Some u' ->
         get_admin_jobs_id w' req' st' = (res_json (JobDetail row), st').
Proof.
  intros Hauth Hid Hint Hpk Hj st' row w' req' Hid'.
  subst st'. rewrite (toggle_statement w req st u s _ Hauth Hid Hint).
  cbn [snd].
  destruct (update_by_id_present (toggled (CURRENT_TIMESTAMP w)) (jobs st) j
              Hpk Hj) as [_ ->].
  fold row.
  set (st' := mkDb _ _ _).
  assert (Hkey : Job.id <$> jobs st' = Job.id <$> jobs st).
  { subst st'. cbn [jobs]. rewrite <- list_fmap_compose.
    apply list_fmap_ext. intros i x _. cbn.
    by destruct (Z.eqb_spec (Job.id x) (Job.id j)) as [->|]. }
  assert (Hpk' : primary_key st') by (unfold primary_key; by rewrite Hkey).
  assert (Hrow : row ∈ jobs st').
  { subst st'. cbn [jobs]. apply list_elem_of_fmap. exists j.
    by rewrite Z.eqb_refl. }
  destruct (detail_of_row st' row s Hpk' Hrow Hint) as [Hadmin Hpublic].
  split; [|split; [|split]].
  - intros Hia. unfold get_jobs_id. rewrite Hid', Hpublic; [done|].
    unfold active, row, toggled. cbn [Job.is_active]. by rewrite Hia.
  - intros Hia. unfold get_jobs_id.
    rewrite Hid', (select_job_id _ _ _ _ Hint).
    rewrite filter_none; [done|].
    intros x Hx. unfold has_id.
    destruct (Z.eqb_spec (Job.id x) (Job.id j)) as [E|E]; [|done].
    rewrite (key_unique Job.id (jobs st') x row Hpk' Hx Hrow E).
    unfold active, row, toggled. cbn [Job.is_active andb].
    by destruct (Job.is_active j) as [[]|].
  - intros Hia. unfold row, toggled. cbn [Job.is_active]. by rewrite Hia.
  - intros u' Hauth'. unfold get_admin_jobs_id.
    rewrite (gate_forward _ _ _ _ u' Hauth').
    unfold admin_job_detail_handler.
    change (params (attach u' req')) with (params req').
    by rewrite Hid', Hadmin.
Qed.

(** X18. An update that sends [is_active: null] stores NULL (only an
    absent [is_active] is replaced by true). The job is then hidden from
    the public detail route, and a toggle does not bring it back: it
    answers 200 with the message of a deactivation and leaves
    [is_active] NULL. *)
Theorem null_is_active (w : world) (req : request) (st : db)
    (u : Claims.t) (columns : Z -> option bool -> Z -> Z -> Job.t)
    (s : string) (j : Job.t) :
  let b := body req in
  authenticated w req = Some u ->
  required_missing b = false ->
  salary_range_invalid (prop b "salary_min") (prop b "salary_max") = false ->
  job_columns (job_parameters b) = Some columns ->
  params req !! "id" = Some s -> int4in s = Some (Job.id j) ->
  primary_key st -> j ∈ jobs st ->
  prop b "is_active" = JNull ->
  exists row st',
    put_admin_jobs_id w req st
    = (res_json (MessageJob "Cập nhật công việc thành công" row), st')
    /\ Job.id row = Job.id j /\ Job.is_active row = None /\ row ∈ jobs st'
    /\ forall (w' : world) (req' : request),
         params req' !! "id" = Some s ->
         get_jobs_id w' req' st' = (job_not_found, st')
         /\ forall u', authenticated w' req' = Some u' ->
              exists row' st'',
                patch_admin_jobs_id_toggle w' req' st'
                = (res_json
                     (MessageJob "Vô hiệu hóa công việc thành công" row'),
                   st'')
                /\ Job.id row' = Job.id j /\ Job.is_active row' = None
                /\ row' ∈ jobs st''.
Proof.
  intros b Hauth Hreq Hsal Hcols Hid Hint Hpk Hj Hnull.
  assert (Hia : nullable boolin
                  (prepareValue (is_active_parameter (prop b "is_active")))
                = Some None) by (by rewrite Hnull).
  pose proof (put_present w req st u columns None s (Job.id j) Hauth Hreq Hsal
                Hcols Hia Hid Hint j Hpk Hj eq_refl) as Hput.
  cbv zeta in Hput.
  destruct (job_columns_fields _ _ _ _ _ _ _ _ _ _ _ _ _ Hcols
              (Job.id j) None (Job.created_at j) (CURRENT_TIMESTAMP w))
    as [(F1 & F2 & _) _].
  cbv zeta in F1, F2.
  set (row := columns _ _ _ _) in *.
  set (st' := mkDb _ _ _) in *.
  exists row, st'. split; [exact Hput|]. split; [done|]. split; [done|].
  assert (Hkey : Job.id <$> jobs st' = Job.id <$> jobs st).
  { subst st'. cbn [jobs]. rewrite <- list_fmap_compose.
    apply list_fmap_ext. intros i x _. cbn.
    destruct (Z.eqb_spec (Job.id x) (Job.id j)) as [->|]; [|done].
    by rewrite F1. }
  assert (Hpk' : primary_key st') by (unfold primary_key; by rewrite Hkey).
  assert (Hrow : row ∈ jobs st').
  { subst st'. cbn [jobs]. apply list_elem_of_fmap. exists j.
    by rewrite Z.eqb_refl. }
  split; [done|]. intros w' req' Hid'.
  assert (Hint' : int4in s = Some (Job.id row)) by (by rewrite F1).
  split.
  - unfold get_jobs_id. rewrite Hid', (select_job_id _ _ _ _ Hint').
    rewrite filter_none; [done|].
    intros x Hx. unfold has_id.
    destruct (Z.eqb_spec (Job.id x) (Job.id row)) as [E|E]; [|done].
    rewrite (key_unique Job.id (jobs st') x row Hpk' Hx Hrow E).
    unfold active. by rewrite F2.
  - intros u' Hauth'.
    rewrite (toggle_statement w' req' st' u' s _ Hauth' Hid' Hint').
    destruct (update_by_id_present (toggled (CURRENT_TIMESTAMP w'))
                (jobs st') row Hpk' Hrow) as [-> ->].
    assert (Hmsg : toggle_message (toggled (CURRENT_TIMESTAMP w') row)
                   = "Vô hiệu hóa công việc thành công").
    { unfold toggle_message, active, toggled. cbn [Job.is_active].
      by rewrite F2. }
    exists (toggled (CURRENT_TIMESTAMP w') row). eexists.
    split; [|split; [|split]].
    + cbv zeta. rewrite Hmsg. reflexivity.
    + done.
    + cbn [toggled Job.is_active]. by rewrite F2.
    + cbn [jobs]. apply list_elem_of_fmap. exists row.
      by rewrite Z.eqb_refl.
Qed.

(** ** A session *)

(** X19. The token of a successful login, presented as [Bearer <token>]
    to the verify route, is answered 200 "Token hợp lệ" with the id and
    the username of the login, the second of the login as [iat] and 24
    hours later as [exp], as long as the clock, in whole seconds, is
    before [exp]; from that second on the answer is 403 "Invalid token".
    The datastore plays no part in it. *)
Theorem verify_after_login (w : world) (req : request) (st st' : db)
    (m token : string) (id : Z) (username email : string) :
  jwt_contract ->
  post_auth_login w req st
  = (res_json (LoginOk m token id username email), st') ->
  forall (w' : world) (req' : request) (st1 : db),
    headers req' !! "authorization" = Some ("Bearer " ++ token) ->
    get_auth_verify w' req' st1
    = (if Date_now w' / 1000 <? Date_now w / 1000 + 24 * 60 * 60
       then res_json
              (VerifyOk "Token hợp lệ"
                 (Some (Claims.mk id username (Date_now w / 1000)
                          (Date_now w / 1000 + 24 * 60 * 60))))
       else mkResponse 403 (Message "Invalid token"), st1).
Proof.
  intros Hjwt Hlogin. pose proof JWT_SECRET_set as Hsecret.
  unfold post_auth_login in Hlogin.
  destruct (negb (truthy _) || negb (truthy _)); [discriminate|].
  destruct (select_admin _ st) as [[|a rest]|]; try discriminate.
  destruct (prop (body req) "password") as [| | | |pw]; try discriminate.
  destruct (bcrypt_compare pw _); [|discriminate].
  injection Hlogin as _ <- <- <- _ _.
  intros w' req' st1 Hhdr.
  destruct (Hjwt (Admin.id a) (Admin.username a) JWT_SECRET
              (Date_now w / 1000) expiresIn Hsecret)
    as (Hne & Hsp & Hver).
  set (tk := jwt_sign _ _ _ _ _) in *.
  assert (Htok : bearer_token (headers req' !! "authorization") = Some tk).
  { rewrite Hhdr. unfold bearer_token.
    change (String.eqb ("Bearer " ++ tk) "") with false. cbv iota.
    by rewrite (split_bearer tk Hsp). }
  unfold get_auth_verify, authenticateToken. rewrite Htok.
  destruct tk as [|c tk'] eqn:Etk; [done|]. rewrite Hver.
  unfold expiresIn. by destruct (_ <? _).
Qed.

End Further.

(** * Start-up *)



Lemma existsb_username (name : string) (rows : list Admin.t) :
  existsb (fun a => String.eqb (Admin.username a) name) rows = true
  <-> exists a, a ∈ rows /\ Admin.username a = name.
Proof.
  rewrite existsb_exists. split; intros (a & Ha & Hn); exists a.
  - split; [by apply list_elem_of_In|by apply String.eqb_eq].
  - split; [by apply list_elem_of_In|by apply String.eqb_eq].
Qed.

(** X20. [initDatabase] leaves both tables in place and no admin row
    changed or removed, and it leaves the jobs alone. It returns only
    when the table then holds a row of username [admin]; a row of that
    username that was there before is kept as it is, password included,
    and the only row it ever adds is the default admin, at the end. The
    usernames stay unique. *)
Theorem initDatabase_contract (now : Z) (c c' : cluster) (ok : bool) :
  initDatabase now c = (ok, c') ->
  let before := (create_table_if_not_exists (admins_table c)).1 in
  exists after seq,
    admins_table c' = Some (after, seq)
    /\ jobs_table c' = Some (create_table_if_not_exists (jobs_table c))
    /\ (after = before
        \/ exists id, after = (before ++ [Admin.mk id "admin"
                                            default_admin_password
                                            "admin@jobportal.com" now])%list)
    /\ (ok = true -> exists a, a ∈ after /\ Admin.username a = "admin")
    /\ ((exists a, a ∈ before /\ Admin.username a = "admin") ->
        after = before)
    /\ (NoDup (Admin.username <$> before) ->
        NoDup (Admin.username <$> after)).
Proof.
  unfold initDatabase.
  destruct (create_table_if_not_exists (admins_table c)) as [rows seq] eqn:Et.
  unfold insert_default_admin.
  destruct (negb (seq <=? 2147483647)).
  { intros [= <- <-]. cbn [fst admins_table jobs_table].
    eexists _, _. split; [done|]. split; [done|]. split; [by left|].
    split; [discriminate|]. by split. }
  destruct (existsb (fun a => String.eqb (Admin.username a) "admin") rows)
    eqn:Eu.
  { intros [= <- <-]. cbn [fst admins_table jobs_table].
    eexists _, _. split; [done|]. split; [done|]. split; [by left|].
    split; [intros _; by apply existsb_username|]. by split. }
  destruct (existsb _ rows || existsb _ rows).
  { intros [= <- <-]. cbn [fst admins_table jobs_table].
    eexists _, _. split; [done|]. split; [done|]. split; [by left|].
    split; [discriminate|]. by split. }
  intros [= <- <-]. cbn [fst admins_table jobs_table].
  eexists _, _. split; [done|]. split; [done|]. split; [right; by eexists|].
  split; [|split].
  - intros _. eexists. split; [apply elem_of_app; right; left|]. done.
  - intros Hex. apply existsb_username in Hex. congruence.
  - intros Hnd. rewrite fmap_app. apply NoDup_app. split; [done|].
    split; [|apply NoDup_singleton].
    intros name (a & -> & Ha)%list_elem_of_fmap Hname.
    apply list_elem_of_singleton in Hname. cbn [Admin.username] in Hname.
    assert (Hex : existsb (fun a => String.eqb (Admin.username a) "admin")
                    rows = true) by (apply existsb_username; eauto).
    congruence.
Qed.

(** X21. Running [initDatabase] again after it has returned changes no
    row: the admins and the jobs are as the first run left them, whenever
    the second run happens. *)
Theorem initDatabase_again (now now' : Z) (c c1 : cluster) :
  initDatabase now c = (true, c1) ->
  exists rows seq seq' ok,
    admins_table c1 = Some (rows, seq)
    /\ initDatabase now' c1
       = (ok, mkCluster (Some (rows, seq')) (jobs_table c1)).
Proof.
  intros Hfirst.
  assert (Hadmin : exists rows seq,
            admins_table c1 = Some (rows, seq)
            /\ existsb (fun a => String.eqb (Admin.username a) "admin") rows
               = true
            /\ exists t, jobs_table c1 = Some t).
  { revert Hfirst. unfold initDatabase.
    destruct (create_table_if_not_exists (admins_table c)) as [rows seq].
    unfold insert_default_admin.
    destruct (negb (seq <=? 2147483647)); [discriminate|].
    destruct (existsb (fun a => String.eqb (Admin.username a) "admin") rows)
      eqn:Eu.
    { intros [= <-]. cbn [admins_table jobs_table]. eauto 10. }
    destruct (existsb _ rows || existsb _ rows); [discriminate|].
    intros [= <-]. cbn [admins_table jobs_table].
    eexists _, _. split; [done|]. split; [|eauto].
    apply existsb_username. eexists.
    split; [apply elem_of_app; right; left|]. done. }
  destruct Hadmin as (rows & seq & Hrows & Hex & t & Ht).
  exists rows, seq, (seq + 1).
  unfold initDatabase. rewrite Hrows, Ht.
  cbn [create_table_if_not_exists insert_default_admin]. rewrite Hex.
  destruct (negb (seq <=? 2147483647)); eauto.
Qed.


(** * The further properties on the sample instance *)

Section Scenarios.
#[local] Existing Instance Sample.platform.

Lemma sample_well_formed : well_formed Sample.store.
Proof.
  split; [apply sample_primary_key|]. intros j Hj.
  repeat (apply elem_of_cons in Hj as [->|Hj]; [by vm_compute|]).
  inversion Hj.
Qed.

Lemma sample_stats :
  get_admin_stats Sample.later (Sample.by_id "1") Sample.store
  = (StatsOk (stats_handler Sample.store), Sample.store).
Proof. vm_compute. reflexivity. Qed.

Lemma sample_initDatabase :
  initDatabase 0 Sample.empty = (true, Sample.initialised).
Proof. vm_compute. reflexivity. Qed.

(** Witness of X1: a delete of job 2 and one of an id that no job has. *)
Lemma delete_removes_witness :
  delete_admin_jobs_id Sample.later (Sample.by_id "9") Sample.store
  = (job_not_found, Sample.store)
  /\ exists st',
       delete_admin_jobs_id Sample.later (Sample.by_id "2") Sample.store
       = (res_json (Message "Xóa công việc thành công"), st')
       /\ jobs st' `sublist_of` jobs Sample.store.
Proof.
  split.
  - apply (delete_removes Sample.later (Sample.by_id "9") Sample.store
             Sample.identity "9" 9);
      try (vm_compute; reflexivity).
    intros x Hx.
    repeat (apply elem_of_cons in Hx as [->|Hx]; [discriminate|]).
    inversion Hx.
  - destruct (delete_removes Sample.later (Sample.by_id "2") Sample.store
                Sample.identity "2" 2)
      as [_ Hpresent]; try (vm_compute; reflexivity).
    destruct (Hpresent Sample.designer)
      as (st' & Hdel & _ & _ & Hsub & _); [listed|reflexivity|].
    exists st'. split; [exact Hdel|exact Hsub].
Defined.

(** Witness of X2: job 2 after its delete. *)
Lemma delete_then_gone_witness :
  let st' :=
    (delete_admin_jobs_id Sample.later (Sample.by_id "2") Sample.store).2 in
  get_jobs_id Sample.much_later (Sample.by_id "2") st' = (job_not_found, st')
  /\ delete_admin_jobs_id Sample.much_later (Sample.by_id "2") st'
     = (job_not_found, st').
Proof.
  intros st'.
  destruct (delete_then_gone Sample.later (Sample.by_id "2") Sample.store
              Sample.identity "2" 2)
    with (w' := Sample.much_later) (req' := Sample.by_id "2")
    as [Hpublic Hadmin]; try (vm_compute; reflexivity).
  destruct (Hadmin Sample.identity) as (_ & Hdelete & _);
    [vm_compute; reflexivity|].
  split; [exact Hpublic|exact Hdelete].
Defined.

(** Witness of X3: the create of the five required fields, then the
    public lookup of the new id. *)
Lemma create_then_lookup_witness :
  let row := Sample.five_columns 4 (Some true) 2000 2000 in
  let st' := mkDb (admins Sample.store) (jobs Sample.store ++ [row]) 5 in
  Job.id row = jobs_id_seq Sample.store
  /\ get_jobs_id Sample.much_later (Sample.by_id "4") st'
     = (res_json (JobDetail row), st').
Proof.
  intros row st'.
  destruct (create_then_lookup Sample.later Sample.create_five Sample.store
              st' "Tạo công việc thành công" row sample_primary_key)
    as (_ & (Hid & _) & Hlookup); [vm_compute; reflexivity|].
  destruct (Hlookup Sample.much_later (Sample.by_id "4") "4") as [Hpublic _];
    try (vm_compute; reflexivity).
  split; [exact Hid|exact Hpublic].
Defined.

(** Witness of X4: a create and an update with an empty title. *)
Lemma required_fields_witness :
  post_admin_jobs Sample.later Sample.no_title Sample.store
  = (mkResponse 400 (Message required_message), Sample.store)
  /\ put_admin_jobs_id Sample.later Sample.no_title Sample.store
     = (mkResponse 400 (Message required_message), Sample.store).
Proof.
  apply (required_fields Sample.later Sample.no_title Sample.store
           Sample.identity "title").
  - vm_compute. reflexivity.
  - listed.
  - vm_compute. reflexivity.
Defined.

(** Witness of X5: the login of the sample admin. *)
Lemma login_contract_witness :
  post_auth_login Sample.at_login Sample.login Sample.store
  = (res_json
       (LoginOk "Đăng nhập thành công" Sample.token 1 "admin"
          "admin@jobportal.com"), Sample.store).
Proof.
  destruct (login_contract Sample.at_login Sample.login Sample.store)
    as (_ & Hfound & _).
  destruct (Hfound "admin" Sample.admin) as [Hlogin _];
    [vm_compute; reflexivity|vm_compute; reflexivity|vm_compute; reflexivity
    |unfold unique_username; cbn; apply NoDup_singleton|listed|reflexivity|].
  apply (Hlogin "admin123");
    [vm_compute; reflexivity|discriminate|vm_compute; reflexivity].
Defined.

(** Witness of X6: an id that is not a number. *)
Lemma malformed_id_witness :
  get_jobs_id Sample.later (Sample.by_id "abc") Sample.store
  = (server_error, Sample.store)
  /\ delete_admin_jobs_id Sample.later (Sample.by_id "abc") Sample.store
     = (server_error, Sample.store).
Proof.
  destruct (malformed_id Sample.later (Sample.by_id "abc") Sample.store "abc")
    as [Hpublic Hadmin]; try (vm_compute; reflexivity).
  destruct (Hadmin Sample.identity) as (_ & Hdelete & _);
    [vm_compute; reflexivity|].
  split; [exact Hpublic|exact Hdelete].
Defined.

(** Witness of X8: the invariant after the sample session. *)
Lemma well_formed_kept_witness :
  well_formed (serve Sample.session Sample.store)
  /\ jobs_id_seq Sample.store <= jobs_id_seq (serve Sample.session Sample.store).
Proof.
  apply (well_formed_kept Sample.session Sample.store sample_well_formed).
Defined.

(** Witness of X9: job 1 after the sample session. *)
Lemma ids_not_reused_witness :
  jobs_id_seq Sample.store <= 1
  \/ exists j, j ∈ jobs Sample.store /\ Job.id j = 1
               /\ Job.created_at j = 100.
Proof.
  apply (ids_not_reused Sample.session Sample.store
           (toggled 3000 Sample.engineer)).
  vm_compute. apply list_elem_of_here.
Defined.

(** Witness of X10: requests that only read or that the gate refuses. *)
Lemma nothing_written_without_token_witness :
  serve Sample.outsiders Sample.store = Sample.store.
Proof.
  apply nothing_written_without_token. intros r w req Hin.
  repeat (apply elem_of_cons in Hin as [[= -> -> ->]|Hin];
          [first [left; reflexivity | right; vm_compute; reflexivity]|]).
  inversion Hin.
Defined.

(** Witness of X11: both listings of the sample store. *)
Lemma listings_newest_first_witness :
  newest_first PublicJob.created_at
    [PublicJob.of_job Sample.tester; PublicJob.of_job Sample.engineer]
  /\ newest_first Job.created_at
       [Sample.tester; Sample.designer; Sample.engineer].
Proof.
  destruct (listings_newest_first Sample.later (Sample.listing "10")
              Sample.store Sample.store 200) as [Hpublic Hadmin].
  split.
  - apply (Hpublic _ 1 1 2 false false). vm_compute. reflexivity.
  - apply (Hadmin _ 1 1 3). vm_compute. reflexivity.
Defined.


(** Witness of X13: a listing with every filter. *)
Lemma listing_filters_witness :
  exists j, j ∈ jobs Sample.store
            /\ PublicJob.of_job Sample.engineer = PublicJob.of_job j
            /\ active j = true /\ Job.job_type j = Some "Part-time".
Proof.
  destruct (listing_filters Sample.later Sample.filtered Sample.store
              Sample.store 200 [PublicJob.of_job Sample.engineer]
              1 1 1 false false)
    as [Hsound _]; [vm_compute; reflexivity|].
  destruct (Hsound (PublicJob.of_job Sample.engineer))
    as (j & Hj & Hsame & Hactive & _ & _ & Htype); [listed|].
  exists j. split; [exact Hj|]. split; [exact Hsame|].
  split; [exact Hactive|].
  apply Htype; [vm_compute; reflexivity|discriminate].
Defined.

(** Witness of X14: the counts of the sample store. *)
Lemma stats_counts_witness :
  let s := stats_handler Sample.store in
  Stats.activeJobs s + Stats.inactiveJobs s = Stats.totalJobs s
  /\ foldr Z.add 0 (Stats.jobsByType s).*2 = Stats.activeJobs s.
Proof.
  intros s.
  destruct (stats_counts Sample.later (Sample.by_id "1") Sample.store)
    as [_ Hpassed].
  destruct (Hpassed s Sample.store sample_stats)
    as (_ & _ & _ & _ & _ & _ & Hall & Hsum).
  split; [|exact Hsum]. apply Hall. intros j Hj.
  repeat (apply elem_of_cons in Hj as [->|Hj]; [discriminate|]).
  inversion Hj.
Defined.

(** Witness of X15: the full-time jobs of the sample store. *)
Lemma stats_by_type_witness :
  let s := stats_handler Sample.store in
  NoDup (Stats.jobsByType s).*1
  /\ ((Some "Full-time", 1) ∈ Stats.jobsByType s
      <-> 0 < 1
          /\ 1 = Z.of_nat
                   (length
                      (List.filter
                         (fun j => active j
                                   && bool_decide
                                        (Job.job_type j = Some "Full-time"))
                         (jobs Sample.store)))).
Proof.
  intros s.
  destruct (stats_by_type Sample.later (Sample.by_id "1") Sample.store
              Sample.store s sample_stats) as [Hkeys Hcount].
  split; [exact Hkeys|exact (Hcount (Some "Full-time") 1)].
Defined.

(** Witness of X16: the recent jobs of the sample store. *)
Lemma stats_recent_witness :
  let s := stats_handler Sample.store in
  length (Stats.recentJobs s) = 3%nat
  /\ newest_first Stats.created_at (Stats.recentJobs s).
Proof.
  intros s.
  destruct (stats_recent Sample.later (Sample.by_id "1") Sample.store
              Sample.store s sample_stats) as (Hlength & Hsorted & _).
  split; [exact Hlength|exact Hsorted].
Defined.

(** Witness of X17: job 2, which is inactive, after its toggle. *)
Lemma toggle_visibility_witness :
  let st' :=
    (patch_admin_jobs_id_toggle Sample.later (Sample.by_id "2")
       Sample.store).2 in
  get_jobs_id Sample.much_later (Sample.by_id "2") st'
  = (res_json (JobDetail (toggled 2000 Sample.designer)), st').
Proof.
  intros st'.
  assert (Hlisted : Sample.designer ∈ jobs Sample.store) by listed.
  destruct (@toggle_visibility Sample.platform
              Sample.later (Sample.by_id "2") Sample.store
              Sample.identity "2" Sample.designer
              ltac:(vm_compute; reflexivity) ltac:(vm_compute; reflexivity)
              ltac:(vm_compute; reflexivity) sample_primary_key Hlisted
              Sample.much_later (Sample.by_id "2")
              ltac:(vm_compute; reflexivity))
    as (Hshown & _).
  apply Hshown. reflexivity.
Defined.

(** Witness of X18: an update of job 1 with [is_active: null]. *)
Lemma null_is_active_witness :
  exists row st',
    put_admin_jobs_id Sample.later Sample.update_null Sample.store
    = (res_json (MessageJob "Cập nhật công việc thành công" row), st')
    /\ Job.is_active row = None
    /\ get_jobs_id Sample.much_later (Sample.by_id "1") st'
       = (job_not_found, st').
Proof.
  destruct (null_is_active Sample.later Sample.update_null Sample.store
              Sample.identity Sample.five_columns "1" Sample.engineer)
    as (row & st' & Hput & _ & Hnull & _ & Hafter);
    try (vm_compute; reflexivity).
  - apply sample_primary_key.
  - listed.
  - destruct (Hafter Sample.much_later (Sample.by_id "1")) as [Hpublic _];
      [vm_compute; reflexivity|].
    exists row, st'. split; [exact Hput|]. split; [exact Hnull|exact Hpublic].
Defined.

(** Witness of X19: the sample token 23 and 25 hours after the login. *)
Lemma verify_after_login_witness :
  get_auth_verify Sample.after_23h (Sample.by_id "1") Sample.store
  = (res_json (VerifyOk "Token hợp lệ" (Some Sample.identity)), Sample.store)
  /\ get_auth_verify Sample.after_25h (Sample.by_id "1") Sample.store
     = (mkResponse 403 (Message "Invalid token"), Sample.store).
Proof.
  assert (Hlogin : post_auth_login Sample.at_login Sample.login Sample.store
                   = (res_json
                        (LoginOk "Đăng nhập thành công" Sample.token 1
                           "admin" "admin@jobportal.com"), Sample.store))
    by (vm_compute; reflexivity).
  pose proof (verify_after_login Sample.at_login Sample.login Sample.store
                Sample.store _ _ _ _ _ sample_jwt_contract Hlogin) as Hverify.
  split.
  - apply (Hverify Sample.after_23h (Sample.by_id "1") Sample.store).
    vm_compute. reflexivity.
  - apply (Hverify Sample.after_25h (Sample.by_id "1") Sample.store).
    vm_compute. reflexivity.
Defined.

(** Witness of X20: the first start on a database without tables. *)
Lemma initDatabase_contract_witness :
  exists after seq,
    admins_table Sample.initialised = Some (after, seq)
    /\ jobs_table Sample.initialised = Some ([], 1)
    /\ exists a, a ∈ after /\ Admin.username a = "admin".
Proof.
  destruct (initDatabase_contract 0 Sample.empty Sample.initialised true
              sample_initDatabase)
    as (after & seq & Hadmins & Hjobs & _ & Hadmin & _).
  exists after, seq. split; [exact Hadmins|]. split; [exact Hjobs|].
  by apply Hadmin.
Defined.

(** Witness of X21: a second start. *)
Lemma initDatabase_again_witness :
  exists rows seq seq' ok,
    admins_table Sample.initialised = Some (rows, seq)
    /\ initDatabase 5 Sample.initialised
       = (ok, mkCluster (Some (rows, seq')) (jobs_table Sample.initialised)).
Proof.
  exact (initDatabase_again 0 5 Sample.empty Sample.initialised
           sample_initDatabase).
Defined.


End Scenarios.
